(** * RFFL Week Won: median scoring and anomaly detection engine

    A shallow embedding of the two JavaScript classes that carry the
    algorithmic content of the repository,

    - [MedianCalculator] (the "RFFL Week 1 Median Calculation Engine"), and
    - [ScoringAgent] (the "RFFL Scoring Agent"),

    followed by the properties of the specification that concern them.

    JavaScript numbers are IEEE 754 binary64 values; they are embedded as
    Rocq's primitive [float]s, so every definition below computes with the
    very arithmetic the program uses. *)

From Stdlib Require Import String ZArith List Bool Lia PeanoNat Permutation Sorted.
From Stdlib Require Uint63.
From Stdlib Require Import Floats DecimalString.
Import ListNotations.

Set Warnings "-inexact-float".

Local Open Scope string_scope.
Local Open Scope list_scope.

(* ================================================================== *)
(** * JavaScript numbers *)
(* ================================================================== *)

Module Js.

(** The comparisons [a > b], [a >= b] on numbers. *)
Definition gt (a b : float) : bool := (b <? a)%float.
Definition ge (a b : float) : bool := (b <=? a)%float.
Definition lt (a b : float) : bool := (a <? b)%float.
Definition le (a b : float) : bool := (a <=? b)%float.

(** [a === b] on numbers: IEEE equality ([NaN] differs from itself,
    the two zeros are equal). *)
Definition strict_eq (a b : float) : bool := (a =? b)%float.

(** A number is falsy when it is [0], [-0] or [NaN]. *)
Definition truthy (a : float) : bool := negb (is_nan a || is_zero a).

(** [x || 0] on a number. *)
Definition or_zero (a : float) : float := if truthy a then a else 0%float.

(** The integer [z] as a number, for [|z| < 2^63]. *)
Definition of_Z (z : Z) : float :=
  match z with
  | Z0 => 0%float
  | Zpos _ => PrimFloat.of_uint63 (Uint63.of_Z z)
  | Zneg _ => (- PrimFloat.of_uint63 (Uint63.of_Z (Z.abs z)))%float
  end.

Definition of_nat (n : nat) : float := of_Z (Z.of_nat n).

(** [Math.round]: the integer nearest to [x], a tie going to the larger
    one; [NaN], the infinities and the zeros are returned unchanged, and
    a result that rounds to zero from below keeps the sign of [x]. The
    finite case is computed exactly on the binary expansion
    [(-1)^s * m * 2^e] that [Prim2SF] gives: [floor (x + 1/2)]. *)
Definition round (x : float) : float :=
  match Prim2SF x with
  | S754_finite s m e =>
      if (0 <=? e)%Z then x
      else if (e <? -1100)%Z then (if s then (-0)%float else 0%float)
      else
        let k := (- e)%Z in
        let v := if s then Zneg m else Zpos m in
        let r := Z.shiftr (v + Z.shiftl 1 (k - 1)) k in
        if (r =? 0)%Z then (if s then (-0)%float else 0%float) else of_Z r
  | _ => x
  end.

(** [Math.max(a, b)] and [Math.min(a, b)]: [NaN] if either is [NaN];
    [+0] is larger than [-0]. *)
Definition max2 (a b : float) : float :=
  if is_nan a || is_nan b then nan
  else if (a <? b)%float then b
  else if (b <? a)%float then a
  else if get_sign a then b else a.

Definition min2 (a b : float) : float :=
  if is_nan a || is_nan b then nan
  else if (a <? b)%float then a
  else if (b <? a)%float then b
  else if get_sign a then a else b.

(** [Math.max(...xs)] is [-Infinity] on no argument, [Math.min(...xs)]
    is [Infinity]. *)
Definition max (xs : list float) : float := fold_left max2 xs neg_infinity.
Definition min (xs : list float) : float := fold_left min2 xs infinity.

(** [xs.reduce((sum, x) => sum + x, 0)]. *)
Definition sum (xs : list float) : float :=
  fold_left (fun sum x => (sum + x)%float) xs 0%float.

(** [xs[i]] read as a number: a missing element is [undefined], which
    arithmetic turns into [NaN]. *)
Definition at_ (xs : list float) (i : Z) : float :=
  if (i <? 0)%Z then nan else nth (Z.to_nat i) xs nan.

(** [Array.prototype.sort(comparefn)] on elements other than [undefined]
    (those are set aside first, see [sort_values]). For a comparator that
    is a consistent order the language fixes the result: the stable sorted
    arrangement. Where the comparator answers [NaN] the arrangement is the
    engine's own; the definitions follow V8 (Chrome, Node), which sorts an
    array of fewer than 64 elements as one run: the longest sorted prefix
    is taken as it is (reversed, if it is strictly descending), and each
    later element is put in place by a binary search. A longer array V8
    cuts into several such runs and merges them, with the same result
    whenever the comparator is consistent; the merging is not modelled. *)
Section Sort.
Context {A : Type} (cmp : A -> A -> float).

(** [order < 0] for [order = comparefn(x, y)], where a [NaN] counts as
    [0]. *)
Definition precedes (x y : A) : bool := lt (cmp x y) 0.

(** The loop of [CountAndMakeRun]: the elements after [previous] that
    continue the run, and what is left. *)
Fixpoint run_end (descending : bool) (previous : A) (rest : list A)
    : list A * list A :=
  match rest with
  | [] => ([], [])
  | current :: rest' =>
      if Bool.eqb (precedes current previous) descending then
        let (run, remaining) := run_end descending current rest' in
        (current :: run, remaining)
      else ([], rest)
  end.

(** [CountAndMakeRun] on an array that starts with [first], [second]. *)
Definition make_run (first second : A) (rest : list A) : list A * list A :=
  let descending := precedes second first in
  let (run, remaining) := run_end descending second rest in
  let run := first :: second :: run in
  (if descending then rev run else run, remaining).

(** The binary search of [BinaryInsertionSort]: where [pivot] belongs
    among [sorted], between [left] and [right]. The width halves in every
    turn, so [fuel] turns suffice when [right - left <= fuel]. *)
Fixpoint search (fuel : nat) (sorted : list A) (pivot : A) (left right : nat) : nat :=
  match fuel with
  | O => left
  | S fuel =>
      if (left <? right)%nat then
        let mid := (left + (right - left) / 2)%nat in
        match nth_error sorted mid with
        | Some element =>
            if precedes pivot element
            then search fuel sorted pivot left mid
            else search fuel sorted pivot (S mid) right
        | None => left
        end
      else left
  end.

(** One turn of [BinaryInsertionSort]. *)
Definition insert (sorted : list A) (pivot : A) : list A :=
  let left := search (length sorted) sorted pivot 0 (length sorted) in
  firstn left sorted ++ pivot :: skipn left sorted.

Definition sort (l : list A) : list A :=
  match l with
  | first :: second :: rest =>
      let (run, remaining) := make_run first second rest in
      fold_left insert remaining run
  | _ => l
  end.
End Sort.

(** The decimal rendering of an index in a template string. *)
Definition string_of_nat (n : nat) : string :=
  NilZero.string_of_uint (Nat.to_uint n).

(** [parts.join(sep)]. *)
Definition join (sep : string) (parts : list string) : string :=
  String.concat sep parts.

End Js.

(* ================================================================== *)
(** * Team entries *)
(* ================================================================== *)

(** An error thrown by the program: [new Error(msg)], or the [TypeError]
    the language raises when a method is called on a value that lacks it. *)
Inductive exn : Type :=
| Error (message : string)
| TypeError (message : string).

Definition exn_message (e : exn) : string :=
  match e with Error m => m | TypeError m => m end.

(** The value of a field that should hold a number. Besides numbers the
    model admits [undefined] (a missing field), [null] and booleans; on
    these every arithmetic operator and comparison of the program first
    applies [ToNumber]. Strings and objects in a numeric field are outside
    the model. *)
Inductive jsprim : Type :=
| JUndefined
| JNull
| JBool (b : bool)
| JNum (n : float).

Definition toNumber (v : jsprim) : float :=
  match v with
  | JUndefined => nan
  | JNull => 0%float
  | JBool true => 1%float
  | JBool false => 0%float
  | JNum n => n
  end.

(** [typeof v === 'number'] *)
Definition typeof_number (v : jsprim) : bool :=
  match v with JNum _ => true | _ => false end.

(** One team of the week: [{ team, canonicalCode, score, proj, ... }].
    An identifier is [None] when the field is absent. *)
Record Team : Type := mkTeam {
  team : option string;
  canonicalCode : option string;
  score : jsprim;
  proj : jsprim
}.

(** Truthiness of an identifier field: absent and empty are falsy. *)
Definition truthy_id (i : option string) : bool :=
  match i with
  | Some s => negb (String.eqb s "")
  | None => false
  end.

(** What a caller hands over as [teamData] / [teamScores]: [null],
    [undefined], another value that is not an array and has neither
    [length] nor [map] (a plain object, say), or an array of team
    objects. *)
Inductive candidate : Type :=
| Null
| Undefined
| NotArray
| TeamArray (teams : list Team).

(** The [TypeError] of reading a property of [null] or [undefined]. *)
Definition cannot_read (base prop : string) : exn :=
  TypeError ("Cannot read properties of " ++ base ++ " (reading '" ++ prop ++ "')").

(** [values.sort(comparefn)] on an array of field values.
    [Array.prototype.sort] sets the [undefined] elements aside, sorts the
    others with the comparator, which here subtracts and so sees each
    value through [ToNumber], and puts the [undefined] ones at the end
    without ever comparing them. *)
Definition is_undefined (v : jsprim) : bool :=
  match v with JUndefined => true | _ => false end.

Definition sort_values (cmp : float -> float -> float) (values : list jsprim)
    : list jsprim :=
  Js.sort (fun a b => cmp (toNumber a) (toNumber b))
    (filter (fun v => negb (is_undefined v)) values)
  ++ filter is_undefined values.

(** [l.map((x, index) => f x index)] *)
Fixpoint mapi_from {A B : Type} (i : nat) (f : A -> nat -> B) (l : list A) : list B :=
  match l with
  | [] => []
  | x :: l' => f x i :: mapi_from (S i) f l'
  end.

Definition mapi {A B : Type} (f : A -> nat -> B) (l : list A) : list B :=
  mapi_from 0 f l.

Inductive Outcome : Type := WIN | LOSS | TIE.

Definition Outcome_eqb (a b : Outcome) : bool :=
  match a, b with
  | WIN, WIN | LOSS, LOSS | TIE, TIE => true
  | _, _ => false
  end.

(* ================================================================== *)
(** * MedianCalculator (RFFL Week 1 Median Calculation Engine) *)
(* ================================================================== *)

Module MedianCalculator.

(** The constructor's constants. *)
Definition teamCount : nat := 12.
Definition medianPositions : nat * nat := (5, 6)%nat.
(** [Math.pow(10, this.precision)] with [precision = 2]. *)
Definition pow10_precision : float := 100%float.

(** [roundScore(score)] *)
Definition roundScore (score : float) : float :=
  (Js.round (score * pow10_precision) / pow10_precision)%float.

(** An element of [results]: the team, spread, with its rank and
    outcome. *)
Record TeamResult : Type := mkTeamResult {
  entry : Team;
  rank : nat;
  marginVsMedian : float;
  result : Outcome;
  isAboveMedian : bool;
  isBelowMedian : bool;
  isAtMedian : bool
}.

Definition score_of (t : TeamResult) : float := toNumber (score (entry t)).

Record Stats : Type := mkStats {
  wins : nat;
  losses : nat;
  ties : nat;
  highScore : float;
  lowScore : float;
  averageScore : float;
  avgMarginVsMedian : float;
  medianAsPercentOfAverage : float;
  scoreRange : float
}.

Record MedianResult : Type := mkMedianResult {
  median : float;
  sixthPlaceScore : jsprim;
  seventhPlaceScore : jsprim;
  teams : list TeamResult;
  stats : Stats;
  (** [new Date().toISOString()], kept as the instant it renders. *)
  calculatedAt : Z
}.

Definition count_result (o : Outcome) (results : list TeamResult) : nat :=
  length (filter (fun t => Outcome_eqb (result t) o) results).

(** [calculateMedianStats(results, median)] *)
Definition calculateMedianStats (results : list TeamResult) (median : float) : Stats :=
  let wins := count_result WIN results in
  let losses := count_result LOSS results in
  let ties := count_result TIE results in
  let scores := map score_of results in
  let highScore := Js.max scores in
  let lowScore := Js.min scores in
  let averageScore := roundScore (Js.sum scores / Js.of_nat (length scores)) in
  let marginsVsMedian := map (fun t => abs (marginVsMedian t)) results in
  let avgMarginVsMedian :=
    roundScore (Js.sum marginsVsMedian / Js.of_nat (length marginsVsMedian)) in
  {| wins := wins;
     losses := losses;
     ties := ties;
     highScore := highScore;
     lowScore := lowScore;
     averageScore := averageScore;
     avgMarginVsMedian := avgMarginVsMedian;
     medianAsPercentOfAverage := roundScore ((median / averageScore) * 100);
     scoreRange := roundScore (highScore - lowScore) |}.

(** The body of [sortedTeams.map((team, index) => ...)]. *)
Definition team_result (median : float) (t : Team) (index : nat) : TeamResult :=
  let marginVsMedian := roundScore (toNumber (score t) - median) in
  let result :=
    if Js.gt marginVsMedian 0 then WIN
    else if Js.lt marginVsMedian 0 then LOSS
    else TIE in
  {| entry := t;
     rank := index + 1;
     marginVsMedian := marginVsMedian;
     result := result;
     isAboveMedian := Js.gt marginVsMedian 0;
     isBelowMedian := Js.lt marginVsMedian 0;
     isAtMedian := Js.strict_eq marginVsMedian 0 |}.

Definition by_score_desc (a b : Team) : float :=
  (toNumber (score b) - toNumber (score a))%float.

(** [calculateMedian(teamScores)]; [now] is the instant that
    [new Date()] reads. *)
Definition calculateMedian (now : Z) (teamScores : candidate) : exn + MedianResult :=
  match teamScores with
  | Null | Undefined | NotArray => inl (Error "Expected exactly 12 teams, got 0")
  | TeamArray l =>
      if negb (length l =? teamCount)%nat then
        inl (Error ("Expected exactly " ++ Js.string_of_nat teamCount
                      ++ " teams, got " ++ Js.string_of_nat (length l))%string)
      else
        let sortedTeams := Js.sort by_score_desc l in
        match nth_error sortedTeams (fst medianPositions),
              nth_error sortedTeams (snd medianPositions) with
        | Some sixthPlace, Some seventhPlace =>
            let median :=
              roundScore ((toNumber (score sixthPlace)
                           + toNumber (score seventhPlace)) / 2) in
            let results := mapi (team_result median) sortedTeams in
            let stats := calculateMedianStats results median in
            inr {| median := median;
                   sixthPlaceScore := score sixthPlace;
                   seventhPlaceScore := score seventhPlace;
                   teams := results;
                   stats := stats;
                   calculatedAt := now |}
        | _, _ => inl (TypeError "Cannot read properties of undefined (reading 'score')")
        end
  end.

(** [`${team.score}`] for a score that [validateTeamData] refuses: a
    value that is not of type number, or the number [NaN]. *)
Definition render_refused (v : jsprim) : string :=
  match v with
  | JUndefined => "undefined"
  | JNull => "null"
  | JBool true => "true"
  | JBool false => "false"
  | JNum _ => "NaN"
  end.

(** [validateTeamData(teamData)]: [true], or the first violation thrown. *)
Fixpoint validateTeams (index : nat) (l : list Team) : exn + bool :=
  match l with
  | [] => inr true
  | t :: l' =>
      if negb (typeof_number (score t)) || is_nan (toNumber (score t)) then
        inl (Error ("Invalid score for team at index " ++ Js.string_of_nat index
                      ++ ": " ++ render_refused (score t))%string)
      else if negb (truthy_id (team t)) && negb (truthy_id (canonicalCode t)) then
        inl (Error ("Missing team identifier at index " ++ Js.string_of_nat index)%string)
      else validateTeams (S index) l'
  end.

Definition validateTeamData (teamData : candidate) : exn + bool :=
  match teamData with
  | Null | Undefined | NotArray => inl (Error "Team data must be an array")
  | TeamArray l =>
      if negb (length l =? teamCount)%nat then
        inl (Error ("Expected " ++ Js.string_of_nat teamCount ++ " teams, got "
                      ++ Js.string_of_nat (length l))%string)
      else validateTeams 0 l
  end.

(** [wouldScoreChangeAffectMedian]'s report: the comparison of the two
    medians, or, where [calculateMedian] threw, [wouldChange: false] with
    the error's message. *)
Inductive ChangeReport : Type :=
| Compared (wouldChange : bool) (oldMedian newMedian medianDelta : float)
| NotCompared (error : string).

Definition wouldChange (report : ChangeReport) : bool :=
  match report with
  | Compared b _ _ _ => b
  | NotCompared _ => false
  end.

(** [a === b] on identifier fields: equal strings, or both absent. *)
Definition same_code (a b : option string) : bool :=
  match a, b with
  | Some x, Some y => String.eqb x y
  | None, None => true
  | _, _ => false
  end.

(** [{...team, score: team.canonicalCode === teamCode ? newScore : team.score}];
    the fields of the old result that ride along are overwritten by
    [calculateMedian]. *)
Definition with_score (teamCode : option string) (newScore : jsprim)
    (t : TeamResult) : Team :=
  {| team := team (entry t);
     canonicalCode := canonicalCode (entry t);
     score := if same_code (canonicalCode (entry t)) teamCode
              then newScore else score (entry t);
     proj := proj (entry t) |}.

(** [wouldScoreChangeAffectMedian(currentResults, teamCode, newScore)] *)
Definition wouldScoreChangeAffectMedian (now : Z) (currentResults : MedianResult)
    (teamCode : option string) (newScore : jsprim) : ChangeReport :=
  let currentMedian := median currentResults in
  let updatedScores := map (with_score teamCode newScore) (teams currentResults) in
  match calculateMedian now (TeamArray updatedScores) with
  | inr newResults =>
      Compared (negb (Js.strict_eq (median newResults) currentMedian))
        currentMedian (median newResults)
        (roundScore (median newResults - currentMedian))
  | inl error => NotCompared (exn_message error)
  end.

(** [getCloseToMedianTeams(results, threshold = 5.0)]; [threshold] is
    [None] where the caller leaves the argument out. *)
Definition getCloseToMedianTeams (results : MedianResult) (threshold : option float)
    : list TeamResult :=
  let threshold := match threshold with Some t => t | None => 5.0%float end in
  Js.sort (fun a b => (abs (marginVsMedian a) - abs (marginVsMedian b))%float)
    (filter (fun team => Js.le (abs (marginVsMedian team)) threshold)
       (teams results)).

End MedianCalculator.

(* ================================================================== *)
(** * MedianUtils *)
(* ================================================================== *)

Module MedianUtils.

(** [getMarginClass(marginVsMedian)] *)
Definition getMarginClass (marginVsMedian : float) : string :=
  if Js.gt marginVsMedian 0 then "text-green-400"
  else if Js.lt marginVsMedian 0 then "text-red-400"
  else "text-yellow-400".

End MedianUtils.

(* ================================================================== *)
(** * ScoringAgent (RFFL Scoring Agent) *)
(* ================================================================== *)

Module ScoringAgent.

(** ** Results of a calculation *)

(** An element of [teams]: the team, spread, with its outcome. *)
Record TeamResult : Type := mkTeamResult {
  entry : Team;
  result : Outcome;
  marginVsMedian : float
}.

Definition score_of (t : TeamResult) : float := toNumber (score (entry t)).

Module Stats.
Record t : Type := mk {
  median : float;
  highScore : float;
  lowScore : float;
  range : float;
  winners : nat;
  losers : nat;
  ties : nat;
  averageScore : float;
  standardDeviation : float
}.
End Stats.

(** What a scoring algorithm returns. *)
Record StrategyResult : Type := mkStrategyResult {
  median : float;
  teams : list TeamResult;
  stats : Stats.t;
  quality : float
}.

(** What [calculateWithAlgorithm] returns: the algorithm's result, spread,
    with three more fields. *)
Record CalcResult : Type := mkCalcResult {
  strategy :> StrategyResult;
  algorithm : string;
  calculationTime : float;
  confidence : float
}.

(** ** The scoring algorithms *)

(** [calculateStandardDeviation(scores)]; [Math.pow(d, 2)] is [d * d]. *)
Definition calculateStandardDeviation (scores : list float) : float :=
  let n := Js.of_nat (length scores) in
  let mean := (Js.sum scores / n)%float in
  let squaredDiffs := map (fun score => ((score - mean) * (score - mean))%float) scores in
  let variance := (Js.sum squaredDiffs / n)%float in
  sqrt variance.

Definition count_result (o : Outcome) (teams : list TeamResult) : nat :=
  length (filter (fun t => Outcome_eqb (result t) o) teams).

(** [calculateStats(teams, median)] *)
Definition calculateStats (teams : list TeamResult) (median : float) : Stats.t :=
  let scores := map score_of teams in
  {| Stats.median := median;
     Stats.highScore := Js.max scores;
     Stats.lowScore := Js.min scores;
     Stats.range := (Js.max scores - Js.min scores)%float;
     Stats.winners := count_result WIN teams;
     Stats.losers := count_result LOSS teams;
     Stats.ties := count_result TIE teams;
     Stats.averageScore := (Js.sum scores / Js.of_nat (length scores))%float;
     Stats.standardDeviation := calculateStandardDeviation scores |}.

(** The object every algorithm builds for a team:
    [{...team, result: ..., marginVsMedian: team.score - median}]. *)
Definition team_result (median : float) (t : Team) : TeamResult :=
  let s := toNumber (score t) in
  {| entry := t;
     result := if Js.gt s median then WIN
               else if Js.lt s median then LOSS else TIE;
     marginVsMedian := (s - median)%float |}.

Definition desc (a b : float) : float := (b - a)%float.
Definition asc (a b : float) : float := (a - b)%float.
Definition by_score_desc (a b : TeamResult) : float :=
  (score_of b - score_of a)%float.

(** [Math.round(median * 100) / 100] *)
Definition round2 (median : float) : float :=
  (Js.round (median * 100) / 100)%float.

Definition not_an_array (what : string) : exn :=
  TypeError (what ++ " is not a function")%string.

(** [teamData.map] where [teamData] holds no team: what the call throws. *)
Definition no_map (teamData : candidate) : exn :=
  match teamData with
  | Null => cannot_read "null" "map"
  | Undefined => cannot_read "undefined" "map"
  | _ => not_an_array "teamData.map"
  end.

(** [calculateRFFLMedian(teamData)] *)
Definition calculateRFFLMedian (teamData : candidate) : exn + StrategyResult :=
  match teamData with
  | Null | Undefined | NotArray => inl (no_map teamData)
  | TeamArray l =>
      let scores := map toNumber (sort_values desc (map score l)) in
      if negb (length scores =? 12)%nat then
        inl (Error "RFFL median requires exactly 12 teams")
      else
        let median := ((Js.at_ scores 5 + Js.at_ scores 6) / 2)%float in
        let teams := Js.sort by_score_desc (map (team_result median) l) in
        inr {| median := round2 median;
               teams := teams;
               stats := calculateStats teams median;
               quality := 1.0 |}
  end.

(** [calculateStatisticalMedian(teamData)] *)
Definition calculateStatisticalMedian (teamData : candidate) : exn + StrategyResult :=
  match teamData with
  | Null | Undefined | NotArray => inl (no_map teamData)
  | TeamArray l =>
      let scores := map toNumber (sort_values asc (map score l)) in
      let n := Z.of_nat (length scores) in
      let median :=
        if (n mod 2 =? 0)%Z
        then ((Js.at_ scores (n / 2 - 1) + Js.at_ scores (n / 2)) / 2)%float
        else Js.at_ scores (n / 2) in
      let teams := Js.sort by_score_desc (map (team_result median) l) in
      inr {| median := round2 median;
             teams := teams;
             stats := calculateStats teams median;
             quality := 0.95 |}
  end.

(** The [for] loop of [calculateWeightedMedian], from some position on:
    [weightedData] is what is left of the sorted [(score, weight)] pairs
    ([i < weightedData.length - 1] holds when a pair follows). The result
    is the value of [median] when the loop ends. *)
Fixpoint weighted_loop (weightedData : list (float * float))
    (medianWeight cumulativeWeight : float) : float :=
  match weightedData with
  | [] => 0%float
  | (s, w) :: rest =>
      let cumulativeWeight := (cumulativeWeight + w)%float in
      if Js.ge cumulativeWeight medianWeight then
        match rest with
        | (s', _) :: _ =>
            if Js.strict_eq cumulativeWeight medianWeight
            then ((s + s') / 2)%float else s
        | [] => s
        end
      else weighted_loop rest medianWeight cumulativeWeight
  end.

(** [calculateWeightedMedian(teamData, weights = null)] *)
Definition calculateWeightedMedian (teamData : candidate)
    (weights : option (list float)) : exn + StrategyResult :=
  match teamData with
  | Null | Undefined | NotArray => inl (no_map teamData)
  | TeamArray l =>
      let weights :=
        match weights with
        | Some ws => ws
        | None => map (fun _ => 1%float) l
        end in
      let weightedData :=
        Js.sort (fun a b => (fst a - fst b)%float)
          (mapi (fun team index =>
                   (toNumber (score team), Js.at_ weights (Z.of_nat index))) l) in
      let totalWeight := Js.sum weights in
      let medianWeight := (totalWeight / 2)%float in
      let median := weighted_loop weightedData medianWeight 0 in
      let teams := Js.sort by_score_desc (map (team_result median) l) in
      inr {| median := round2 median;
             teams := teams;
             stats := calculateStats teams median;
             quality := 0.9 |}
  end.

(** ** Values handed to validation rules and anomaly detectors

    The rules and detectors are closures of one parameter, called with
    whatever the caller passes. These are the values that reach them. *)
Inductive jsval : Type :=
| VUndefined
| VNumber (n : float)
| VScores (scores : list float)          (* an array of numbers *)
| VTeams (teams : list TeamResult)       (* an array of team objects *)
| VResult (r : CalcResult)               (* a calculation result *)
| VData (median : float) (teams : list TeamResult) (scores : list float).
                                         (* [{ median, teams, scores }] *)

(** [ToNumber]: an array goes through its string, which is empty for
    [[]], the element's own for a single number, and not numeric
    otherwise; a plain object gives [NaN]. *)
Definition toNumber_val (v : jsval) : float :=
  match v with
  | VUndefined => nan
  | VNumber n => n
  | VScores [] => 0%float
  | VScores [n] => n
  | VScores _ => nan
  | VTeams [] => 0%float
  | VTeams _ => nan
  | VResult _ => nan
  | VData _ _ _ => nan
  end.

Definition truthy_val (v : jsval) : bool :=
  match v with
  | VUndefined => false
  | VNumber n => Js.truthy n
  | _ => true
  end.

(** [v.length], [None] for [undefined]. *)
Definition length_of (v : jsval) : option nat :=
  match v with
  | VScores l => Some (length l)
  | VTeams l => Some (length l)
  | _ => None
  end.

Definition undefined_has_no (prop : string) : exn :=
  TypeError ("Cannot read properties of undefined (reading '" ++ prop ++ "')")%string.

(** [v.teams], [None] for [undefined]; reading it off [undefined] throws. *)
Definition teams_of (v : jsval) : exn + option (list TeamResult) :=
  match v with
  | VUndefined => inl (undefined_has_no "teams")
  | VResult r => inr (Some (teams r))
  | VData _ ts _ => inr (Some ts)
  | _ => inr None
  end.

(** ** Validation *)

Record Validation : Type := mkValidation {
  isValid : bool;
  errors : list string
}.

(** [validateScoreConsistency(teams)]. On an array of numbers every
    [t.score] is [undefined]. *)
Definition validateScoreConsistency (teams : jsval) : exn + bool :=
  let check (scores : list float) :=
    let stdDev := calculateStandardDeviation scores in
    Js.gt stdDev 5 && Js.lt stdDev 50 in
  match teams with
  | VTeams l => inr (check (map score_of l))
  | VScores l => inr (check (map (fun _ => nan) l))
  | VUndefined => inl (undefined_has_no "map")
  | _ => inl (not_an_array "teams.map")
  end.

(** [validateCalculationAccuracy(result)] *)
Definition validateCalculationAccuracy (result : jsval) : exn + bool :=
  match teams_of result with
  | inl e => inl e
  | inr None => inr false
  | inr (Some ts) =>
      if negb (length ts =? 12)%nat then inr false
      else
        let scores :=
          map toNumber (sort_values desc (map (fun t => score (entry t)) ts)) in
        let expectedMedian := ((Js.at_ scores 5 + Js.at_ scores 6) / 2)%float in
        let actualMedian :=
          match result with
          | VResult r => median r
          | VData m _ _ => m
          | _ => nan
          end in
        inr (Js.lt (abs (expectedMedian - actualMedian)) 0.01)
  end.

Record Rule : Type := mkRule {
  validate : jsval -> exn + bool;
  message : string
}.

(** [setupValidationRules()]: the entries of [this.validationRules], in
    insertion order. *)
Definition setupValidationRules : list (string * Rule) :=
  [ ("median_range",
     {| validate := fun median =>
          inr (Js.ge (toNumber_val median) 0 && Js.le (toNumber_val median) 300);
        message := "Median must be between 0 and 300" |});
    ("team_count",
     {| validate := fun teams =>
          inr (truthy_val teams &&
               match length_of teams with
               | Some n => (n =? 12)%nat
               | None => false
               end);
        message := "Must have exactly 12 teams" |});
    ("score_consistency",
     {| validate := fun teams => validateScoreConsistency teams;
        message := "Scores must be consistent and realistic" |});
    ("calculation_accuracy",
     {| validate := fun result => validateCalculationAccuracy result;
        message := "Median calculation must be mathematically accurate" |}) ].

(** One turn of the [forEach] of [validateResult]. *)
Definition apply_rule (result : jsval) (errors : list string)
    (entry : string * Rule) : list string :=
  let (name, rule) := entry in
  match validate rule result with
  | inr true => errors
  | inr false => errors ++ [(name ++ ": " ++ message rule)%string]
  | inl error =>
      errors ++ [(name ++ ": Validation error - " ++ exn_message error)%string]
  end.

(** [validateResult(result)] over the rules [validationRules]. *)
Definition validateResult (validationRules : list (string * Rule))
    (result : jsval) : Validation :=
  let errors := fold_left (apply_rule result) validationRules [] in
  {| isValid := (length errors =? 0)%nat; errors := errors |}.

(** The body of the [forEach] of [preValidateData]. *)
Definition team_errors (team : Team) (index : nat) : list string :=
  (if negb (typeof_number (score team))
   then [("Team " ++ Js.string_of_nat index ++ ": Invalid score")%string]
   else [])
  ++
  (if Js.lt (toNumber (score team)) 0 || Js.gt (toNumber (score team)) 300
   then [("Team " ++ Js.string_of_nat index ++ ": Score out of range")%string]
   else []).

(** [preValidateData(teamData)] *)
Definition preValidateData (teamData : candidate) : Validation :=
  let errors :=
    match teamData with
    | Null | Undefined | NotArray => ["Team data must be an array"]
    | TeamArray l =>
        (if negb (length l =? 12)%nat then ["Must have exactly 12 teams"] else [])
        ++ concat (mapi team_errors l)
    end in
  {| isValid := (length errors =? 0)%nat; errors := errors |}.

(** ** Anomaly detection *)

(** The record of one calculation in [this.medianHistory]. *)
Module History.
Record t : Type := mk {
  timestamp : Z;
  median : float;
  algorithm : string;
  calculationTime : float;
  confidence : float;
  quality : float
}.
End History.

(** An element of [anomalies]; [type] is the constructor. *)
Inductive Anomaly : Type :=
| statistical_outlier (index : nat) (score zScore severity : float)
| historical_median_anomaly (median historicalMean zScore severity : float)
| score_clustering (description : string) (severity : float)
| projection_variance (index : nat) (team : option string)
    (projectionVariance actual projected severity : float).

Definition severity_of (a : Anomaly) : float :=
  match a with
  | statistical_outlier _ _ _ s => s
  | historical_median_anomaly _ _ _ s => s
  | score_clustering _ s => s
  | projection_variance _ _ _ _ _ s => s
  end.

Definition is_statistical_outlier (a : Anomaly) : bool :=
  match a with statistical_outlier _ _ _ _ => true | _ => false end.

(** What a detector returns. *)
Module Detection.
Record t : Type := mk {
  hasAnomalies : bool;
  anomalies : list Anomaly;
  severity : float
}.
End Detection.

(** The [return] shared by the four detectors. *)
Definition report (anomalies : list Anomaly) : Detection.t :=
  {| Detection.hasAnomalies := (0 <? length anomalies)%nat;
     Detection.anomalies := anomalies;
     Detection.severity :=
       if (0 <? length anomalies)%nat
       then Js.max (map severity_of anomalies) else 0%float |}.

(** [detectStatisticalAnomalies(scores)]. On an array of objects the sum
    is a string and every z-score is [NaN], so nothing is flagged. *)
Definition detectStatisticalAnomalies (scores : jsval) : exn + Detection.t :=
  match scores with
  | VScores l =>
      let mean := (Js.sum l / Js.of_nat (length l))%float in
      let stdDev := calculateStandardDeviation l in
      let threshold := 2.5%float in
      let flag (score : float) (index : nat) : list Anomaly :=
        let zScore := abs ((score - mean) / stdDev) in
        if Js.gt zScore threshold
        then [statistical_outlier index score zScore (Js.min2 (zScore / 3) 1)]
        else [] in
      inr (report (concat (mapi flag l)))
  | VTeams _ => inr (report [])
  | VUndefined => inl (undefined_has_no "reduce")
  | _ => inl (not_an_array "scores.reduce")
  end.

(** [detectHistoricalAnomalies(median, scores)] against the history
    [medianHistory]. *)
Definition detectHistoricalAnomalies (medianHistory : list History.t)
    (median : jsval) : exn + Detection.t :=
  let historicalMedians := map History.median medianHistory in
  if (length historicalMedians <? 5)%nat then
    inr {| Detection.hasAnomalies := false;
           Detection.anomalies := [];
           Detection.severity := 0 |}
  else
    let historicalMean :=
      (Js.sum historicalMedians / Js.of_nat (length historicalMedians))%float in
    let historicalStdDev := calculateStandardDeviation historicalMedians in
    let medianZScore :=
      abs ((toNumber_val median - historicalMean) / historicalStdDev) in
    inr (report
           (if Js.gt medianZScore 2.0
            then [historical_median_anomaly (toNumber_val median) historicalMean
                    medianZScore (Js.min2 (medianZScore / 3) 1)]
            else [])).

(** [gaps]: the differences of consecutive elements. *)
Fixpoint gaps_of (scores : list float) : list float :=
  match scores with
  | a :: (b :: _) as rest => (b - a)%float :: gaps_of rest
  | _ => []
  end.

(** [detectPatternAnomalies(data)] *)
Definition detectPatternAnomalies (data : jsval) : exn + Detection.t :=
  match teams_of data with
  | inl e => inl e
  | inr None => inl (undefined_has_no "map")
  | inr (Some ts) =>
      let scores :=
        map toNumber (sort_values asc (map (fun t => score (entry t)) ts)) in
      let gaps := gaps_of scores in
      let averageGap := (Js.sum gaps / Js.of_nat (length gaps))%float in
      let largeGaps := filter (fun gap => Js.gt gap (averageGap * 3)) gaps in
      inr (report
             (if (0 <? length largeGaps)%nat
              then [score_clustering "Unusual gaps between team scores"
                      (Js.min2 (Js.of_nat (length largeGaps) / 3) 1)]
              else []))
  end.

(** [detectProjectionAnomalies(teams)]. On an array of numbers both
    fields read are [undefined]. *)
Definition detectProjectionAnomalies (teams : jsval) : exn + Detection.t :=
  match teams with
  | VTeams l =>
      let flag (t : TeamResult) (index : nat) : list Anomaly :=
        let s := score_of t in
        let p := toNumber (proj (entry t)) in
        let projectionVariance := (abs (s - p) / p)%float in
        if Js.gt projectionVariance 0.5
        then [projection_variance index (team (entry t)) projectionVariance
                s p (Js.min2 projectionVariance 1)]
        else [] in
      inr (report (concat (mapi flag l)))
  | VScores _ => inr (report [])
  | VUndefined => inl (undefined_has_no "forEach")
  | _ => inl (not_an_array "teams.forEach")
  end.

Record Detector : Type := mkDetector {
  detector_name : string;
  detect : list History.t -> jsval -> exn + Detection.t;
  sensitivity : float;
  detector_confidence : float
}.

(** [setupAnomalyDetectors()]: the entries of [this.anomalyDetectors], in
    insertion order. Each [detect] is a closure of the method; only the
    historical one reads [this.medianHistory]. *)
Definition setupAnomalyDetectors : list (string * Detector) :=
  [ ("statistical",
     {| detector_name := "Statistical Outlier Detection";
        detect := fun _ scores => detectStatisticalAnomalies scores;
        sensitivity := 0.8;
        detector_confidence := 0.9 |});
    ("historical",
     {| detector_name := "Historical Comparison";
        detect := fun medianHistory median =>
                    detectHistoricalAnomalies medianHistory median;
        sensitivity := 0.7;
        detector_confidence := 0.85 |});
    ("pattern",
     {| detector_name := "Pattern Analysis";
        detect := fun _ data => detectPatternAnomalies data;
        sensitivity := 0.75;
        detector_confidence := 0.8 |});
    ("projection",
     {| detector_name := "Projection Variance Analysis";
        detect := fun _ teams => detectProjectionAnomalies teams;
        sensitivity := 0.6;
        detector_confidence := 0.75 |}) ].

(** An element of [results] in [detectAnomalies]:
    [{ detector: name, ...detection, confidence }]. *)
Record DetectorResult : Type := mkDetectorResult {
  detector : string;
  detection :> Detection.t;
  result_confidence : float
}.

Module Verdict.
Record t : Type := mk {
  hasAnomalies : bool;
  anomalies : list Anomaly;
  severity : float;
  detectorResults : list DetectorResult
}.
End Verdict.

(** [aggregateAnomalyResults(results)] *)
Definition aggregateAnomalyResults (results : list DetectorResult) : Verdict.t :=
  let allAnomalies := flat_map (fun r : DetectorResult => Detection.anomalies r) results in
  let maxSeverity :=
    Js.max (map (fun r : DetectorResult => Js.or_zero (Detection.severity r)) results
              ++ [0%float]) in
  {| Verdict.hasAnomalies := (0 <? length allAnomalies)%nat;
     Verdict.anomalies := allAnomalies;
     Verdict.severity := maxSeverity;
     Verdict.detectorResults := results |}.

(** ** The agent and its state *)

Record Algorithm : Type := mkAlgorithm {
  algorithm_name : string;
  calculate_with : candidate -> exn + StrategyResult;
  priority : float;
  accuracy : float
}.

(** [setupScoringAlgorithms()]: the entries of [this.scoringAlgorithms].
    The weighted entry is a closure of two parameters that the engine
    calls with one, so [weights] takes its default. *)
Definition setupScoringAlgorithms : list (string * Algorithm) :=
  [ ("rffl_standard",
     {| algorithm_name := "RFFL Standard Median";
        calculate_with := fun scores => calculateRFFLMedian scores;
        priority := 1.0;
        accuracy := 1.0 |});
    ("statistical_median",
     {| algorithm_name := "Statistical Median";
        calculate_with := fun scores => calculateStatisticalMedian scores;
        priority := 0.8;
        accuracy := 0.95 |});
    ("weighted_median",
     {| algorithm_name := "Weighted Median";
        calculate_with := fun scores => calculateWeightedMedian scores None;
        priority := 0.6;
        accuracy := 0.9 |}) ].

(** The three registries of the agent ([Map]s, kept in insertion order). *)
Record Agent : Type := mkAgent {
  scoringAlgorithms : list (string * Algorithm);
  validationRules : list (string * Rule);
  anomalyDetectors : list (string * Detector)
}.

(** [new ScoringAgent(orchestrator)] *)
Definition new : Agent :=
  {| scoringAlgorithms := setupScoringAlgorithms;
     validationRules := setupValidationRules;
     anomalyDetectors := setupAnomalyDetectors |}.

(** [map.get(key)] *)
Fixpoint get {V : Type} (key : string) (m : list (string * V)) : option V :=
  match m with
  | [] => None
  | (k, v) :: m' => if String.eqb key k then Some v else get key m'
  end.

(** What a run leaves behind besides its result. [Invoke] is not an
    action of the program: it marks the call [algorithm.calculate(teamData)]
    so that the order of the calls can be stated. *)
Inductive Event : Type :=
| Invoke (algorithmName : string)
| ConsoleWarn (text : string)
| ConsoleLog (text : string)
| Publish (topic : string) (result : CalcResult) (anomalyCheck : Verdict.t).

(** The mutable state a calculation touches, and the clocks it reads:
    [performance_now k] is what the [k]-th call of [performance.now()]
    returns, [Date_now k] likewise for [Date.now()]. *)
Record State : Type := mkState {
  medianHistory : list History.t;
  performance_now : nat -> float;
  perf_reads : nat;
  Date_now : nat -> Z;
  date_reads : nat;
  events : list Event
}.

(** Computations that read and write the state and may throw. *)
Definition M (A : Type) : Type := State -> (exn + A) * State.

Definition ret {A : Type} (a : A) : M A := fun s => (inr a, s).

Definition bind {A B : Type} (m : M A) (f : A -> M B) : M B :=
  fun s =>
    match m s with
    | (inr a, s') => f a s'
    | (inl e, s') => (inl e, s')
    end.

Definition throw {A : Type} (e : exn) : M A := fun s => (inl e, s).

Definition lift {A : Type} (r : exn + A) : M A := fun s => (r, s).

(** [try { m } catch (error) { handler error }] *)
Definition try_catch {A : Type} (m : M A) (handler : exn -> M A) : M A :=
  fun s =>
    match m s with
    | (inl e, s') => handler e s'
    | r => r
    end.

Declare Scope agent_scope.
Delimit Scope agent_scope with agent.
Notation "x <- m ;; k" := (bind m (fun x => k))
  (at level 61, m at next level, right associativity) : agent_scope.
Notation "m ;;; k" := (bind m (fun _ => k))
  (at level 61, right associativity) : agent_scope.
Local Open Scope agent_scope.

Definition emit (e : Event) : M unit :=
  fun s =>
    (inr tt,
     {| medianHistory := medianHistory s;
        performance_now := performance_now s;
        perf_reads := perf_reads s;
        Date_now := Date_now s;
        date_reads := date_reads s;
        events := events s ++ [e] |}).

(** [performance.now()] *)
Definition read_performance_now : M float :=
  fun s =>
    (inr (performance_now s (perf_reads s)),
     {| medianHistory := medianHistory s;
        performance_now := performance_now s;
        perf_reads := S (perf_reads s);
        Date_now := Date_now s;
        date_reads := date_reads s;
        events := events s |}).

(** [Date.now()] *)
Definition read_Date_now : M Z :=
  fun s =>
    (inr (Date_now s (date_reads s)),
     {| medianHistory := medianHistory s;
        performance_now := performance_now s;
        perf_reads := perf_reads s;
        Date_now := Date_now s;
        date_reads := S (date_reads s);
        events := events s |}).

Definition read_history : M (list History.t) :=
  fun s => (inr (medianHistory s), s).

Definition write_history (h : list History.t) : M unit :=
  fun s =>
    (inr tt,
     {| medianHistory := h;
        performance_now := performance_now s;
        perf_reads := perf_reads s;
        Date_now := Date_now s;
        date_reads := date_reads s;
        events := events s |}).

(** ** The calculation engine *)

(** [calculateWithAlgorithm(algorithmName, teamData)] *)
Definition calculateWithAlgorithm (this : Agent) (algorithmName : string)
    (teamData : candidate) : M CalcResult :=
  match get algorithmName (scoringAlgorithms this) with
  | None => throw (Error ("Unknown algorithm: " ++ algorithmName)%string)
  | Some algorithm =>
      startTime <- read_performance_now ;;
      emit (Invoke algorithmName) ;;;
      result <- lift (calculate_with algorithm teamData) ;;
      endTime <- read_performance_now ;;
      let calculationTime := (endTime - startTime)%float in
      ret {| strategy := result;
             algorithm := algorithmName;
             calculationTime := calculationTime;
             confidence := accuracy algorithm |}
  end.

(** The [for] loop of [anomalySystem.detectAnomalies]: a detector that
    throws is reported on the console and contributes nothing. *)
Fixpoint run_detectors (detectors : list (string * Detector)) (data : jsval)
    (results : list DetectorResult) : M (list DetectorResult) :=
  match detectors with
  | [] => ret results
  | (name, detector) :: rest =>
      medianHistory <- read_history ;;
      match detect detector medianHistory data with
      | inr detection =>
          run_detectors rest data
            (results ++ [ {| detector := name;
                             detection := detection;
                             result_confidence := detector_confidence detector |} ])
      | inl error =>
          emit (ConsoleWarn ("Anomaly detector " ++ name ++ " failed:")%string) ;;;
          run_detectors rest data results
      end
  end.

(** [anomalySystem.detectAnomalies(data)] *)
Definition detectAnomalies (this : Agent) (data : jsval) : M Verdict.t :=
  results <- run_detectors (anomalyDetectors this) data [] ;;
  ret (aggregateAnomalyResults results).

(** [performAnomalyDetection(result)] *)
Definition performAnomalyDetection (this : Agent) (result : CalcResult) : M Verdict.t :=
  detectAnomalies this
    (VData (median result) (teams result) (map score_of (teams result))).

(** [flagForReview(result, anomalyCheck)] *)
Definition flagForReview (result : CalcResult) (anomalyCheck : Verdict.t) : M unit :=
  emit (Publish "scoring.anomaly.detected" result anomalyCheck).

(** The record [storeCalculationHistory] pushes. *)
Definition history_record (timestamp : Z) (result : CalcResult) : History.t :=
  {| History.timestamp := timestamp;
     History.median := median result;
     History.algorithm := algorithm result;
     History.calculationTime := calculationTime result;
     History.confidence := confidence result;
     History.quality := quality result |}.

(** [medianHistory.push(record)], then [shift()] when more than the last
    100 calculations are held. *)
Definition push_bounded (medianHistory : list History.t) (record : History.t)
    : list History.t :=
  let medianHistory := medianHistory ++ [record] in
  if (100 <? length medianHistory)%nat then tl medianHistory else medianHistory.

(** [storeCalculationHistory(result)] *)
Definition storeCalculationHistory (result : CalcResult) : M unit :=
  timestamp <- read_Date_now ;;
  medianHistory <- read_history ;;
  write_history (push_bounded medianHistory (history_record timestamp result)).

(** The [for] loop of [intelligentCalculator.calculateWithFallback]. An
    attempt yields [Some result] where the loop body returns, [None] where
    it falls through to the next algorithm. *)
Fixpoint fallback_loop (this : Agent) (algorithms : list string)
    (teamData : candidate) : M CalcResult :=
  match algorithms with
  | [] => throw (Error "All calculation algorithms failed")
  | algorithmName :: rest =>
      attempt <-
        try_catch
          (result <- calculateWithAlgorithm this algorithmName teamData ;;
           let validation := validateResult (validationRules this) (VResult result) in
           if isValid validation then
             emit (ConsoleLog ("Fallback calculation successful with "
                                 ++ algorithmName)%string) ;;;
             ret (Some result)
           else ret None)
          (fun error =>
             emit (ConsoleWarn ("Fallback algorithm " ++ algorithmName
                                  ++ " failed:")%string) ;;;
             ret None) ;;
      match attempt with
      | Some result => ret result
      | None => fallback_loop this rest teamData
      end
  end.

(** [intelligentCalculator.calculateWithFallback(teamData)]: the property
    [calculateWithFallback] of the object [this.intelligentCalculator]. *)
Definition calculateWithFallback (this : Agent) (teamData : candidate) : M CalcResult :=
  let algorithms := ["statistical_median"; "weighted_median"] in
  fallback_loop this algorithms teamData.

(** [this.calculateWithFallback(teamData)], as [calculate] writes the call.
    [calculate] is an arrow function created inside the method
    [setupIntelligentMedianCalculation], so [this] in its body is the
    agent, as it is for [this.calculateWithAlgorithm] and
    [this.validateResult] next to it. The class [ScoringAgent] declares no
    member [calculateWithFallback]: the function of that name is a
    property of the object literal assigned to [this.intelligentCalculator].
    So [this.calculateWithFallback] is [undefined], and calling it throws. *)
Definition this_calculateWithFallback (this : Agent) (teamData : candidate)
    : M CalcResult :=
  throw (TypeError "this.calculateWithFallback is not a function").

(** [intelligentCalculator.calculate(teamData)] *)
Definition calculate (this : Agent) (teamData : candidate) : M CalcResult :=
  let preValidation := preValidateData teamData in
  if negb (isValid preValidation) then
    throw (Error ("Pre-validation failed: "
                    ++ Js.join ", " (errors preValidation))%string)
  else
    primaryResult <- calculateWithAlgorithm this "rffl_standard" teamData ;;
    let validation := validateResult (validationRules this) (VResult primaryResult) in
    if negb (isValid validation) then
      emit (ConsoleWarn "Primary calculation failed validation, trying alternative") ;;;
      this_calculateWithFallback this teamData
    else
      anomalyCheck <- performAnomalyDetection this primaryResult ;;
      (if Verdict.hasAnomalies anomalyCheck
          && Js.gt (Verdict.severity anomalyCheck) 0.8
       then
         emit (ConsoleWarn "Anomalies detected, flagging for review") ;;;
         flagForReview primaryResult anomalyCheck
       else ret tt) ;;;
      storeCalculationHistory primaryResult ;;;
      ret primaryResult.

(** The state a call of [calculateWithAlgorithm] that returns leaves
    behind: the clock was read twice around the call of the algorithm. *)
Definition after_call (algorithmName : string) (s : State) : State :=
  {| medianHistory := medianHistory s;
     performance_now := performance_now s;
     perf_reads := S (S (perf_reads s));
     Date_now := Date_now s;
     date_reads := date_reads s;
     events := events s ++ [Invoke algorithmName] |}.

(** The state after [console.warn(text)]. *)
Definition warned (text : string) (s : State) : State :=
  snd (emit (ConsoleWarn text) s).

(** A caller that records the results of several calculations, one after
    the other. *)
Fixpoint store_all (results : list CalcResult) : M unit :=
  match results with
  | [] => ret tt
  | result :: rest => storeCalculationHistory result ;;; store_all rest
  end.

(** The algorithms a run called, in order. *)
Definition invoked (events : list Event) : list string :=
  flat_map (fun e => match e with Invoke a => [a] | _ => [] end) events.

(** ** The agent's own condition *)

(** [this.state] *)
Record Status : Type := mkStatus {
  isActive : bool;
  lastActivity : Z;
  healthScore : float;
  calculationAccuracy : float;
  anomalyDetectionRate : float
}.

(** What the agent publishes on the message bus besides the flag for
    review: the topic is the constructor, the payload its arguments. *)
Inductive Message : Type :=
| agent_error (agent error severity : string)
| scoring_quality_degraded (averageQuality : float) (recentCalculations : nat)
| scoring_performance_slow (averageTime threshold : float)
| scoring_manual_review_needed (result : CalcResult) (reason : string)
| scoring_updated (median : float) (teams : list TeamResult) (quality confidence : float).

(** [updateScoringState(result)]; [now] is what [Date.now()] reads. *)
Definition updateScoringState (now : Z) (result : CalcResult) (state : Status) : Status :=
  {| isActive := isActive state;
     lastActivity := now;
     healthScore :=
       if Js.gt (quality result) 0.9 then Js.min2 1.0 (healthScore state + 0.01)
       else if Js.lt (quality result) 0.7 then Js.max2 0.1 (healthScore state - 0.05)
       else healthScore state;
     calculationAccuracy := confidence result;
     anomalyDetectionRate := anomalyDetectionRate state |}.

(** [handleScoringError(error)]: the new state and the message published. *)
Definition handleScoringError (error : exn) (state : Status) : Status * Message :=
  ({| isActive := isActive state;
      lastActivity := lastActivity state;
      healthScore := Js.max2 0 (healthScore state - 0.1);
      calculationAccuracy := calculationAccuracy state;
      anomalyDetectionRate := anomalyDetectionRate state |},
   agent_error "ScoringAgent" (exn_message error) "high").

(** [array.slice(-n)]: the last [n] elements, all of them if there are
    fewer. *)
Definition last_n {A : Type} (n : nat) (l : list A) : list A :=
  skipn (length l - n) l.

(** [monitorScoringHealth()] on the history [medianHistory]: the messages
    it publishes, in order. *)
Definition monitorScoringHealth (medianHistory : list History.t) : list Message :=
  let recentCalculations := last_n 10 medianHistory in
  if (length recentCalculations =? 0)%nat then []
  else
    let n := Js.of_nat (length recentCalculations) in
    let avgQuality := (Js.sum (map History.quality recentCalculations) / n)%float in
    let avgTime := (Js.sum (map History.calculationTime recentCalculations) / n)%float in
    (if Js.lt avgQuality 0.8
     then [scoring_quality_degraded avgQuality (length recentCalculations)]
     else [])
    ++ (if Js.gt avgTime 100
        then [scoring_performance_slow avgTime 100]
        else []).

(** ** Self-tuning *)

(** [map.get(key)] followed by a change of the object found: the entry
    keeps its place, a missing key changes nothing. *)
Fixpoint adjust {V : Type} (key : string) (f : V -> V) (m : list (string * V))
    : list (string * V) :=
  match m with
  | [] => []
  | (k, v) :: m' =>
      if String.eqb key k then (k, f v) :: m' else (k, v) :: adjust key f m'
  end.

(** An entry of [algorithms] in [analyzeCalculationPatterns]. *)
Record Performance : Type := mkPerformance {
  count : nat;
  totalTime : float;
  accuracies : list float
}.

(** What [analyzeCalculationPatterns] returns when it does not return [{}].
    [algorithmPerformance] is an object keyed by algorithm name; its keys
    are kept in the order in which they were first set, which is the order
    [Object.entries] gives for names such as the registry's. *)
Record Patterns : Type := mkPatterns {
  algorithmPerformance : list (string * Performance);
  averageTiming : float;
  averageAccuracy : float;
  trendingSlower : bool
}.

(** The body of the [forEach] of [analyzeCalculationPatterns], on
    [algorithms]. *)
Definition tally (algorithms : list (string * Performance)) (calc : History.t)
    : list (string * Performance) :=
  let algorithms :=
    match get (History.algorithm calc) algorithms with
    | None =>
        algorithms
          ++ [(History.algorithm calc, {| count := 0; totalTime := 0; accuracies := [] |})]
    | Some _ => algorithms
    end in
  adjust (History.algorithm calc)
    (fun p => {| count := count p + 1;
                 totalTime := (totalTime p + History.calculationTime calc)%float;
                 accuracies := accuracies p ++ [History.confidence calc] |})
    algorithms.

(** [analyzeCalculationPatterns(history)]; [None] is the empty object. *)
Definition analyzeCalculationPatterns (history : list History.t) : option Patterns :=
  if (length history <? 10)%nat then None
  else
    let algorithms := fold_left tally history [] in
    let timings := map History.calculationTime history in
    let accuracies := map History.confidence history in
    Some {| algorithmPerformance := algorithms;
            averageTiming := (Js.sum timings / Js.of_nat (length timings))%float;
            averageAccuracy := (Js.sum accuracies / Js.of_nat (length accuracies))%float;
            trendingSlower :=
              Js.gt (Js.sum (last_n 5 timings)) (Js.sum (firstn 5 timings)) |}.

(** [patterns.averageAccuracy], [NaN] standing for [undefined] in the
    comparisons that read it. *)
Definition patterns_averageAccuracy (patterns : option Patterns) : float :=
  match patterns with
  | Some p => averageAccuracy p
  | None => nan
  end.

(** The body of the [forEach] of [adjustAlgorithmWeights]. *)
Definition reweigh (algorithms : list (string * Algorithm))
    (entry : string * Performance) : list (string * Algorithm) :=
  let (algorithmName, performance) := entry in
  adjust algorithmName
    (fun a =>
       let avgAccuracy :=
         (Js.sum (accuracies performance)
          / Js.of_nat (length (accuracies performance)))%float in
       let avgTime := (totalTime performance / Js.of_nat (count performance))%float in
       {| algorithm_name := algorithm_name a;
          calculate_with := calculate_with a;
          priority := ((avgAccuracy * 0.7) + ((1 - avgTime / 1000) * 0.3))%float;
          accuracy := accuracy a |})
    algorithms.

(** [adjustAlgorithmWeights(patterns)] on the registry of algorithms. *)
Definition adjustAlgorithmWeights (algorithms : list (string * Algorithm))
    (patterns : option Patterns) : list (string * Algorithm) :=
  fold_left reweigh
    (match patterns with
     | Some p => algorithmPerformance p
     | None => []
     end)
    algorithms.

(** [optimizeValidationThresholds(patterns)] on the registry of rules. A
    rule object has the fields [validate] and [message] and no other, so
    [rule.threshold] is [undefined] in every turn of the [forEach] and no
    rule is touched, whatever [patterns.averageAccuracy] is. *)
Definition optimizeValidationThresholds (rules : list (string * Rule))
    (patterns : option Patterns) : list (string * Rule) :=
  if Js.gt (patterns_averageAccuracy patterns) 0.95
  then map (fun entry => entry) rules
  else rules.

(** [updateAnomalyParameters(patterns)] on the registry of detectors. *)
Definition updateAnomalyParameters (detectors : list (string * Detector))
    (patterns : option Patterns) : list (string * Detector) :=
  map (fun entry : string * Detector =>
         let (name, d) := entry in
         if Js.gt (patterns_averageAccuracy patterns) 0.9 then
           (name,
            {| detector_name := detector_name d;
               detect := detect d;
               sensitivity := Js.min2 1.0 (sensitivity d + 0.02);
               detector_confidence := detector_confidence d |})
         else (name, d))
    detectors.

(** [adaptiveOptimizer.optimizeCalculation()] with the history
    [medianHistory]: the agent afterwards. *)
Definition optimizeCalculation (this : Agent) (medianHistory : list History.t) : Agent :=
  let recentHistory := last_n 20 medianHistory in
  let patterns := analyzeCalculationPatterns recentHistory in
  {| scoringAlgorithms := adjustAlgorithmWeights (scoringAlgorithms this) patterns;
     validationRules := optimizeValidationThresholds (validationRules this) patterns;
     anomalyDetectors := updateAnomalyParameters (anomalyDetectors this) patterns |}.

(** [anomalySystem.adaptSensitivity(detectorName, performance)], with
    [performance = { falsePositives, missedAnomalies }]. *)
Definition adaptSensitivity (this : Agent) (detectorName : string)
    (falsePositives missedAnomalies : float) : Agent :=
  {| scoringAlgorithms := scoringAlgorithms this;
     validationRules := validationRules this;
     anomalyDetectors :=
       adjust detectorName
         (fun d =>
            {| detector_name := detector_name d;
               detect := detect d;
               sensitivity :=
                 if Js.gt falsePositives 0.2
                 then Js.max2 0.1 (sensitivity d - 0.05)
                 else if Js.gt missedAnomalies 0.1
                 then Js.min2 1.0 (sensitivity d + 0.05)
                 else sensitivity d;
               detector_confidence := detector_confidence d |})
         (anomalyDetectors this) |}.

(** [incorporateFeedback(calculation, feedback)], with
    [feedback = { accuracy }]. *)
Definition incorporateFeedback (this : Agent) (calculation : CalcResult)
    (feedback_accuracy : float) : Agent :=
  if Js.truthy feedback_accuracy then
    {| scoringAlgorithms :=
         adjust (algorithm calculation)
           (fun a =>
              {| algorithm_name := algorithm_name a;
                 calculate_with := calculate_with a;
                 priority := priority a;
                 accuracy := ((accuracy a * 0.9) + (feedback_accuracy * 0.1))%float |})
           (scoringAlgorithms this);
       validationRules := validationRules this;
       anomalyDetectors := anomalyDetectors this |}
  else this.

(** ** The agent's actions *)





(** ** The analysis loop *)


End ScoringAgent.


(* ================================================================== *)
(** * Concrete inputs *)
(* ================================================================== *)

(** A week of teams from rows [(team, score, proj)]. *)
Definition week (rows : list (string * float * float)) : list Team :=
  map (fun '(code, s, p) => mkTeam (Some code) None (JNum s) (JNum p)) rows.

(** The week that [fetchSampleData] returns. *)
Definition scenarioA : list Team :=
  week [("WZRD", 124.20, 100.5); ("CHLK", 117.50, 98.0); ("MRYJ", 111.50, 102.9);
        ("LNO", 107.30, 93.4); ("GFM", 101.50, 97.2); ("MXLB", 97.40, 104.1);
        ("PKMC", 94.30, 101.0); ("TNT", 91.60, 97.2); ("PCX", 87.20, 104.9);
        ("BRIM", 83.30, 100.8); ("TACT", 78.70, 96.0); ("JAGB", 74.42, 99.6)]%float.

(** The same week with the 6th and 7th scores one hundredth apart. *)
Definition scenarioClose : list Team :=
  week [("WZRD", 124.20, 100.5); ("CHLK", 117.50, 98.0); ("MRYJ", 111.50, 102.9);
        ("LNO", 107.30, 93.4); ("GFM", 101.50, 97.2); ("MXLB", 100.38, 104.1);
        ("PKMC", 100.37, 101.0); ("TNT", 91.60, 97.2); ("PCX", 87.20, 104.9);
        ("BRIM", 83.30, 100.8); ("TACT", 78.70, 96.0); ("JAGB", 74.42, 99.6)]%float.

(** Twelve teams that all scored 100. *)
Definition identical : list Team :=
  week [("WZRD", 100, 100.5); ("CHLK", 100, 98.0); ("MRYJ", 100, 102.9);
        ("LNO", 100, 93.4); ("GFM", 100, 97.2); ("MXLB", 100, 104.1);
        ("PKMC", 100, 101.0); ("TNT", 100, 97.2); ("PCX", 100, 104.9);
        ("BRIM", 100, 100.8); ("TACT", 100, 96.0); ("JAGB", 100, 99.6)]%float.

(** The sample week with the top score raised to 300. *)
Definition scenarioOutlier : list Team :=
  week [("WZRD", 300, 100.5); ("CHLK", 117.50, 98.0); ("MRYJ", 111.50, 102.9);
        ("LNO", 107.30, 93.4); ("GFM", 101.50, 97.2); ("MXLB", 97.40, 104.1);
        ("PKMC", 94.30, 101.0); ("TNT", 91.60, 97.2); ("PCX", 87.20, 104.9);
        ("BRIM", 83.30, 100.8); ("TACT", 78.70, 96.0); ("JAGB", 74.42, 99.6)]%float.

(** The sample week with three defects: the first team's score is [NaN],
    the second team has no identifier, the third and fourth share one. *)
Definition scenarioFlawed : list Team :=
  [ mkTeam (Some "WZRD") None (JNum nan) (JNum 100.5);
    mkTeam None None (JNum 117.50) (JNum 98.0);
    mkTeam (Some "DUPL") None (JNum 111.50) (JNum 102.9);
    mkTeam (Some "DUPL") None (JNum 107.30) (JNum 93.4) ]
  ++ skipn 4 scenarioA.

(** The sample week with every team under the same identifier. *)
Definition scenarioSameName : list Team :=
  map (fun t => mkTeam (Some "WZRD") None (score t) (proj t)) scenarioA.

(** The sample week with the fourth score above the range. *)
Definition scenarioTooHigh : list Team :=
  firstn 3 scenarioA
  ++ [mkTeam (Some "LNO") None (JNum 301) (JNum 93.4)]
  ++ skipn 4 scenarioA.

(** The sample week from the lowest score up, with the score of the
    fourth team (87.20) missing. *)
Definition scenarioMissing : list Team :=
  mapi (fun t index =>
          if (index =? 3)%nat
          then mkTeam (team t) (canonicalCode t) JUndefined (proj t)
          else t)
    (rev scenarioA).

(** A freshly constructed agent's state, with clocks that advance by one
    unit per reading. *)
Definition fresh : ScoringAgent.State :=
  {| ScoringAgent.medianHistory := [];
     ScoringAgent.performance_now := fun k => Js.of_nat k;
     ScoringAgent.perf_reads := 0;
     ScoringAgent.Date_now := fun k => Z.of_nat k;
     ScoringAgent.date_reads := 0;
     ScoringAgent.events := [] |}.

(** The same, with a clock whose [k]-th reading is [k * k]. *)
Definition uneven_clock : ScoringAgent.State :=
  {| ScoringAgent.medianHistory := [];
     ScoringAgent.performance_now := fun k => Js.of_nat (k * k);
     ScoringAgent.perf_reads := 0;
     ScoringAgent.Date_now := fun k => Z.of_nat k;
     ScoringAgent.date_reads := 0;
     ScoringAgent.events := [] |}.

(** An agent with the program's algorithms and detectors but a rule set
    of its own, which distrusts any result of full quality. The program
    never builds it; it serves to run the fallback loop to a result. *)
Definition distrustful : ScoringAgent.Agent :=
  {| ScoringAgent.scoringAlgorithms := ScoringAgent.setupScoringAlgorithms;
     ScoringAgent.validationRules :=
       [ ("quality_below_one",
          {| ScoringAgent.validate := fun result =>
               match result with
               | ScoringAgent.VResult r =>
                   inr (Js.lt (ScoringAgent.quality (ScoringAgent.strategy r)) 1)
               | _ => inr false
               end;
             ScoringAgent.message := "Quality must be below 1" |}) ];
     ScoringAgent.anomalyDetectors := ScoringAgent.setupAnomalyDetectors |}.

(** A result as [calculateWithAlgorithm] builds it. *)
Definition sample_result : ScoringAgent.CalcResult :=
  {| ScoringAgent.strategy :=
       {| ScoringAgent.median := 95.85;
          ScoringAgent.teams := [];
          ScoringAgent.stats := ScoringAgent.calculateStats [] 95.85;
          ScoringAgent.quality := 1.0 |};
     ScoringAgent.algorithm := "rffl_standard";
     ScoringAgent.calculationTime := 1;
     ScoringAgent.confidence := 1.0 |}.

(** A state whose history holds the records of 100 calculations, stamped
    0 to 99. *)
Definition full_history : ScoringAgent.State :=
  {| ScoringAgent.medianHistory :=
       map (fun k => ScoringAgent.history_record (Z.of_nat k) sample_result) (seq 0 100);
     ScoringAgent.performance_now := fun k => Js.of_nat k;
     ScoringAgent.perf_reads := 0;
     ScoringAgent.Date_now := fun k => Z.of_nat (100 + k);
     ScoringAgent.date_reads := 0;
     ScoringAgent.events := [] |}.

(** An agent with the program's algorithms and detectors that keeps, of
    the program's rules, only [calculation_accuracy], the one written
    against a result object. The program never builds it; it serves to run
    [calculate] to its end. *)
Definition lenient : ScoringAgent.Agent :=
  {| ScoringAgent.scoringAlgorithms := ScoringAgent.setupScoringAlgorithms;
     ScoringAgent.validationRules :=
       filter (fun entry => String.eqb (fst entry) "calculation_accuracy")
         ScoringAgent.setupValidationRules;
     ScoringAgent.anomalyDetectors := ScoringAgent.setupAnomalyDetectors |}.

(** ** Predicates of the statements *)

(** The detectors of a registry that return on [data], resp. throw. *)
Definition returns_on (medianHistory : list ScoringAgent.History.t)
    (data : ScoringAgent.jsval) (entry : string * ScoringAgent.Detector) : bool :=
  match ScoringAgent.detect (snd entry) medianHistory data with
  | inr _ => true
  | inl _ => false
  end.

(** A severity that is not above 1. *)
Definition at_most_one (severity : float) : Prop := Js.gt severity 1 = false.

(** The records of a history that one algorithm wrote. *)
Definition records_of (algorithmName : string) (history : list ScoringAgent.History.t)
    : list ScoringAgent.History.t :=
  filter (fun calc => String.eqb (ScoringAgent.History.algorithm calc) algorithmName)
    history.

(** Two registries of algorithms that hold the same code with the same
    accuracy under the same names; the priorities may differ. *)
Definition same_algorithms (a b : list (string * ScoringAgent.Algorithm)) : Prop :=
  forall name,
    match ScoringAgent.get name a, ScoringAgent.get name b with
    | Some x, Some y =>
        ScoringAgent.calculate_with x = ScoringAgent.calculate_with y
        /\ ScoringAgent.accuracy x = ScoringAgent.accuracy y
    | None, None => True
    | _, _ => False
    end.

(** Two entries of a registry of detectors with the same name, code and
    confidence; the sensitivities may differ. *)
Definition same_detector (a b : string * ScoringAgent.Detector) : Prop :=
  fst a = fst b
  /\ ScoringAgent.detect (snd a) = ScoringAgent.detect (snd b)
  /\ ScoringAgent.detector_confidence (snd a) = ScoringAgent.detector_confidence (snd b).



(** The names the constructor registers algorithms under; they are the
    only ones a record of the history can carry. *)
Definition registered (history : list ScoringAgent.History.t) : Prop :=
  Forall (fun calc => In (ScoringAgent.History.algorithm calc)
                        (map fst ScoringAgent.setupScoringAlgorithms))
    history.

(** What the program does to an agent between two calculations: a round
    of [optimizeCalculation] over a history, an [adaptSensitivity], an
    [incorporateFeedback]. *)
Inductive Change : Type :=
| Optimized (medianHistory : list ScoringAgent.History.t)
| Adapted (detectorName : string) (falsePositives missedAnomalies : float)
| Taught (calculation : ScoringAgent.CalcResult) (feedback_accuracy : float).

Definition change (this : ScoringAgent.Agent) (c : Change) : ScoringAgent.Agent :=
  match c with
  | Optimized medianHistory => ScoringAgent.optimizeCalculation this medianHistory
  | Adapted detectorName falsePositives missedAnomalies =>
      ScoringAgent.adaptSensitivity this detectorName falsePositives missedAnomalies
  | Taught calculation feedback_accuracy =>
      ScoringAgent.incorporateFeedback this calculation feedback_accuracy
  end.

(** A feedback that reaches the accuracy of the algorithm [algorithmName]. *)
Definition teaches (algorithmName : string) (c : Change) : bool :=
  match c with
  | Taught calculation feedback_accuracy =>
      Js.truthy feedback_accuracy
      && String.eqb (ScoringAgent.algorithm calculation) algorithmName
  | _ => false
  end.

(** The histories the agent tunes itself over are its own. *)
Definition written_by_the_agent (c : Change) : Prop :=
  match c with
  | Optimized medianHistory => registered medianHistory
  | _ => True
  end.

(* ================================================================== *)
(** * Properties *)
(* ================================================================== *)

Import ScoringAgent.
Local Open Scope agent_scope.

(** ** Comparisons of numbers *)

Lemma SFcompare_antisym (x y : spec_float) (c : comparison) :
  SFcompare x y = Some c -> SFcompare y x = Some (CompOpp c).
Proof.
  destruct x as [sx|sx| |sx mx ex], y as [sy|sy| |sy my ey]; simpl;
    try discriminate; intros H; injection H as <-;
    try (destruct sx); try (destruct sy); try reflexivity.
  all: rewrite (Z.compare_antisym ex ey).
  all: destruct (ex ?= ey)%Z; simpl; try reflexivity.
  all: now rewrite (Pos.compare_cont_antisym mx my Eq).
Qed.

Lemma ltb_asym (a b : float) : (a <? b)%float = true -> (b <? a)%float = false.
Proof.
  rewrite !ltb_spec. unfold SFltb.
  destruct (SFcompare (Prim2SF a) (Prim2SF b)) as [c|] eqn:Hc; [|discriminate].
  rewrite (SFcompare_antisym _ _ _ Hc). destruct c; simpl; congruence.
Qed.

Lemma leb_not_gt (a b : float) : (a <=? b)%float = true -> (b <? a)%float = false.
Proof.
  rewrite leb_spec, ltb_spec. unfold SFleb, SFltb.
  destruct (SFcompare (Prim2SF a) (Prim2SF b)) as [c|] eqn:Hc; [|discriminate].
  rewrite (SFcompare_antisym _ _ _ Hc). destruct c; simpl; congruence.
Qed.

(** A number that is neither above nor below zero is zero or [NaN]. *)
Lemma neither_side_of_zero (m : float) :
  (0 <? m)%float = false -> (m <? 0)%float = false ->
  (m =? 0)%float = true \/ is_nan m = true.
Proof.
  unfold is_nan. rewrite !ltb_spec, !eqb_spec. unfold SFltb, SFeqb.
  change (Prim2SF 0) with (S754_zero false).
  destruct (Prim2SF m) as [sm|sm| |sm mm em]; simpl; try destruct sm; simpl;
    try discriminate; auto.
Qed.

(** ** Lists and sorting *)

Section SortFacts.
Context {A : Type} (cmp : A -> A -> float).

Lemma run_end_app (descending : bool) (rest : list A) :
  forall previous,
    fst (Js.run_end cmp descending previous rest)
    ++ snd (Js.run_end cmp descending previous rest) = rest.
Proof.
  induction rest as [|current rest IH]; intros previous; simpl; [reflexivity|].
  destruct (Bool.eqb _ _); [|reflexivity].
  specialize (IH current). destruct (Js.run_end cmp descending current rest).
  simpl in *. now rewrite IH.
Qed.

Lemma make_run_perm (first second : A) (rest : list A) :
  Permutation
    (fst (Js.make_run cmp first second rest) ++ snd (Js.make_run cmp first second rest))
    (first :: second :: rest).
Proof.
  unfold Js.make_run.
  pose proof (run_end_app (Js.precedes cmp second first) rest second) as Happ.
  destruct (Js.run_end cmp _ second rest) as [run remaining]. cbn [fst snd] in *.
  subst rest.
  destruct (Js.precedes cmp second first); cbn [fst snd]; [|reflexivity].
  change (first :: second :: run ++ remaining)
    with ((first :: second :: run) ++ remaining).
  apply Permutation_app_tail. symmetry. apply Permutation_rev.
Qed.

(** Sorting rearranges the array and nothing else. *)
Lemma insert_perm (sorted : list A) (pivot : A) :
  Permutation (Js.insert cmp sorted pivot) (pivot :: sorted).
Proof.
  unfold Js.insert. set (left := Js.search cmp _ _ _ _ _).
  rewrite <- (firstn_skipn left sorted) at 3.
  symmetry. apply Permutation_middle.
Qed.

Lemma insert_all_perm (remaining : list A) :
  forall run, Permutation (fold_left (Js.insert cmp) remaining run) (run ++ remaining).
Proof.
  induction remaining as [|x remaining IH]; intros run; cbn [fold_left].
  - now rewrite app_nil_r.
  - rewrite IH, insert_perm. cbn [app]. apply Permutation_middle.
Qed.

Lemma sort_perm (l : list A) : Permutation (Js.sort cmp l) l.
Proof.
  destruct l as [|first [|second rest]]; [reflexivity|reflexivity|].
  unfold Js.sort. pose proof (make_run_perm first second rest) as Hrun.
  destruct (Js.make_run cmp first second rest) as [run remaining].
  cbn [fst snd] in Hrun. now rewrite insert_all_perm.
Qed.

Lemma sort_length (l : list A) : length (Js.sort cmp l) = length l.
Proof. apply Permutation_length, sort_perm. Qed.

End SortFacts.

(** Sorting looks at the elements through the comparator only: it
    commutes with a map that the comparator factors through. *)
Section SortMap.
Context {A B : Type} (f : A -> B) (cmpA : A -> A -> float) (cmpB : B -> B -> float).
Hypothesis cmp_map : forall x y, cmpB (f x) (f y) = cmpA x y.

Lemma precedes_map (x y : A) : Js.precedes cmpB (f x) (f y) = Js.precedes cmpA x y.
Proof. unfold Js.precedes. now rewrite cmp_map. Qed.

Lemma run_end_map (descending : bool) (rest : list A) :
  forall previous,
    Js.run_end cmpB descending (f previous) (map f rest)
    = (map f (fst (Js.run_end cmpA descending previous rest)),
       map f (snd (Js.run_end cmpA descending previous rest))).
Proof.
  induction rest as [|current rest IH]; intros previous; [reflexivity|].
  cbn [map Js.run_end]. rewrite precedes_map.
  destruct (Bool.eqb _ _); [|reflexivity].
  rewrite IH. now destruct (Js.run_end cmpA descending current rest).
Qed.

Lemma make_run_map (first second : A) (rest : list A) :
  Js.make_run cmpB (f first) (f second) (map f rest)
  = (map f (fst (Js.make_run cmpA first second rest)),
     map f (snd (Js.make_run cmpA first second rest))).
Proof.
  unfold Js.make_run. rewrite precedes_map, run_end_map.
  destruct (Js.run_end cmpA _ second rest) as [run remaining]. cbn [fst snd].
  destruct (Js.precedes cmpA second first); [|reflexivity].
  now rewrite map_rev.
Qed.

Lemma search_map (sorted : list A) (pivot : A) (fuel : nat) :
  forall left right,
    Js.search cmpB fuel (map f sorted) (f pivot) left right
    = Js.search cmpA fuel sorted pivot left right.
Proof.
  induction fuel as [|fuel IH]; intros left right; [reflexivity|].
  cbn [Js.search]. destruct (left <? right)%nat; [|reflexivity].
  rewrite nth_error_map.
  destruct (nth_error sorted _) as [element|]; [|reflexivity].
  cbn [option_map]. rewrite precedes_map, !IH. reflexivity.
Qed.

Lemma insert_map (sorted : list A) (pivot : A) :
  Js.insert cmpB (map f sorted) (f pivot) = map f (Js.insert cmpA sorted pivot).
Proof.
  unfold Js.insert.
  now rewrite length_map, search_map, map_app, firstn_map, skipn_map.
Qed.

Lemma insert_all_map (remaining : list A) :
  forall run,
    fold_left (Js.insert cmpB) (map f remaining) (map f run)
    = map f (fold_left (Js.insert cmpA) remaining run).
Proof.
  induction remaining as [|x remaining IH]; intros run; [reflexivity|].
  cbn [map fold_left]. now rewrite insert_map, IH.
Qed.

Lemma sort_map (l : list A) : Js.sort cmpB (map f l) = map f (Js.sort cmpA l).
Proof.
  destruct l as [|first [|second rest]]; [reflexivity|reflexivity|].
  cbn [map]. unfold Js.sort. rewrite make_run_map.
  destruct (Js.make_run cmpA first second rest) as [run remaining]. cbn [fst snd].
  apply insert_all_map.
Qed.

End SortMap.

(** Where the comparator is an order, the sort sorts. The order is given
    by a key: on the elements in [dom], [x] comes before [y] exactly when
    its key is smaller. *)
Section SortSorts.
Context {A : Type} (cmp : A -> A -> float) (key : A -> nat) (dom : A -> Prop).
Hypothesis cmp_key :
  forall x y, dom x -> dom y -> Js.precedes cmp x y = (key x <? key y)%nat.














End SortSorts.

Lemma filter_split_perm {A : Type} (f : A -> bool) (l : list A) :
  Permutation (filter (fun x => negb (f x)) l ++ filter f l) l.
Proof.
  induction l as [|x l IH]; [reflexivity|]. cbn [filter].
  destruct (f x); cbn [negb app].
  - rewrite <- Permutation_middle. now constructor.
  - now constructor.
Qed.

Lemma sort_values_perm (cmp : float -> float -> float) (values : list jsprim) :
  Permutation (sort_values cmp values) values.
Proof.
  unfold sort_values. rewrite sort_perm. apply filter_split_perm.
Qed.

Lemma sort_values_length (cmp : float -> float -> float) (values : list jsprim) :
  length (sort_values cmp values) = length values.
Proof. apply Permutation_length, sort_values_perm. Qed.

(** With no [undefined] among them the values are sorted as they are. *)
Lemma sort_values_defined (cmp : float -> float -> float) (values : list jsprim) :
  existsb is_undefined values = false ->
  sort_values cmp values
  = Js.sort (fun a b => cmp (toNumber a) (toNumber b)) values.
Proof.
  intros Hdef. unfold sort_values.
  assert (Hnone : filter is_undefined values = []
                  /\ filter (fun v => negb (is_undefined v)) values = values).
  { induction values as [|v values IH]; [now split|].
    cbn [existsb] in Hdef. apply Bool.orb_false_iff in Hdef.
    destruct Hdef as [Hv Hdef]. destruct (IH Hdef) as [IH1 IH2].
    cbn [filter]. rewrite Hv. cbn [negb]. now rewrite IH1, IH2. }
  destruct Hnone as [-> ->]. apply app_nil_r.
Qed.

Lemma all_defined (l : list Team) :
  Forall (fun t => is_undefined (score t) = false) l ->
  existsb is_undefined (map score l) = false.
Proof.
  induction 1 as [|t l Ht _ IH]; [reflexivity|].
  cbn [map existsb]. now rewrite Ht, IH.
Qed.


Lemma mapi_from_length {A B : Type} (f : A -> nat -> B) (l : list A) (i : nat) :
  length (mapi_from i f l) = length l.
Proof.
  revert i; induction l as [|x l IH]; intros i; simpl; [reflexivity|].
  now rewrite IH.
Qed.

Lemma mapi_from_nth_error {A B : Type} (f : A -> nat -> B) (l : list A) (i k : nat) :
  nth_error (mapi_from i f l) k = option_map (fun x => f x (i + k)) (nth_error l k).
Proof.
  revert i k; induction l as [|x l IH]; intros i [|k]; simpl; try reflexivity.
  - now rewrite Nat.add_0_r.
  - rewrite IH. now rewrite Nat.add_succ_r.
Qed.

(** ** The history store *)

Lemma push_bounded_skipn (h : list History.t) (record : History.t) :
  length h <= 100 ->
  push_bounded h record = skipn (length (h ++ [record]) - 100) (h ++ [record]).
Proof.
  intros Hcap. unfold push_bounded.
  rewrite length_app; simpl length.
  destruct (Nat.ltb_spec 100 (length h + 1)) as [Hfull|Hroom].
  - replace (length h + 1 - 100) with 1 by lia.
    destruct h as [|x h]; [simpl in Hfull; lia|reflexivity].
  - replace (length h + 1 - 100) with 0 by lia. reflexivity.
Qed.

Lemma push_bounded_length (h : list History.t) (record : History.t) :
  length h <= 100 -> length (push_bounded h record) <= 100.
Proof.
  intros Hcap. rewrite push_bounded_skipn by assumption.
  rewrite length_skipn, length_app. simpl. lia.
Qed.

Lemma push_bounded_full (h : list History.t) (record : History.t) :
  length h = 100 -> push_bounded h record = tl h ++ [record].
Proof.
  intros Hfull. unfold push_bounded.
  rewrite length_app, Hfull. simpl.
  destruct h as [|x h]; [discriminate|reflexivity].
Qed.

Lemma skipn_keep_app {A : Type} (a : nat) (X rest : list A) :
  a <= length X -> skipn a X ++ rest = skipn a (X ++ rest).
Proof.
  intros Ha. rewrite skipn_app.
  replace (a - length X) with 0 by lia. reflexivity.
Qed.

Lemma store_all_history (results : list CalcResult) (s : State) :
  length (medianHistory s) <= 100 ->
  let recorded :=
    medianHistory s
      ++ mapi_from (date_reads s) (fun r k => history_record (Date_now s k) r) results in
  medianHistory (snd (store_all results s)) = skipn (length recorded - 100) recorded
  /\ Date_now (snd (store_all results s)) = Date_now s
  /\ date_reads (snd (store_all results s)) = date_reads s + length results.
Proof.
  revert s. induction results as [|r results IH]; intros s Hcap; cbn zeta.
  - simpl. rewrite app_nil_r, Nat.add_0_r.
    replace (length (medianHistory s) - 100) with 0 by lia. auto.
  - set (s1 := snd (storeCalculationHistory r s)).
    assert (Hstep : store_all (r :: results) s = store_all results s1) by reflexivity.
    assert (H1 : medianHistory s1 =
                 push_bounded (medianHistory s) (history_record (Date_now s (date_reads s)) r))
      by reflexivity.
    assert (Hc1 : length (medianHistory s1) <= 100)
      by (rewrite H1; now apply push_bounded_length).
    destruct (IH s1 Hc1) as (Hh & Hd & Hr).
    rewrite Hstep. repeat split.
    + rewrite Hh. change (Date_now s1) with (Date_now s).
      change (date_reads s1) with (S (date_reads s)).
      rewrite H1, push_bounded_skipn by assumption.
      set (rec := history_record (Date_now s (date_reads s)) r).
      set (rest := mapi_from (S (date_reads s))
                     (fun r0 k => history_record (Date_now s k) r0) results).
      simpl mapi_from. fold rec. fold rest.
      replace (medianHistory s ++ rec :: rest)
        with ((medianHistory s ++ [rec]) ++ rest) by (now rewrite <- app_assoc).
      set (X := medianHistory s ++ [rec]).
      assert (HX : length X <= 101)
        by (unfold X; rewrite length_app; simpl; lia).
      rewrite (skipn_keep_app (length X - 100) X rest) by lia.
      rewrite skipn_skipn. f_equal.
      rewrite length_skipn, !length_app. lia.
    + exact Hd.
    + rewrite Hr. change (date_reads s1) with (S (date_reads s)). simpl. lia.
Qed.

(** C10. Whatever is recorded into a history store that holds at most 100
    records, the store afterwards holds at most 100 records: exactly the
    most recent ones, in the order they were recorded. Recording into a
    store that holds 100 records drops the oldest one (the head) and
    appends the new one. *)
Theorem history_store_bounded_fifo (results : list CalcResult) (s : State)
    (Hcap : length (medianHistory s) <= 100) :
  let s' := snd (store_all results s) in
  let recorded :=
    medianHistory s
      ++ mapi_from (date_reads s) (fun r k => history_record (Date_now s k) r) results in
  length (medianHistory s') <= 100
  /\ medianHistory s' = skipn (length recorded - 100) recorded
  /\ (forall result,
        length (medianHistory s') = 100 ->
        medianHistory (snd (storeCalculationHistory result s'))
        = tl (medianHistory s')
            ++ [history_record (Date_now s' (date_reads s')) result]).
Proof.
  cbn zeta. destruct (store_all_history results s Hcap) as (Hh & _ & _).
  repeat split.
  - rewrite Hh, length_skipn. lia.
  - exact Hh.
  - intros result Hfull.
    change (medianHistory (snd (storeCalculationHistory result (snd (store_all results s)))))
      with (push_bounded (medianHistory (snd (store_all results s)))
              (history_record (Date_now (snd (store_all results s))
                                 (date_reads (snd (store_all results s)))) result)).
    now apply push_bounded_full.
Qed.

Lemma history_store_bounded_fifo_witness :
  length (medianHistory full_history) <= 100
  /\ map History.timestamp
       (medianHistory (snd (store_all [sample_result; sample_result] full_history)))
     = map Z.of_nat (seq 2 100).
Proof.
  split.
  - vm_compute. lia.
  - destruct (history_store_bounded_fifo [sample_result; sample_result] full_history)
      as (_ & Hh & _).
    + vm_compute. lia.
    + rewrite Hh. vm_compute. reflexivity.
Defined.

(** ** Input validation *)

Lemma preValidateData_valid_inv (teamData : candidate) :
  isValid (preValidateData teamData) = true ->
  exists l, teamData = TeamArray l /\ length l = 12.
Proof.
  destruct teamData as [| | |l]; try discriminate.
  unfold preValidateData; cbn [isValid].
  destruct (Nat.eqb_spec (length l) 12) as [Hlen|Hlen]; [eauto|].
  discriminate.
Qed.

(** C7. For an array of any size other than 12, [preValidateData] answers
    invalid with the count error among its errors, and [calculate] throws
    the pre-validation error at once: the state is left as it was, so no
    algorithm was called, the primary one or a fallback. *)
Theorem wrong_size_is_rejected_before_any_strategy
    (this : Agent) (l : list Team) (s : State) (Hsize : length l <> 12) :
  let v := preValidateData (TeamArray l) in
  isValid v = false
  /\ In "Must have exactly 12 teams" (errors v)
  /\ calculate this (TeamArray l) s
     = (inl (Error ("Pre-validation failed: " ++ Js.join ", " (errors v))%string), s)
  /\ invoked (events (snd (calculate this (TeamArray l) s))) = invoked (events s).
Proof.
  cbn zeta.
  assert (Hv : isValid (preValidateData (TeamArray l)) = false).
  { unfold preValidateData; cbn [isValid].
    destruct (Nat.eqb_spec (length l) 12) as [Hlen|Hlen]; [contradiction|reflexivity]. }
  assert (Hrun : calculate this (TeamArray l) s
                 = (inl (Error ("Pre-validation failed: "
                                  ++ Js.join ", " (errors (preValidateData (TeamArray l))))%string),
                    s)).
  { unfold calculate. rewrite Hv. reflexivity. }
  repeat split.
  - exact Hv.
  - unfold preValidateData; cbn [errors].
    destruct (Nat.eqb_spec (length l) 12) as [Hlen|Hlen]; [contradiction|].
    simpl. now left.
  - exact Hrun.
  - now rewrite Hrun.
Qed.

Lemma wrong_size_is_rejected_before_any_strategy_witness :
  length (tl scenarioA) <> 12
  /\ calculate new (TeamArray (tl scenarioA)) fresh
     = (inl (Error "Pre-validation failed: Must have exactly 12 teams"), fresh).
Proof.
  assert (Hsize : length (tl scenarioA) <> 12) by (vm_compute; lia).
  split; [exact Hsize|].
  destruct (wrong_size_is_rejected_before_any_strategy new (tl scenarioA) fresh Hsize)
    as (_ & _ & Hrun & _).
  rewrite Hrun. vm_compute. reflexivity.
Defined.

(** ** The algorithms return on arrays *)

Lemma calculateRFFLMedian_total (l : list Team) :
  length l = 12 -> exists r, calculateRFFLMedian (TeamArray l) = inr r.
Proof.
  intros Hlen. unfold calculateRFFLMedian.
  rewrite length_map, sort_values_length, length_map, Hlen. simpl negb. cbv iota. eauto.
Qed.

Lemma calculateStatisticalMedian_total (l : list Team) :
  exists r, calculateStatisticalMedian (TeamArray l) = inr r.
Proof. unfold calculateStatisticalMedian. eauto. Qed.

Lemma calculateWeightedMedian_total (l : list Team) (weights : option (list float)) :
  exists r, calculateWeightedMedian (TeamArray l) weights = inr r.
Proof. unfold calculateWeightedMedian. eauto. Qed.

Lemma calculateWithAlgorithm_returns
    (this : Agent) (name : string) (alg : Algorithm) (teamData : candidate)
    (r : StrategyResult) (s : State) :
  get name (scoringAlgorithms this) = Some alg ->
  calculate_with alg teamData = inr r ->
  calculateWithAlgorithm this name teamData s
  = (inr {| strategy := r;
            algorithm := name;
            calculationTime :=
              (performance_now s (S (perf_reads s)) - performance_now s (perf_reads s))%float;
            confidence := accuracy alg |},
     after_call name s).
Proof.
  intros Hget Hcalc. unfold calculateWithAlgorithm. rewrite Hget.
  unfold bind, read_performance_now, emit, lift, ret. rewrite Hcalc. reflexivity.
Qed.

Lemma invoked_app (e1 e2 : list Event) :
  invoked (e1 ++ e2) = invoked e1 ++ invoked e2.
Proof. unfold invoked. apply flat_map_app. Qed.

(** ** The fallback chain *)

(** A run of [calculate] on an input that passes pre-validation: the
    standard algorithm returns, and if its result fails validation the run
    ends in the call of [this.calculateWithFallback]. *)
Lemma calculate_primary_rejected (this : Agent) (teamData : candidate) (s : State) :
  scoringAlgorithms this = setupScoringAlgorithms ->
  isValid (preValidateData teamData) = true ->
  exists r1,
    calculateWithAlgorithm this "rffl_standard" teamData s
    = (inr r1, after_call "rffl_standard" s)
    /\ (isValid (validateResult (validationRules this) (VResult r1)) = false ->
        calculate this teamData s
        = (inl (TypeError "this.calculateWithFallback is not a function"),
           warned "Primary calculation failed validation, trying alternative"
             (after_call "rffl_standard" s))).
Proof.
  intros Halgs Hpre.
  destruct (preValidateData_valid_inv teamData Hpre) as (l & -> & Hlen).
  destruct (calculateRFFLMedian_total l Hlen) as [q1 Hq1].
  pose proof (calculateWithAlgorithm_returns this "rffl_standard" _
                (TeamArray l) q1 s ltac:(rewrite Halgs; reflexivity) Hq1) as H1.
  eexists. split; [exact H1|].
  intros Hinvalid.
  unfold calculate. rewrite Hpre. cbn [negb].
  unfold bind at 1. rewrite H1. rewrite Hinvalid. cbn [negb]. reflexivity.
Qed.

(** A run of [calculateWithFallback] on an array, step by step: the two
    calls return, and the outcome is decided by the validation of the two
    results, in order. *)
Lemma calculateWithFallback_run (this : Agent) (l : list Team) (s : State) :
  scoringAlgorithms this = setupScoringAlgorithms ->
  let s2 := after_call "statistical_median" s in
  let s3 := after_call "weighted_median" s2 in
  exists r2 r3,
    calculateWithAlgorithm this "statistical_median" (TeamArray l) s = (inr r2, s2)
    /\ calculateWithAlgorithm this "weighted_median" (TeamArray l) s2 = (inr r3, s3)
    /\ calculateWithFallback this (TeamArray l) s
       = if isValid (validateResult (validationRules this) (VResult r2)) then
           (inr r2,
            snd (emit (ConsoleLog "Fallback calculation successful with statistical_median") s2))
         else if isValid (validateResult (validationRules this) (VResult r3)) then
           (inr r3,
            snd (emit (ConsoleLog "Fallback calculation successful with weighted_median") s3))
         else (inl (Error "All calculation algorithms failed"), s3).
Proof.
  intros Halgs. cbn zeta.
  destruct (calculateStatisticalMedian_total l) as [q2 Hq2].
  destruct (calculateWeightedMedian_total l None) as [q3 Hq3].
  pose proof (fun s => calculateWithAlgorithm_returns this "statistical_median" _
                         (TeamArray l) q2 s ltac:(rewrite Halgs; reflexivity) Hq2) as H2.
  pose proof (fun s => calculateWithAlgorithm_returns this "weighted_median" _
                         (TeamArray l) q3 s ltac:(rewrite Halgs; reflexivity) Hq3) as H3.
  eexists; eexists.
  split; [apply H2|]. split; [apply H3|].
  unfold calculateWithFallback, fallback_loop.
  unfold bind at 1. unfold try_catch at 1. unfold bind at 1. rewrite H2.
  destruct (isValid (validateResult (validationRules this)
                       (VResult {| strategy := q2; algorithm := _;
                                   calculationTime := _; confidence := _ |}))) eqn:Hv2.
  - reflexivity.
  - unfold ret at 1. cbv iota.
    unfold bind at 1. unfold try_catch at 1. unfold bind at 1. rewrite H3.
    destruct (isValid (validateResult (validationRules this)
                         (VResult {| strategy := q3; algorithm := _;
                                     calculationTime := _; confidence := _ |}))) eqn:Hv3.
    + reflexivity.
    + reflexivity.
Qed.

Lemma invoked_after_fallbacks (s : State) :
  let s1 := after_call "rffl_standard" s in
  let s1w := warned "Primary calculation failed validation, trying alternative" s1 in
  let s2 := after_call "statistical_median" s1w in
  let s3 := after_call "weighted_median" s2 in
  invoked (events s1w) = invoked (events s) ++ ["rffl_standard"]
  /\ (forall text, invoked (events (snd (emit (ConsoleLog text) s2)))
                   = invoked (events s) ++ ["rffl_standard"; "statistical_median"])
  /\ (forall text, invoked (events (snd (emit (ConsoleLog text) s3)))
                   = invoked (events s)
                       ++ ["rffl_standard"; "statistical_median"; "weighted_median"])
  /\ invoked (events s3)
     = invoked (events s) ++ ["rffl_standard"; "statistical_median"; "weighted_median"].
Proof.
  cbn zeta. unfold warned, after_call, emit; cbn [snd events].
  repeat split; intros; rewrite !invoked_app; simpl; rewrite <- ?app_assoc;
    simpl; now rewrite ?app_nil_r.
Qed.

(** C4, where it breaks. Let the input pass pre-validation and the
    standard algorithm's result fail [validateResult], under any set of
    validation rules. Then [calculate] warns and calls
    [this.calculateWithFallback], which is not a function of the agent:
    the run ends in that [TypeError], and the standard algorithm is the
    only one that was called. The function [calculateWithFallback] that
    the call was written for keeps the order of the specification when it
    is run on the state the call is made in: it calls the statistical algorithm, then,
    if that result fails validation, the weighted one, returns the first
    result that validates and throws 'All calculation algorithms failed' if
    neither does. *)
Theorem fallback_is_never_reached
    (this : Agent) (teamData : candidate) (s s1 : State) (primary : CalcResult)
    (Halgs : scoringAlgorithms this = setupScoringAlgorithms)
    (Hpre : isValid (preValidateData teamData) = true)
    (Hcall : calculateWithAlgorithm this "rffl_standard" teamData s = (inr primary, s1))
    (Hinvalid : isValid (validateResult (validationRules this) (VResult primary)) = false) :
  let s1w := warned "Primary calculation failed validation, trying alternative" s1 in
  calculate this teamData s
  = (inl (TypeError "this.calculateWithFallback is not a function"), s1w)
  /\ invoked (events (snd (calculate this teamData s)))
     = invoked (events s) ++ ["rffl_standard"]
  /\ exists r2 s2 r3 s3,
       calculateWithAlgorithm this "statistical_median" teamData s1w = (inr r2, s2)
       /\ calculateWithAlgorithm this "weighted_median" teamData s2 = (inr r3, s3)
       /\ let outcome := fst (calculateWithFallback this teamData s1w) in
          let called := invoked (events (snd (calculateWithFallback this teamData s1w))) in
          if isValid (validateResult (validationRules this) (VResult r2)) then
            outcome = inr r2
            /\ called = invoked (events s) ++ ["rffl_standard"; "statistical_median"]
          else
            called = invoked (events s)
                       ++ ["rffl_standard"; "statistical_median"; "weighted_median"]
            /\ outcome
               = if isValid (validateResult (validationRules this) (VResult r3))
                 then inr r3
                 else inl (Error "All calculation algorithms failed").
Proof.
  cbn zeta.
  destruct (calculate_primary_rejected this teamData s Halgs Hpre) as (r1 & H1 & Hrun).
  rewrite H1 in Hcall. injection Hcall as <- <-.
  destruct (invoked_after_fallbacks s) as (Hi1 & Hi2 & Hi3 & Hi3').
  rewrite (Hrun Hinvalid). cbn [snd].
  split; [reflexivity|]. split; [exact Hi1|].
  destruct (preValidateData_valid_inv teamData Hpre) as (l & -> & _).
  destruct (calculateWithFallback_run this l
              (warned "Primary calculation failed validation, trying alternative"
                 (after_call "rffl_standard" s)) Halgs)
    as (r2 & r3 & H2 & H3 & Hfb).
  eexists r2, _, r3, _. split; [exact H2|]. split; [exact H3|].
  cbn zeta. rewrite Hfb.
  destruct (isValid (validateResult (validationRules this) (VResult r2))).
  - split; [reflexivity|]. apply Hi2.
  - destruct (isValid (validateResult (validationRules this) (VResult r3))).
    + split; [apply Hi3|reflexivity].
    + split; [apply Hi3'|reflexivity].
Qed.

Lemma fallback_is_never_reached_witness :
  exists primary s1,
    calculateWithAlgorithm new "rffl_standard" (TeamArray scenarioA) fresh
    = (inr primary, s1)
    /\ isValid (validateResult (validationRules new) (VResult primary)) = false
    /\ fst (calculate new (TeamArray scenarioA) fresh)
       = inl (TypeError "this.calculateWithFallback is not a function")
    /\ invoked (events (snd (calculate new (TeamArray scenarioA) fresh)))
       = ["rffl_standard"].
Proof.
  destruct (calculateWithAlgorithm new "rffl_standard" (TeamArray scenarioA) fresh)
    as [[e|primary] s1] eqn:Hcall; [vm_compute in Hcall; discriminate|].
  exists primary, s1. split; [reflexivity|].
  assert (Hinvalid : isValid (validateResult (validationRules new) (VResult primary)) = false).
  { vm_compute in Hcall. injection Hcall as <- <-. vm_compute. reflexivity. }
  split; [exact Hinvalid|].
  destruct (fallback_is_never_reached new (TeamArray scenarioA) fresh s1
              primary eq_refl ltac:(vm_compute; reflexivity) Hcall Hinvalid)
    as (Hrun & Hcalled & _).
  split; [now rewrite Hrun|exact Hcalled].
Defined.

(** ** Result validation as the agent applies it *)

(** The three rules written against a median or a team array, applied to
    a result object: each one reports. *)
Lemma validateResult_on_result_object (r : CalcResult) :
  errors (validateResult setupValidationRules (VResult r))
  = ["median_range: Median must be between 0 and 300";
     "team_count: Must have exactly 12 teams";
     "score_consistency: Validation error - teams.map is not a function"]
    ++ match validateCalculationAccuracy (VResult r) with
       | inr true => []
       | inr false =>
           ["calculation_accuracy: Median calculation must be mathematically accurate"]
       | inl error =>
           [("calculation_accuracy: Validation error - " ++ exn_message error)%string]
       end.
Proof.
  unfold validateResult, setupValidationRules; cbn [errors fold_left].
  unfold apply_rule at 1; cbn [validate message].
  destruct (validateCalculationAccuracy (VResult r)) as [e|[|]]; reflexivity.
Qed.

Lemma validateResult_rejects_result_object (r : CalcResult) :
  isValid (validateResult setupValidationRules (VResult r)) = false.
Proof.
  pose proof (validateResult_on_result_object r) as He.
  unfold validateResult in *; cbn [isValid errors] in *.
  rewrite He. reflexivity.
Qed.

(** C1, with the end the code gives it. Every result object fails
    [validateResult]: the rules [median_range], [team_count] and
    [score_consistency] are handed the result object itself and each
    reports, whatever the result holds. So for every input that passes
    pre-validation [calculate] returns no result. It does not get as far as
    'All calculation algorithms failed', though: once the standard result
    is rejected the run ends in the [TypeError] of the call
    [this.calculateWithFallback], with the standard algorithm the only one
    called. [calculateWithFallback] itself, run on an array, does end in
    'All calculation algorithms failed' after both of its algorithms. *)
Theorem every_result_fails_validation
    (teamData : candidate) (s : State)
    (Hpre : isValid (preValidateData teamData) = true) :
  (forall r : CalcResult,
     let v := validateResult (validationRules new) (VResult r) in
     isValid v = false
     /\ In "median_range: Median must be between 0 and 300" (errors v)
     /\ In "team_count: Must have exactly 12 teams" (errors v)
     /\ In "score_consistency: Validation error - teams.map is not a function" (errors v))
  /\ (forall r, fst (calculate new teamData s) <> inr r)
  /\ fst (calculate new teamData s)
     = inl (TypeError "this.calculateWithFallback is not a function")
  /\ invoked (events (snd (calculate new teamData s)))
     = invoked (events s) ++ ["rffl_standard"]
  /\ (forall l s0,
        fst (calculateWithFallback new (TeamArray l) s0)
        = inl (Error "All calculation algorithms failed")
        /\ invoked (events (snd (calculateWithFallback new (TeamArray l) s0)))
           = invoked (events s0) ++ ["statistical_median"; "weighted_median"]).
Proof.
  assert (Hrun : calculate new teamData s
                 = (inl (TypeError "this.calculateWithFallback is not a function"),
                    warned "Primary calculation failed validation, trying alternative"
                      (after_call "rffl_standard" s))).
  { destruct (calculate_primary_rejected new teamData s eq_refl Hpre) as (r1 & _ & Hrun).
    apply Hrun. apply validateResult_rejects_result_object. }
  split; [|split; [|split; [|split]]].
  - intros r; cbn zeta. change (validationRules new) with setupValidationRules.
    split; [apply validateResult_rejects_result_object|].
    rewrite validateResult_on_result_object. simpl. tauto.
  - intros r. rewrite Hrun. discriminate.
  - now rewrite Hrun.
  - rewrite Hrun. apply invoked_after_fallbacks.
  - intros l s0.
    destruct (calculateWithFallback_run new l s0 eq_refl) as (r2 & r3 & _ & _ & Hfb).
    change (validationRules new) with setupValidationRules in Hfb.
    rewrite !validateResult_rejects_result_object in Hfb. rewrite Hfb. cbn [fst snd].
    split; [reflexivity|].
    unfold after_call; cbn [events]. rewrite !invoked_app. simpl.
    now rewrite <- app_assoc.
Qed.

Lemma every_result_fails_validation_witness :
  isValid (preValidateData (TeamArray scenarioA)) = true
  /\ fst (calculate new (TeamArray scenarioA) fresh)
     = inl (TypeError "this.calculateWithFallback is not a function").
Proof.
  assert (Hpre : isValid (preValidateData (TeamArray scenarioA)) = true)
    by (vm_compute; reflexivity).
  split; [exact Hpre|].
  exact (proj1 (proj2 (proj2
           (every_result_fails_validation (TeamArray scenarioA) fresh Hpre)))).
Defined.

(** ** The sample week *)







(** ** Outcomes against the median *)

(** In [MedianCalculator] the outcome of an entry is read off its stored
    margin, which is the rounded difference to the rounded median. *)
Lemma MedianCalculator_outcome_by_margin (median : float) (t : Team) (index : nat) :
  let e := MedianCalculator.team_result median t index in
  MedianCalculator.marginVsMedian e
  = MedianCalculator.roundScore (toNumber (score t) - median)
  /\ (MedianCalculator.result e = WIN
      <-> Js.gt (MedianCalculator.marginVsMedian e) 0 = true)
  /\ (MedianCalculator.result e = LOSS
      <-> Js.lt (MedianCalculator.marginVsMedian e) 0 = true)
  /\ (is_nan (MedianCalculator.marginVsMedian e) = false ->
      (MedianCalculator.result e = TIE
       <-> Js.strict_eq (MedianCalculator.marginVsMedian e) 0 = true)).
Proof.
  cbn zeta. unfold MedianCalculator.team_result.
  cbn [MedianCalculator.marginVsMedian MedianCalculator.result].
  set (m := MedianCalculator.roundScore (toNumber (score t) - median)).
  unfold Js.gt, Js.lt, Js.strict_eq.
  split; [reflexivity|].
  destruct (0 <? m)%float eqn:Hgt.
  - pose proof (ltb_asym _ _ Hgt) as Hlt.
    repeat split; try congruence; intros; try discriminate.
    + rewrite eqb_spec in H0. rewrite ltb_spec in Hgt.
      unfold SFeqb in H0. unfold SFltb in Hgt.
      rewrite (SFcompare_antisym _ _ Eq) in Hgt; [discriminate|].
      destruct (SFcompare (Prim2SF m) (Prim2SF 0)) as [[| |]|]; congruence.
  - destruct (m <? 0)%float eqn:Hlt.
    + repeat split; try congruence; intros; try discriminate.
      rewrite eqb_spec in H0. rewrite ltb_spec in Hlt.
      unfold SFeqb in H0. unfold SFltb in Hlt.
      destruct (SFcompare (Prim2SF m) (Prim2SF 0)) as [[| |]|]; congruence.
    + repeat split; try congruence; intros; try discriminate.
      destruct (neither_side_of_zero m Hgt Hlt) as [Hz|Hnan]; [exact Hz|congruence].
Qed.

(** Every entry [calculateMedian] returns is built by [team_result] from
    the returned median. *)
Lemma MedianCalculator_entries (now : Z) (teamScores : candidate)
    (r : MedianCalculator.MedianResult) (e : MedianCalculator.TeamResult) :
  MedianCalculator.calculateMedian now teamScores = inr r ->
  In e (MedianCalculator.teams r) ->
  exists t index, e = MedianCalculator.team_result (MedianCalculator.median r) t index.
Proof.
  unfold MedianCalculator.calculateMedian.
  destruct teamScores as [| | |l]; try discriminate.
  destruct (negb _); [discriminate|].
  destruct (nth_error _ _) as [sixth|]; [|discriminate].
  destruct (nth_error _ _) as [seventh|]; [|discriminate].
  intros H; injection H as <-. cbn [MedianCalculator.teams MedianCalculator.median].
  intros Hin. apply In_nth_error in Hin. destruct Hin as [k Hk].
  unfold mapi in Hk. rewrite mapi_from_nth_error in Hk.
  destruct (nth_error (Js.sort MedianCalculator.by_score_desc l) k) as [t|];
    [|discriminate].
  injection Hk as <-. eauto.
Qed.

(** C3, at the input where it breaks. With the 6th and 7th scores 100.38
    and 100.37 the three algorithms of the agent return the median 100.38
    (100.375 rounded). The team whose score is 100.38 is level with the
    returned median, yet each algorithm calls it a WIN with a nonzero
    margin, because outcome and margin are taken against the unrounded
    100.375. [MedianCalculator.calculateMedian], whose logic the standard
    algorithm is meant to match, calls the same team a TIE with margin 0. *)
Theorem agent_outcome_ignores_rounding :
  (forall calc,
     In calc [calculateRFFLMedian; calculateStatisticalMedian;
              fun teamData => calculateWeightedMedian teamData None] ->
     exists r t6,
       calc (TeamArray scenarioClose) = inr r
       /\ median r = 100.38%float
       /\ nth_error (teams r) 5 = Some t6
       /\ score (entry t6) = JNum 100.38
       /\ Js.strict_eq (score_of t6 - median r) 0 = true
       /\ result t6 = WIN
       /\ Js.strict_eq (marginVsMedian t6) 0 = false
       /\ marginVsMedian t6 = (100.38 - 100.375)%float)
  /\ (forall now, exists r t6,
        MedianCalculator.calculateMedian now (TeamArray scenarioClose) = inr r
        /\ MedianCalculator.median r = 100.38%float
        /\ nth_error (MedianCalculator.teams r) 5 = Some t6
        /\ score (MedianCalculator.entry t6) = JNum 100.38
        /\ MedianCalculator.result t6 = TIE
        /\ MedianCalculator.marginVsMedian t6 = 0%float).
Proof.
  split.
  - intros calc [<-|[<-|[<-|[]]]]; eexists; eexists;
      (split; [vm_compute; reflexivity|]); repeat split; vm_compute; reflexivity.
  - intros now. eexists; eexists.
    split; [vm_compute; reflexivity|]. repeat split; vm_compute; reflexivity.
Qed.

(** ** Identical scores *)

Lemma team_errors_in_range (t : Team) (index : nat) (x : float) :
  score t = JNum x ->
  (0 <=? x)%float = true -> (x <=? 300)%float = true ->
  team_errors t index = [].
Proof.
  intros Hs Hlo Hhi. unfold team_errors. rewrite Hs. cbn [typeof_number negb toNumber].
  unfold Js.lt, Js.gt.
  rewrite (leb_not_gt _ _ Hlo), (leb_not_gt _ _ Hhi). reflexivity.
Qed.

Lemma concat_mapi_from_nil {A B : Type} (f : A -> nat -> list B) (l : list A) (i : nat) :
  Forall (fun x => forall k, f x k = []) l -> concat (mapi_from i f l) = [].
Proof.
  intros Hall. revert i. induction Hall as [|x l Hx _ IH]; intros i; simpl;
    [reflexivity|].
  now rewrite Hx, IH.
Qed.

Lemma preValidateData_identical (x : float) (l : list Team) :
  length l = 12 ->
  Forall (fun t => score t = JNum x) l ->
  (0 <=? x)%float = true -> (x <=? 300)%float = true ->
  preValidateData (TeamArray l) = {| isValid := true; errors := [] |}.
Proof.
  intros Hlen Hsame Hlo Hhi. unfold preValidateData.
  rewrite Hlen. cbn [Nat.eqb negb app]. unfold mapi.
  rewrite concat_mapi_from_nil; [reflexivity|].
  eapply Forall_impl; [|exact Hsame].
  intros t Ht k. now apply team_errors_in_range with x.
Qed.

(** C5, as the code has it. For twelve teams with one and the same score
    between 0 and 300 the input passes pre-validation and [validateResult]
    rejects the result of the standard algorithm, as it rejects those of
    the statistical and of the weighted algorithm for the same teams. No
    result is returned: [calculate] ends in an error, and so does
    [calculateWithFallback] when it is run. *)
Theorem identical_scores_return_no_result
    (x : float) (l : list Team) (s : State)
    (Hlen : length l = 12)
    (Hsame : Forall (fun t => score t = JNum x) l)
    (Hlo : (0 <=? x)%float = true) (Hhi : (x <=? 300)%float = true) :
  isValid (preValidateData (TeamArray l)) = true
  /\ (exists r1 s1 r2 s2 r3 s3,
        calculateWithAlgorithm new "rffl_standard" (TeamArray l) s = (inr r1, s1)
        /\ isValid (validateResult (validationRules new) (VResult r1)) = false
        /\ calculateWithAlgorithm new "statistical_median" (TeamArray l) s1 = (inr r2, s2)
        /\ isValid (validateResult (validationRules new) (VResult r2)) = false
        /\ calculateWithAlgorithm new "weighted_median" (TeamArray l) s2 = (inr r3, s3)
        /\ isValid (validateResult (validationRules new) (VResult r3)) = false
        /\ exists e, fst (calculateWithFallback new (TeamArray l) s1) = inl e)
  /\ (forall r, fst (calculate new (TeamArray l) s) <> inr r)
  /\ exists e, fst (calculate new (TeamArray l) s) = inl e.
Proof.
  assert (Hpre : isValid (preValidateData (TeamArray l)) = true)
    by (now rewrite (preValidateData_identical x l)).
  split; [exact Hpre|].
  destruct (calculate_primary_rejected new (TeamArray l) s eq_refl Hpre)
    as (r1 & H1 & Hrun).
  destruct (calculateWithFallback_run new l (after_call "rffl_standard" s) eq_refl)
    as (r2 & r3 & H2 & H3 & Hfb).
  change (validationRules new) with setupValidationRules in *.
  rewrite !validateResult_rejects_result_object in Hfb.
  rewrite (Hrun (validateResult_rejects_result_object r1)).
  split; [|split].
  - eexists r1, _, r2, _, r3, _.
    repeat split; try eassumption; try apply validateResult_rejects_result_object.
    rewrite Hfb. cbn [fst]. eauto.
  - intros r. cbn [fst]. discriminate.
  - cbn [fst]. eauto.
Qed.

Lemma identical_scores_return_no_result_witness :
  length identical = 12
  /\ Forall (fun t => score t = JNum 100) identical
  /\ forall r, fst (calculate new (TeamArray identical) fresh) <> inr r.
Proof.
  assert (Hlen : length identical = 12) by reflexivity.
  assert (Hsame : Forall (fun t => score t = JNum 100) identical)
    by (repeat constructor).
  split; [exact Hlen|]. split; [exact Hsame|].
  exact (proj1 (proj2 (proj2
           (identical_scores_return_no_result 100 identical fresh Hlen Hsame
              eq_refl eq_refl)))).
Defined.

(** C5 as stated fails on twelve teams at 100: the run ends in an error,
    not in a result of the statistical algorithm, and
    [calculateWithFallback], run by itself on them, ends in 'All
    calculation algorithms failed'. The spread of the scores is the same
    whichever algorithm ran: the consistency check, applied to the team
    array of each of the three results, is [false] every time. *)
Lemma identical_scores_are_not_rescued :
  isValid (preValidateData (TeamArray identical)) = true
  /\ fst (calculate new (TeamArray identical) fresh)
     = inl (TypeError "this.calculateWithFallback is not a function")
  /\ ~ (exists r, fst (calculate new (TeamArray identical) fresh) = inr r
                  /\ algorithm r = "statistical_median")
  /\ fst (calculateWithFallback new (TeamArray identical) fresh)
     = inl (Error "All calculation algorithms failed")
  /\ (forall calc,
        In calc [calculateRFFLMedian; calculateStatisticalMedian;
                 fun teamData => calculateWeightedMedian teamData None] ->
        exists r, calc (TeamArray identical) = inr r
                  /\ validateScoreConsistency (VTeams (teams r)) = inr false).
Proof.
  assert (Hrun : fst (calculate new (TeamArray identical) fresh)
                 = inl (TypeError "this.calculateWithFallback is not a function"))
    by (vm_compute; reflexivity).
  split; [vm_compute; reflexivity|]. split; [exact Hrun|]. split; [|split].
  - intros (r & Hr & _). rewrite Hrun in Hr. discriminate.
  - vm_compute; reflexivity.
  - intros calc [<-|[<-|[<-|[]]]]; eexists;
      (split; [vm_compute; reflexivity|vm_compute; reflexivity]).
Qed.

(** ** What input validation examines *)

Lemma in_concat_mapi_from {A B : Type} (f : A -> nat -> list B) (l : list A)
    (i k : nat) (x : A) (e : B) :
  nth_error l k = Some x -> In e (f x (i + k)) -> In e (concat (mapi_from i f l)).
Proof.
  revert i k. induction l as [|y l IH]; intros i [|k] Hat Hin; try discriminate;
    simpl in *; apply in_or_app.
  - injection Hat as ->. rewrite Nat.add_0_r in Hin. now left.
  - right. apply (IH (S i) k Hat). now rewrite Nat.add_succ_comm.
Qed.

Lemma preValidateData_invalid_of_error (l : list Team) (e : string) :
  In e (errors (preValidateData (TeamArray l))) ->
  isValid (preValidateData (TeamArray l)) = false.
Proof.
  unfold preValidateData; cbn [isValid errors].
  destruct (_ ++ _) as [|e0 es]; [contradiction|reflexivity].
Qed.

(** C8, as the code has it. For every array, an entry at position [index]
    whose score is not of type number gets the error 'Team index: Invalid
    score', an entry whose score is below 0 or above 300 gets 'Team index:
    Score out of range', and either makes the input invalid. Both
    infinities are out of range. Nothing else about an entry is looked at. *)
Theorem preValidateData_reports_type_and_range
    (l : list Team) (index : nat) (t : Team)
    (Hat : nth_error l index = Some t)
    (Hbad : typeof_number (score t) = false
            \/ Js.lt (toNumber (score t)) 0 = true
            \/ Js.gt (toNumber (score t)) 300 = true) :
  let v := preValidateData (TeamArray l) in
  isValid v = false
  /\ (typeof_number (score t) = false ->
      In ("Team " ++ Js.string_of_nat index ++ ": Invalid score")%string (errors v))
  /\ (Js.lt (toNumber (score t)) 0 = true \/ Js.gt (toNumber (score t)) 300 = true ->
      In ("Team " ++ Js.string_of_nat index ++ ": Score out of range")%string (errors v))
  /\ Js.gt (toNumber (JNum infinity)) 300 = true
  /\ Js.lt (toNumber (JNum neg_infinity)) 0 = true.
Proof.
  cbn zeta.
  assert (Htype : typeof_number (score t) = false ->
                  In ("Team " ++ Js.string_of_nat index ++ ": Invalid score")%string
                    (errors (preValidateData (TeamArray l)))).
  { intros Hty. unfold preValidateData; cbn [errors]. apply in_or_app; right.
    apply (in_concat_mapi_from team_errors l 0 index t); [exact Hat|].
    unfold team_errors. rewrite Hty. cbn [negb Nat.add]. apply in_or_app; left.
    now left. }
  assert (Hrange : Js.lt (toNumber (score t)) 0 = true
                   \/ Js.gt (toNumber (score t)) 300 = true ->
                   In ("Team " ++ Js.string_of_nat index ++ ": Score out of range")%string
                     (errors (preValidateData (TeamArray l)))).
  { intros Hr. unfold preValidateData; cbn [errors]. apply in_or_app; right.
    apply (in_concat_mapi_from team_errors l 0 index t); [exact Hat|].
    unfold team_errors. apply in_or_app; right. cbn [Nat.add].
    destruct Hr as [-> | ->]; [|rewrite orb_true_r]; now left. }
  repeat split; try assumption; try reflexivity.
  destruct Hbad as [Hty|Hr].
  - exact (preValidateData_invalid_of_error l _ (Htype Hty)).
  - exact (preValidateData_invalid_of_error l _ (Hrange Hr)).
Qed.

Lemma preValidateData_reports_type_and_range_witness :
  nth_error scenarioTooHigh 3 = Some (mkTeam (Some "LNO") None (JNum 301) (JNum 93.4))
  /\ preValidateData (TeamArray scenarioTooHigh)
     = {| isValid := false; errors := ["Team 3: Score out of range"] |}
  /\ In "Team 3: Score out of range" (errors (preValidateData (TeamArray scenarioTooHigh))).
Proof.
  split; [reflexivity|]. split; [vm_compute; reflexivity|].
  refine (proj1 (proj2 (proj2
            (preValidateData_reports_type_and_range scenarioTooHigh 3
               (mkTeam (Some "LNO") None (JNum 301) (JNum 93.4)) eq_refl _))) _);
    first [right; right; reflexivity | right; reflexivity].
Defined.

(** C8 as stated fails. An array in which one score is [NaN], one team has
    no identifier and two teams share an identifier passes
    [preValidateData] without an error; and twelve teams under one
    identifier pass both [preValidateData] and
    [MedianCalculator.validateTeamData]. *)
Lemma flawed_entries_pass_validation :
  preValidateData (TeamArray scenarioFlawed) = {| isValid := true; errors := [] |}
  /\ (exists t, nth_error scenarioFlawed 0 = Some t /\ is_nan (toNumber (score t)) = true)
  /\ (exists t, nth_error scenarioFlawed 1 = Some t
                /\ team t = None /\ canonicalCode t = None)
  /\ (exists t t', nth_error scenarioFlawed 2 = Some t
                   /\ nth_error scenarioFlawed 3 = Some t' /\ team t = team t')
  /\ preValidateData (TeamArray scenarioSameName) = {| isValid := true; errors := [] |}
  /\ MedianCalculator.validateTeamData (TeamArray scenarioSameName) = inr true
  /\ Forall (fun t => team t = Some "WZRD") scenarioSameName.
Proof.
  split; [vm_compute; reflexivity|].
  split; [eexists; split; [reflexivity|vm_compute; reflexivity]|].
  split; [eexists; split; [reflexivity|split; reflexivity]|].
  split; [eexists; eexists; split; [reflexivity|split; reflexivity]|].
  split; [vm_compute; reflexivity|].
  split; [vm_compute; reflexivity|].
  repeat constructor.
Qed.

(** ** Repeated calls *)

(** ** The anomaly pipeline *)

Lemma report_kinds (anomalies : list Anomaly) :
  existsb is_statistical_outlier anomalies = false ->
  existsb is_statistical_outlier (Detection.anomalies (report anomalies)) = false.
Proof. intros H; exact H. Qed.

Lemma detectHistoricalAnomalies_kinds (h : list History.t) (median : jsval) :
  exists d, detectHistoricalAnomalies h median = inr d
            /\ existsb is_statistical_outlier (Detection.anomalies d) = false.
Proof.
  unfold detectHistoricalAnomalies.
  destruct (length (map History.median h) <? 5)%nat; [eauto|].
  eexists; split; [reflexivity|]. apply report_kinds.
  destruct (Js.gt _ _); reflexivity.
Qed.

Lemma detectPatternAnomalies_kinds (m : float) (ts : list TeamResult) (scores : list float) :
  exists d, detectPatternAnomalies (VData m ts scores) = inr d
            /\ existsb is_statistical_outlier (Detection.anomalies d) = false.
Proof.
  unfold detectPatternAnomalies; cbn [teams_of].
  eexists; split; [reflexivity|]. apply report_kinds.
  destruct (0 <? _)%nat; reflexivity.
Qed.

Lemma run_detectors_returned (name : string) (d : Detector)
    (rest : list (string * Detector)) (data : jsval)
    (results : list DetectorResult) (s : State) (found : Detection.t) :
  detect d (medianHistory s) data = inr found ->
  run_detectors ((name, d) :: rest) data results s
  = run_detectors rest data
      (results ++ [ {| detector := name;
                       detection := found;
                       result_confidence := detector_confidence d |} ]) s.
Proof.
  intros Hd. cbn [run_detectors]. unfold bind at 1, read_history at 1.
  now rewrite Hd.
Qed.

Lemma run_detectors_threw (name : string) (d : Detector)
    (rest : list (string * Detector)) (data : jsval)
    (results : list DetectorResult) (s : State) (error : exn) :
  detect d (medianHistory s) data = inl error ->
  run_detectors ((name, d) :: rest) data results s
  = run_detectors rest data results
      (warned ("Anomaly detector " ++ name ++ " failed:") s).
Proof.
  intros Hd. cbn [run_detectors]. unfold bind at 1, read_history at 1.
  now rewrite Hd.
Qed.

(** The pipeline and the statistical detector. [performAnomalyDetection]
    hands every detector the object [{ median, teams, scores }]. The
    statistical detector calls [reduce] on it and throws, the projection
    detector calls [forEach] on it and throws; both are caught and warned
    about, so the verdict is made of the historical and the pattern
    detector alone and holds no statistical-outlier finding, for every
    result. On the sample week with the top score at 300 the verdict holds
    one clustering finding of severity 1/3, which is not above 0.8; the
    statistical detector, given the array of scores itself, reports that
    score with a z-score of about 3.24 and severity 1. *)
Lemma pipeline_drops_the_statistical_detector :
  (forall (r : CalcResult) (s : State),
     exists v s',
       performAnomalyDetection new r s = (inr v, s')
       /\ existsb is_statistical_outlier (Verdict.anomalies v) = false
       /\ map detector (Verdict.detectorResults v) = ["historical"; "pattern"]
       /\ events s'
          = events s ++ [ConsoleWarn "Anomaly detector statistical failed:";
                         ConsoleWarn "Anomaly detector projection failed:"])
  /\ (exists r s1 v s2 d,
        calculateWithAlgorithm new "rffl_standard" (TeamArray scenarioOutlier) fresh
        = (inr r, s1)
        /\ performAnomalyDetection new r s1 = (inr v, s2)
        /\ Verdict.anomalies v
           = [score_clustering "Unusual gaps between team scores" (1 / 3)]
        /\ Js.gt (Verdict.severity v) 0.8 = false
        /\ detectStatisticalAnomalies (VScores (map score_of (teams r))) = inr d
        /\ Detection.hasAnomalies d = true
        /\ Detection.anomalies d = [statistical_outlier 0 300 3.2386891933276498 1]
        /\ Js.gt (Detection.severity d) 0.8 = true).
Proof.
  split.
  - intros r s. unfold performAnomalyDetection, detectAnomalies.
    set (data := VData (median r) (teams r) (map score_of (teams r))).
    change (anomalyDetectors new) with setupAnomalyDetectors.
    set (s1 := warned "Anomaly detector statistical failed:" s).
    destruct (detectHistoricalAnomalies_kinds (medianHistory s1) data) as (dh & Hh & Hkh).
    destruct (detectPatternAnomalies_kinds (median r) (teams r) (map score_of (teams r)))
      as (dp & Hp & Hkp).
    fold data in Hp.
    unfold bind, setupAnomalyDetectors.
    rewrite (run_detectors_threw _ _ _ data [] s (not_an_array "scores.reduce"))
      by reflexivity.
    fold s1.
    rewrite (run_detectors_returned _ _ _ data [] s1 dh) by exact Hh.
    rewrite (run_detectors_returned _ _ _ data _ s1 dp) by exact Hp.
    rewrite (run_detectors_threw _ _ _ data _ s1 (not_an_array "teams.forEach"))
      by reflexivity.
    cbn [run_detectors ret].
    eexists; eexists. split; [reflexivity|].
    split; [|split].
    + unfold aggregateAnomalyResults; cbn [Verdict.anomalies flat_map detection app].
      rewrite app_nil_r, existsb_app, Hkh, Hkp. reflexivity.
    + reflexivity.
    + unfold s1, warned, emit; cbn [snd events]. now rewrite <- app_assoc.
  - eexists; eexists; eexists; eexists; eexists.
    split; [vm_compute; reflexivity|].
    split; [vm_compute; reflexivity|].
    split; [vm_compute; reflexivity|].
    split; [vm_compute; reflexivity|].
    split; [vm_compute; reflexivity|].
    repeat split; vm_compute; reflexivity.
Qed.

(** [calculateWithFallback] does return when a fallback result validates:
    under the rule set of [distrustful], which rejects the standard result,
    it returns the statistical one without calling the weighted algorithm.
    [calculate] under the same rules still ends in the [TypeError]. *)
Example fallback_returns_the_statistical_result :
  (exists r s',
     calculateWithFallback distrustful (TeamArray scenarioA) fresh = (inr r, s')
     /\ algorithm r = "statistical_median"
     /\ median r = 95.85%float
     /\ invoked (events s') = ["statistical_median"])
  /\ fst (calculate distrustful (TeamArray scenarioA) fresh)
     = inl (TypeError "this.calculateWithFallback is not a function").
Proof.
  split.
  - eexists; eexists. split; [vm_compute; reflexivity|].
    repeat split; vm_compute; reflexivity.
  - vm_compute; reflexivity.
Qed.

(* ================================================================== *)
(** * Further properties of the two classes *)
(* ================================================================== *)

(** ** More on comparisons and [NaN] *)

Lemma ltb_irrefl (a : float) : (a <? a)%float = false.
Proof.
  destruct (a <? a)%float eqn:H; [|reflexivity].
  pose proof (ltb_asym _ _ H) as H'. congruence.
Qed.

Lemma Prim2SF_nan_inv (x : float) : is_nan x = true -> Prim2SF x = S754_nan.
Proof. intros H. unfold Prim2SF. now rewrite H. Qed.

Lemma is_nan_Prim2SF (x : float) : Prim2SF x = S754_nan -> x = nan.
Proof.
  intros H. rewrite <- (SF2Prim_Prim2SF x), H. reflexivity.
Qed.

Lemma ltb_nan_r (a : float) : (a <? nan)%float = false.
Proof.
  rewrite ltb_spec. unfold SFltb. change (Prim2SF nan) with S754_nan.
  destruct (Prim2SF a); reflexivity.
Qed.

Lemma ltb_nan_l (a : float) : (nan <? a)%float = false.
Proof. rewrite ltb_spec. reflexivity. Qed.

Lemma leb_nan_l (a : float) : (nan <=? a)%float = false.
Proof. rewrite leb_spec. reflexivity. Qed.

Lemma nan_sub (a : float) : (nan - a)%float = nan.
Proof. apply is_nan_Prim2SF. rewrite sub_spec. reflexivity. Qed.

Lemma nan_div (a : float) : (nan / a)%float = nan.
Proof. apply is_nan_Prim2SF. rewrite div_spec. reflexivity. Qed.

Lemma abs_not_nan (m t : float) :
  (abs m <=? t)%float = true -> is_nan m = false.
Proof.
  intros H. destruct (is_nan m) eqn:Hn; [|reflexivity].
  rewrite leb_spec, abs_spec, (Prim2SF_nan_inv m Hn) in H. discriminate.
Qed.

(** [Math.max(a, b)] is below neither argument, [Math.min(a, b)] above
    neither. *)
Lemma max2_not_below_l (a b : float) : Js.lt (Js.max2 a b) a = false.
Proof.
  unfold Js.lt, Js.max2.
  destruct (is_nan a || is_nan b); [apply ltb_nan_l|].
  destruct (a <? b)%float eqn:Hab; [now apply ltb_asym|].
  destruct (b <? a)%float eqn:Hba; [apply ltb_irrefl|].
  destruct (get_sign a); [exact Hba|apply ltb_irrefl].
Qed.

Lemma min2_not_above_l (a b : float) : Js.gt (Js.min2 a b) a = false.
Proof.
  unfold Js.gt, Js.min2.
  destruct (is_nan a || is_nan b); [apply ltb_nan_r|].
  destruct (a <? b)%float eqn:Hab; [apply ltb_irrefl|].
  destruct (b <? a)%float eqn:Hba; [exact Hab|].
  destruct (get_sign a); [apply ltb_irrefl|exact Hab].
Qed.

Lemma min2_not_above_r (a b : float) : Js.gt (Js.min2 a b) b = false.
Proof.
  unfold Js.gt, Js.min2.
  destruct (is_nan a || is_nan b); [apply ltb_nan_r|].
  destruct (a <? b)%float eqn:Hab; [now apply ltb_asym|].
  destruct (b <? a)%float eqn:Hba; [apply ltb_irrefl|].
  destruct (get_sign a); [exact Hba|apply ltb_irrefl].
Qed.

Lemma max2_not_above (a b c : float) :
  Js.gt a c = false -> Js.gt b c = false -> Js.gt (Js.max2 a b) c = false.
Proof.
  unfold Js.gt, Js.max2. intros Ha Hb.
  destruct (is_nan a || is_nan b); [apply ltb_nan_r|].
  destruct (a <? b)%float; [exact Hb|].
  destruct (b <? a)%float; [exact Ha|].
  destruct (get_sign a); assumption.
Qed.

Lemma max_not_above (xs : list float) (c : float) :
  Forall (fun x => Js.gt x c = false) xs ->
  forall init, Js.gt init c = false -> Js.gt (fold_left Js.max2 xs init) c = false.
Proof.
  induction 1 as [|x xs Hx _ IH]; intros init Hi; simpl; [exact Hi|].
  apply IH. now apply max2_not_above.
Qed.

(** ** Lookups in a registry *)

Lemma get_adjust {V : Type} (key k : string) (f : V -> V) (m : list (string * V)) :
  get k (adjust key f m)
  = if String.eqb k key then option_map f (get k m) else get k m.
Proof.
  induction m as [|[k0 v0] m IH]; simpl.
  - now destruct (String.eqb k key).
  - destruct (String.eqb key k0) eqn:Hk0; simpl.
    + apply String.eqb_eq in Hk0. subst k0.
      destruct (String.eqb k key) eqn:Hk; [reflexivity|reflexivity].
    + destruct (String.eqb k k0) eqn:Hkk0.
      * apply String.eqb_eq in Hkk0. subst k0.
        rewrite String.eqb_sym in Hk0. now rewrite Hk0.
      * exact IH.
Qed.

Lemma adjust_missing {V : Type} (key : string) (f : V -> V) (m : list (string * V)) :
  get key m = None -> adjust key f m = m.
Proof.
  induction m as [|[k0 v0] m IH]; simpl; [reflexivity|].
  destruct (String.eqb key k0); [discriminate|].
  intros H. now rewrite IH.
Qed.

Lemma adjust_keys {V : Type} (key : string) (f : V -> V) (m : list (string * V)) :
  map fst (adjust key f m) = map fst m.
Proof.
  induction m as [|[k0 v0] m IH]; simpl; [reflexivity|].
  destruct (String.eqb key k0); simpl; [reflexivity|now rewrite IH].
Qed.

(** ** MedianCalculator: the shape of a result *)

Lemma MedianCalculator_mapi_entries (m : float) (l : list Team) (i : nat) :
  map MedianCalculator.entry (mapi_from i (MedianCalculator.team_result m) l) = l.
Proof.
  revert i. induction l as [|t l IH]; intros i; simpl; [reflexivity|].
  now rewrite IH.
Qed.

Lemma MedianCalculator_mapi_ranks (m : float) (l : list Team) (i : nat) :
  map MedianCalculator.rank (mapi_from i (MedianCalculator.team_result m) l)
  = seq (i + 1) (length l).
Proof.
  revert i. induction l as [|t l IH]; intros i; simpl; [reflexivity|].
  rewrite IH. reflexivity.
Qed.

Lemma MedianCalculator_counts (results : list MedianCalculator.TeamResult) :
  MedianCalculator.count_result WIN results
  + MedianCalculator.count_result LOSS results
  + MedianCalculator.count_result TIE results
  = length results.
Proof.
  unfold MedianCalculator.count_result.
  induction results as [|t l IH]; simpl; [reflexivity|].
  destruct (MedianCalculator.result t); simpl; lia.
Qed.

Lemma calculateMedian_ranks_the_twelve_aux (now : Z) (l : list Team) :
  length l = 12 -> exists r, MedianCalculator.calculateMedian now (TeamArray l) = inr r.
Proof.
  intros Hlen. unfold MedianCalculator.calculateMedian.
  rewrite Hlen. cbn [Nat.eqb MedianCalculator.teamCount negb].
  pose proof (sort_length MedianCalculator.by_score_desc l) as Hs.
  rewrite Hlen in Hs.
  destruct (nth_error (Js.sort MedianCalculator.by_score_desc l)
              (fst MedianCalculator.medianPositions)) as [sixth|] eqn:H6.
  2:{ apply nth_error_None in H6. cbn in H6. lia. }
  destruct (nth_error (Js.sort MedianCalculator.by_score_desc l)
              (snd MedianCalculator.medianPositions)) as [seventh|] eqn:H7.
  2:{ apply nth_error_None in H7. cbn in H7. lia. }
  eauto.
Qed.

(** X1. For every array of twelve teams, whatever their scores,
    [calculateMedian] returns: the result lists the twelve teams of the
    input, each once, ranked 1 to 12 in this order, and the counts of wins,
    losses and ties add up to twelve. *)
Theorem calculateMedian_ranks_the_twelve (now : Z) (l : list Team)
    (Hlen : length l = 12) :
  exists r,
    MedianCalculator.calculateMedian now (TeamArray l) = inr r
    /\ Permutation (map MedianCalculator.entry (MedianCalculator.teams r)) l
    /\ map MedianCalculator.rank (MedianCalculator.teams r) = seq 1 12
    /\ MedianCalculator.wins (MedianCalculator.stats r)
       + MedianCalculator.losses (MedianCalculator.stats r)
       + MedianCalculator.ties (MedianCalculator.stats r) = 12
    /\ MedianCalculator.calculatedAt r = now.
Proof.
  unfold MedianCalculator.calculateMedian.
  rewrite Hlen. cbn [Nat.eqb MedianCalculator.teamCount negb].
  pose proof (sort_length MedianCalculator.by_score_desc l) as Hs.
  rewrite Hlen in Hs.
  destruct (nth_error (Js.sort MedianCalculator.by_score_desc l)
              (fst MedianCalculator.medianPositions)) as [sixth|] eqn:H6.
  2:{ apply nth_error_None in H6. cbn in H6. lia. }
  destruct (nth_error (Js.sort MedianCalculator.by_score_desc l)
              (snd MedianCalculator.medianPositions)) as [seventh|] eqn:H7.
  2:{ apply nth_error_None in H7. cbn in H7. lia. }
  eexists. split; [reflexivity|].
  cbn [MedianCalculator.teams MedianCalculator.stats MedianCalculator.calculatedAt].
  unfold mapi. repeat split.
  - rewrite MedianCalculator_mapi_entries. apply sort_perm.
  - rewrite MedianCalculator_mapi_ranks, Hs. reflexivity.
  - unfold MedianCalculator.calculateMedianStats.
    cbn [MedianCalculator.wins MedianCalculator.losses MedianCalculator.ties].
    rewrite MedianCalculator_counts, mapi_from_length. exact Hs.
Qed.

Lemma calculateMedian_ranks_the_twelve_witness :
  length scenarioA = 12
  /\ exists r,
       MedianCalculator.calculateMedian 0 (TeamArray scenarioA) = inr r
       /\ map MedianCalculator.rank (MedianCalculator.teams r) = seq 1 12.
Proof.
  split; [reflexivity|].
  destruct (calculateMedian_ranks_the_twelve 0 scenarioA eq_refl)
    as (r & Hr & _ & Hranks & _).
  exists r. split; assumption.
Defined.

Lemma calculateMedian_fails_on_the_count_only_aux (now : Z) (l : list Team) :
  (length l = 12 ->
   exists r, MedianCalculator.calculateMedian now (TeamArray l) = inr r)
  /\ (length l <> 12 ->
      MedianCalculator.calculateMedian now (TeamArray l)
      = inl (Error ("Expected exactly 12 teams, got "
                      ++ Js.string_of_nat (length l))%string)).
Proof.
  split; [apply calculateMedian_ranks_the_twelve_aux|].
  intros Hlen. unfold MedianCalculator.calculateMedian.
  destruct (Nat.eqb_spec (length l) MedianCalculator.teamCount) as [H|H];
    [contradiction|reflexivity].
Qed.

(** X2. [calculateMedian] throws in one case only, an input that is not an
    array of twelve, and then the error tells the size it got (0 for
    something that is not an array). It never fails on the scores. *)
Theorem calculateMedian_fails_on_the_count_only (now : Z) (teamScores : candidate) :
  match MedianCalculator.calculateMedian now teamScores with
  | inr r => exists l, teamScores = TeamArray l /\ length l = 12
  | inl e =>
      match teamScores with
      | TeamArray l =>
          length l <> 12
          /\ e = Error ("Expected exactly 12 teams, got "
                          ++ Js.string_of_nat (length l))%string
      | _ => e = Error "Expected exactly 12 teams, got 0"
      end
  end.
Proof.
  destruct teamScores as [| | |l]; try reflexivity.
  destruct (Nat.eq_dec (length l) 12) as [Hlen|Hlen].
  - destruct (calculateMedian_ranks_the_twelve_aux now l Hlen) as [r ->]. eauto.
  - unfold MedianCalculator.calculateMedian.
    destruct (Nat.eqb_spec (length l) MedianCalculator.teamCount) as [H|H];
      [contradiction|].
    cbn [negb]. split; [exact Hlen|reflexivity].
Qed.

(** X3. In every result of [calculateMedian] each entry's margin is the
    rounded difference of its score to the returned median, and its
    outcome and flags are read off that margin: WIN exactly when the margin
    is above 0 (and [isAboveMedian] is set), LOSS exactly when it is below
    0 (and [isBelowMedian] is set); an entry flagged [isAtMedian] is a TIE,
    and a TIE is flagged [isAtMedian] unless its margin is [NaN]. *)
Theorem calculateMedian_outcome_follows_margin
    (now : Z) (teamScores : candidate)
    (r : MedianCalculator.MedianResult) (e : MedianCalculator.TeamResult)
    (Hr : MedianCalculator.calculateMedian now teamScores = inr r)
    (He : In e (MedianCalculator.teams r)) :
  MedianCalculator.marginVsMedian e
  = MedianCalculator.roundScore
      (MedianCalculator.score_of e - MedianCalculator.median r)
  /\ (MedianCalculator.result e = WIN
      <-> Js.gt (MedianCalculator.marginVsMedian e) 0 = true)
  /\ (MedianCalculator.result e = WIN <-> MedianCalculator.isAboveMedian e = true)
  /\ (MedianCalculator.result e = LOSS
      <-> Js.lt (MedianCalculator.marginVsMedian e) 0 = true)
  /\ (MedianCalculator.result e = LOSS <-> MedianCalculator.isBelowMedian e = true)
  /\ (MedianCalculator.isAtMedian e = true -> MedianCalculator.result e = TIE)
  /\ (MedianCalculator.result e = TIE ->
      is_nan (MedianCalculator.marginVsMedian e) = false ->
      MedianCalculator.isAtMedian e = true).
Proof.
  destruct (MedianCalculator_entries now teamScores r e Hr He) as (t & index & ->).
  destruct (MedianCalculator_outcome_by_margin (MedianCalculator.median r) t index)
    as (Hm & Hwin & Hloss & Htie).
  cbn zeta in *.
  repeat split; try (apply Hwin); try (apply Hloss); try exact Hm.
  - intros Hat. unfold MedianCalculator.team_result in *.
    cbn [MedianCalculator.isAtMedian MedianCalculator.marginVsMedian
         MedianCalculator.result] in *.
    set (m := MedianCalculator.roundScore
                (toNumber (score t) - MedianCalculator.median r)) in *.
    unfold Js.strict_eq, Js.gt, Js.lt in *.
    rewrite eqb_spec in Hat. unfold SFeqb in Hat.
    destruct (SFcompare (Prim2SF m) (Prim2SF 0)) as [[| |]|] eqn:Hc;
      try discriminate.
    rewrite !ltb_spec. unfold SFltb.
    rewrite (SFcompare_antisym _ _ _ Hc), Hc. reflexivity.
  - intros Ht Hn. apply Htie; assumption.
Qed.

Lemma calculateMedian_outcome_follows_margin_witness :
  exists r e,
    MedianCalculator.calculateMedian 0 (TeamArray scenarioA) = inr r
    /\ In e (MedianCalculator.teams r)
    /\ MedianCalculator.marginVsMedian e
       = MedianCalculator.roundScore
           (MedianCalculator.score_of e - MedianCalculator.median r).
Proof.
  destruct (MedianCalculator.calculateMedian 0 (TeamArray scenarioA))
    as [err|r] eqn:Hr; [vm_compute in Hr; discriminate|].
  destruct (MedianCalculator.teams r) as [|e rest] eqn:Ht.
  { vm_compute in Hr. injection Hr as <-. discriminate. }
  exists r, e. split; [reflexivity|]. split; [rewrite Ht; now left|].
  apply (calculateMedian_outcome_follows_margin 0 (TeamArray scenarioA) r e Hr).
  rewrite Ht. now left.
Defined.

(** X4. The colour class [MedianUtils.getMarginClass] gives for an entry's
    margin tells its outcome: green for a WIN, red for a LOSS and yellow
    for a TIE, for every entry of every result of [calculateMedian]. *)
Theorem getMarginClass_shows_the_outcome
    (now : Z) (teamScores : candidate)
    (r : MedianCalculator.MedianResult) (e : MedianCalculator.TeamResult)
    (Hr : MedianCalculator.calculateMedian now teamScores = inr r)
    (He : In e (MedianCalculator.teams r)) :
  MedianUtils.getMarginClass (MedianCalculator.marginVsMedian e)
  = match MedianCalculator.result e with
    | WIN => "text-green-400"
    | LOSS => "text-red-400"
    | TIE => "text-yellow-400"
    end.
Proof.
  destruct (MedianCalculator_entries now teamScores r e Hr He) as (t & index & ->).
  unfold MedianCalculator.team_result, MedianUtils.getMarginClass.
  cbn [MedianCalculator.marginVsMedian MedianCalculator.result].
  destruct (Js.gt _ 0); [reflexivity|].
  destruct (Js.lt _ 0); reflexivity.
Qed.

Lemma getMarginClass_shows_the_outcome_witness :
  exists r e,
    MedianCalculator.calculateMedian 0 (TeamArray scenarioA) = inr r
    /\ nth_error (MedianCalculator.teams r) 6 = Some e
    /\ MedianCalculator.result e = LOSS
    /\ MedianUtils.getMarginClass (MedianCalculator.marginVsMedian e) = "text-red-400".
Proof.
  destruct (MedianCalculator.calculateMedian 0 (TeamArray scenarioA))
    as [err|r] eqn:Hr; [vm_compute in Hr; discriminate|].
  destruct (nth_error (MedianCalculator.teams r) 6) as [e|] eqn:He.
  2:{ vm_compute in Hr. injection Hr as <-. discriminate. }
  assert (Hloss : MedianCalculator.result e = LOSS).
  { vm_compute in Hr. injection Hr as <-. vm_compute in He. injection He as <-.
    reflexivity. }
  exists r, e. split; [reflexivity|]. split; [exact He|]. split; [exact Hloss|].
  rewrite (getMarginClass_shows_the_outcome 0 (TeamArray scenarioA) r e Hr
             (nth_error_In _ _ He)).
  now rewrite Hloss.
Defined.

(** ** MedianCalculator: validation and queries *)

(** What [validateTeamData] asks of an entry. *)
Lemma validateTeams_spec (l : list Team) (index : nat) :
  match MedianCalculator.validateTeams index l with
  | inr b =>
      b = true
      /\ Forall (fun t =>
                   typeof_number (score t) = true
                   /\ is_nan (toNumber (score t)) = false
                   /\ (truthy_id (team t) = true \/ truthy_id (canonicalCode t) = true))
           l
  | inl e =>
      exists k t,
        nth_error l k = Some t
        /\ ((typeof_number (score t) = false \/ is_nan (toNumber (score t)) = true)
              /\ e = Error ("Invalid score for team at index "
                              ++ Js.string_of_nat (index + k) ++ ": "
                              ++ MedianCalculator.render_refused (score t))%string
            \/ (truthy_id (team t) = false /\ truthy_id (canonicalCode t) = false)
               /\ e = Error ("Missing team identifier at index "
                               ++ Js.string_of_nat (index + k))%string)
  end.
Proof.
  revert index. induction l as [|t l IH]; intros index; simpl; [auto|].
  destruct (typeof_number (score t)) eqn:Hty; cbn [negb orb].
  2:{ exists 0, t. rewrite Nat.add_0_r. split; [reflexivity|]. left. auto. }
  destruct (is_nan (toNumber (score t))) eqn:Hnan.
  { exists 0, t. rewrite Nat.add_0_r. split; [reflexivity|]. left. auto. }
  destruct (truthy_id (team t)) eqn:Hteam; cbn [negb andb].
  - specialize (IH (S index)).
    destruct (MedianCalculator.validateTeams (S index) l) as [e|b].
    + destruct IH as (k & t' & Hk & H). exists (S k), t'.
      rewrite Nat.add_succ_r. split; [exact Hk|exact H].
    + destruct IH as [-> Hall]. split; [reflexivity|]. constructor; auto.
  - destruct (truthy_id (canonicalCode t)) eqn:Hcode; cbn [negb].
    + specialize (IH (S index)).
      destruct (MedianCalculator.validateTeams (S index) l) as [e|b].
      * destruct IH as (k & t' & Hk & H). exists (S k), t'.
        rewrite Nat.add_succ_r. split; [exact Hk|exact H].
      * destruct IH as [-> Hall]. split; [reflexivity|]. constructor; auto.
    + exists 0, t. rewrite Nat.add_0_r. split; [reflexivity|]. right. auto.
Qed.

(** X5. [validateTeamData] never answers [false]: it returns [true] for
    an array of twelve entries whose scores are numbers other than [NaN]
    and which each carry a [team] or a [canonicalCode], and throws for
    everything else; the error for an entry names its position and, for
    a refused score, goes on with the score as the template renders it
    ('undefined', 'null', 'true', 'false' or 'NaN'). Ranges, infinities
    and repeated identifiers are not looked at. *)
Theorem validateTeamData_accepts_exactly (teamData : candidate) :
  match MedianCalculator.validateTeamData teamData with
  | inr b =>
      b = true
      /\ exists l,
           teamData = TeamArray l
           /\ length l = 12
           /\ Forall (fun t =>
                        typeof_number (score t) = true
                        /\ is_nan (toNumber (score t)) = false
                        /\ (truthy_id (team t) = true
                            \/ truthy_id (canonicalCode t) = true))
                l
  | inl e =>
      match teamData with
      | Null | Undefined | NotArray => e = Error "Team data must be an array"
      | TeamArray l =>
          (length l <> 12
           /\ e = Error ("Expected 12 teams, got " ++ Js.string_of_nat (length l))%string)
          \/ (length l = 12
              /\ exists k t,
                   nth_error l k = Some t
                   /\ ((typeof_number (score t) = false
                        \/ is_nan (toNumber (score t)) = true)
                       /\ e = Error ("Invalid score for team at index "
                                       ++ Js.string_of_nat k ++ ": "
                                       ++ MedianCalculator.render_refused (score t))%string
                       \/ (truthy_id (team t) = false
                           /\ truthy_id (canonicalCode t) = false)
                          /\ e = Error ("Missing team identifier at index "
                                          ++ Js.string_of_nat k)%string))
      end
  end.
Proof.
  destruct teamData as [| | |l]; try reflexivity.
  unfold MedianCalculator.validateTeamData.
  destruct (Nat.eqb_spec (length l) MedianCalculator.teamCount) as [Hlen|Hlen];
    cbn [negb].
  - pose proof (validateTeams_spec l 0) as H.
    destruct (MedianCalculator.validateTeams 0 l) as [e|b].
    + right. split; [exact Hlen|]. exact H.
    + destruct H as [-> Hall]. split; [reflexivity|]. eauto.
  - left. split; [exact Hlen|reflexivity].
Qed.

(** X6. [getCloseToMedianTeams] returns exactly the entries of the result
    whose margin is within the threshold in absolute value (5 when no
    threshold is given), each as often as it occurs; an entry whose margin
    is [NaN] is never among them. *)
Theorem getCloseToMedianTeams_selects_within_threshold
    (results : MedianCalculator.MedianResult) (threshold : option float) :
  let limit := match threshold with Some t => t | None => 5.0%float end in
  let close := MedianCalculator.getCloseToMedianTeams results threshold in
  Permutation close
    (filter (fun t => Js.le (abs (MedianCalculator.marginVsMedian t)) limit)
       (MedianCalculator.teams results))
  /\ Forall (fun t =>
               In t (MedianCalculator.teams results)
               /\ Js.le (abs (MedianCalculator.marginVsMedian t)) limit = true
               /\ is_nan (MedianCalculator.marginVsMedian t) = false)
       close
  /\ (forall t,
        In t (MedianCalculator.teams results) ->
        Js.le (abs (MedianCalculator.marginVsMedian t)) limit = true ->
        In t close)
  /\ length close <= length (MedianCalculator.teams results).
Proof.
  cbn zeta. unfold MedianCalculator.getCloseToMedianTeams.
  set (limit := match threshold with Some t => t | None => 5.0%float end).
  set (cmp := fun a b : MedianCalculator.TeamResult =>
                (abs (MedianCalculator.marginVsMedian a)
                 - abs (MedianCalculator.marginVsMedian b))%float).
  set (keep := fun t : MedianCalculator.TeamResult =>
                 Js.le (abs (MedianCalculator.marginVsMedian t)) limit).
  pose proof (sort_perm cmp (filter keep (MedianCalculator.teams results))) as Hperm.
  split; [exact Hperm|]. split; [|split].
  - apply Forall_forall. intros t Ht.
    apply (Permutation_in _ Hperm) in Ht. apply filter_In in Ht.
    destruct Ht as [Hin Hk]. repeat split; try assumption.
    unfold keep, Js.le in Hk. now apply abs_not_nan in Hk.
  - intros t Hin Hk. apply (Permutation_in _ (Permutation_sym Hperm)).
    apply filter_In. split; assumption.
  - rewrite (Permutation_length Hperm). apply filter_length_le.
Qed.

(** X7. [wouldScoreChangeAffectMedian] never throws. For results that
    hold twelve teams it reports the comparison of the recalculated median
    with the current one; for any other number of teams it reports
    [wouldChange: false] together with the count error of
    [calculateMedian]. *)
Theorem wouldScoreChangeAffectMedian_reports
    (now : Z) (currentResults : MedianCalculator.MedianResult)
    (teamCode : option string) (newScore : jsprim) :
  let report :=
    MedianCalculator.wouldScoreChangeAffectMedian now currentResults teamCode newScore in
  let updated :=
    map (MedianCalculator.with_score teamCode newScore)
      (MedianCalculator.teams currentResults) in
  if (length (MedianCalculator.teams currentResults) =? 12)%nat then
    exists newResults,
      MedianCalculator.calculateMedian now (TeamArray updated) = inr newResults
      /\ report
         = MedianCalculator.Compared
             (negb (Js.strict_eq (MedianCalculator.median newResults)
                      (MedianCalculator.median currentResults)))
             (MedianCalculator.median currentResults)
             (MedianCalculator.median newResults)
             (MedianCalculator.roundScore
                (MedianCalculator.median newResults
                 - MedianCalculator.median currentResults))
  else
    report
    = MedianCalculator.NotCompared
        ("Expected exactly 12 teams, got "
           ++ Js.string_of_nat (length (MedianCalculator.teams currentResults)))%string
    /\ MedianCalculator.wouldChange report = false.
Proof.
  cbn zeta. unfold MedianCalculator.wouldScoreChangeAffectMedian.
  set (updated := map (MedianCalculator.with_score teamCode newScore)
                    (MedianCalculator.teams currentResults)).
  assert (Hlen : length updated = length (MedianCalculator.teams currentResults))
    by apply length_map.
  pose proof (calculateMedian_fails_on_the_count_only_aux now updated) as H.
  rewrite Hlen in H.
  destruct (Nat.eqb_spec (length (MedianCalculator.teams currentResults)) 12)
    as [H12|H12].
  - destruct H as [H _]. destruct (H H12) as [r Hr]. rewrite Hr. eauto.
  - destruct H as [_ H]. rewrite (H H12). cbn [exn_message]. split; reflexivity.
Qed.

(** X8. [wouldScoreChangeAffectMedian] finds the team to change by its
    [canonicalCode] alone. Where no entry of the current result has the
    given code as its [canonicalCode] (as when the teams carry only the
    field [team]), no score is replaced and the report is the one for the
    unchanged scores. *)
Theorem wouldScoreChangeAffectMedian_needs_canonicalCode
    (now : Z) (currentResults : MedianCalculator.MedianResult)
    (teamCode : option string) (newScore otherScore : jsprim)
    (Hnone : Forall (fun t =>
                       MedianCalculator.same_code
                         (canonicalCode (MedianCalculator.entry t)) teamCode = false)
               (MedianCalculator.teams currentResults)) :
  map (MedianCalculator.with_score teamCode newScore)
    (MedianCalculator.teams currentResults)
  = map MedianCalculator.entry (MedianCalculator.teams currentResults)
  /\ MedianCalculator.wouldScoreChangeAffectMedian now currentResults teamCode newScore
     = MedianCalculator.wouldScoreChangeAffectMedian now currentResults teamCode
         otherScore.
Proof.
  assert (Hmap : forall s,
             map (MedianCalculator.with_score teamCode s)
               (MedianCalculator.teams currentResults)
             = map MedianCalculator.entry (MedianCalculator.teams currentResults)).
  { intros s. apply map_ext_in. intros t Ht.
    rewrite Forall_forall in Hnone. specialize (Hnone t Ht).
    unfold MedianCalculator.with_score. rewrite Hnone.
    destruct (MedianCalculator.entry t); reflexivity. }
  split; [apply Hmap|].
  unfold MedianCalculator.wouldScoreChangeAffectMedian.
  now rewrite (Hmap newScore), (Hmap otherScore).
Qed.

Lemma wouldScoreChangeAffectMedian_needs_canonicalCode_witness :
  exists r,
    MedianCalculator.calculateMedian 0 (TeamArray scenarioA) = inr r
    /\ MedianCalculator.wouldScoreChangeAffectMedian 1 r (Some "WZRD") (JNum 0)
       = MedianCalculator.wouldScoreChangeAffectMedian 1 r (Some "WZRD") (JNum 300).
Proof.
  destruct (MedianCalculator.calculateMedian 0 (TeamArray scenarioA))
    as [err|r] eqn:Hr; [vm_compute in Hr; discriminate|].
  exists r. split; [reflexivity|].
  apply wouldScoreChangeAffectMedian_needs_canonicalCode.
  vm_compute in Hr. injection Hr as <-.
  cbn [MedianCalculator.teams]. repeat constructor.
Defined.

(** ** ScoringAgent: what the validators accept *)

Lemma team_errors_nil_iff (t : Team) (index : nat) :
  team_errors t index = []
  <-> typeof_number (score t) = true
      /\ Js.lt (toNumber (score t)) 0 = false
      /\ Js.gt (toNumber (score t)) 300 = false.
Proof.
  unfold team_errors.
  destruct (typeof_number (score t)); cbn [negb];
    destruct (Js.lt (toNumber (score t)) 0);
    destruct (Js.gt (toNumber (score t)) 300); cbn [orb app];
    split; intros H; try discriminate; try (destruct H as (? & ? & ?); discriminate);
    auto.
Qed.

Lemma concat_mapi_from_nil_inv {A B : Type} (f : A -> nat -> list B) (l : list A) (i : nat) :
  concat (mapi_from i f l) = [] -> Forall (fun x => exists k, f x k = []) l.
Proof.
  revert i. induction l as [|x l IH]; intros i H; simpl in *; [constructor|].
  apply app_eq_nil in H. destruct H as [Hx Hl].
  constructor; [eauto|]. now apply (IH (S i)).
Qed.

(** X9. [preValidateData] accepts exactly the arrays of twelve entries
    whose scores are of type number and neither below 0 nor above 300;
    [NaN], which is neither, is accepted. Nothing else makes an input
    invalid. *)
Theorem preValidateData_accepts_exactly (teamData : candidate) :
  isValid (preValidateData teamData) = true
  <-> exists l,
        teamData = TeamArray l
        /\ length l = 12
        /\ Forall (fun t =>
                     typeof_number (score t) = true
                     /\ Js.lt (toNumber (score t)) 0 = false
                     /\ Js.gt (toNumber (score t)) 300 = false)
             l.
Proof.
  split.
  - intros Hv. destruct (preValidateData_valid_inv teamData Hv) as (l & -> & Hlen).
    exists l. split; [reflexivity|]. split; [exact Hlen|].
    unfold preValidateData in Hv; cbn [isValid] in Hv.
    rewrite Hlen in Hv. cbn [Nat.eqb negb app] in Hv.
    destruct (concat (mapi team_errors l)) eqn:Hc; [|discriminate].
    apply concat_mapi_from_nil_inv in Hc.
    eapply Forall_impl; [|exact Hc].
    intros t [k Hk]. now apply (team_errors_nil_iff t k).
  - intros (l & -> & Hlen & Hall).
    unfold preValidateData; cbn [isValid].
    rewrite Hlen. cbn [Nat.eqb negb app]. unfold mapi.
    rewrite concat_mapi_from_nil; [reflexivity|].
    eapply Forall_impl; [|exact Hall].
    intros t Ht k. now apply team_errors_nil_iff.
Qed.

Lemma fold_apply_rule (v : jsval) (rules : list (string * Rule)) (acc : list string) :
  fold_left (apply_rule v) rules acc = acc ++ flat_map (apply_rule v []) rules.
Proof.
  revert acc. induction rules as [|[name rule] rules IH]; intros acc; simpl.
  - now rewrite app_nil_r.
  - rewrite IH. unfold apply_rule.
    destruct (validate rule v) as [e|[|]]; simpl;
      rewrite <- ?app_assoc; reflexivity.
Qed.

(** X10. [validateResult] applies every rule, whatever the earlier ones
    said, and never throws: the outcome is valid exactly when every rule
    returns [true], and the errors hold one entry for each rule that
    returns [false] or throws, in the order of the rules. *)
Theorem validateResult_reports_every_failing_rule
    (rules : list (string * Rule)) (result : jsval) :
  let passes := fun entry : string * Rule =>
                  match validate (snd entry) result with
                  | inr true => true
                  | _ => false
                  end in
  let describe := fun entry : string * Rule =>
                    match validate (snd entry) result with
                    | inl error =>
                        (fst entry ++ ": Validation error - " ++ exn_message error)%string
                    | inr _ => (fst entry ++ ": " ++ message (snd entry))%string
                    end in
  (isValid (validateResult rules result) = true <-> forallb passes rules = true)
  /\ errors (validateResult rules result)
     = map describe (filter (fun entry => negb (passes entry)) rules).
Proof.
  cbn zeta. unfold validateResult; cbn [isValid errors].
  rewrite fold_apply_rule. cbn [app].
  induction rules as [|[name rule] rules [IHv IHe]].
  - split; [split; reflexivity|reflexivity].
  - cbn [flat_map forallb filter map fst snd].
    unfold apply_rule at 1 3. cbn [app].
    destruct (validate rule result) as [e|[|]] eqn:Hv; cbn [negb andb app map fst snd].
    + rewrite Hv. split; [split; discriminate|]. cbn [app]. now rewrite IHe.
    + split; [exact IHv|exact IHe].
    + rewrite Hv. split; [split; discriminate|]. cbn [app]. now rewrite IHe.
Qed.

(** ** ScoringAgent: what the three algorithms share *)

Lemma agent_counts (ts : list TeamResult) :
  count_result WIN ts + count_result LOSS ts + count_result TIE ts = length ts.
Proof.
  unfold count_result.
  induction ts as [|t l IH]; simpl; [reflexivity|].
  destruct (result t); simpl; lia.
Qed.

(** Every algorithm ends in the same construction from the median [m] it
    computed. *)
Lemma algorithm_result_shape (calc : candidate -> exn + StrategyResult) :
  In calc [calculateRFFLMedian; calculateStatisticalMedian;
           fun teamData => calculateWeightedMedian teamData None] ->
  forall l r,
    calc (TeamArray l) = inr r ->
    exists m q,
      r = {| median := round2 m;
             teams := Js.sort by_score_desc (map (team_result m) l);
             stats := calculateStats (Js.sort by_score_desc (map (team_result m) l)) m;
             quality := q |}.
Proof.
  intros [<-|[<-|[<-|[]]]] l r.
  - unfold calculateRFFLMedian. destruct (negb _); [discriminate|].
    intros H; injection H as <-. eauto.
  - unfold calculateStatisticalMedian. intros H; injection H as <-. eauto.
  - unfold calculateWeightedMedian. intros H; injection H as <-. eauto.
Qed.

(** X11. Whichever of the three algorithms produced a result for an
    array: its teams are the teams of the input, each once; winners, losers
    and ties add up to their number; the returned median is [stats.median]
    rounded to two decimals; and every team's margin and outcome are taken
    against the unrounded [stats.median]: the margin is the plain
    difference, WIN means a score above it, LOSS a score below it. *)
Theorem agent_results_are_relative_to_the_unrounded_median
    (calc : candidate -> exn + StrategyResult) (l : list Team) (r : StrategyResult)
    (Hcalc : In calc [calculateRFFLMedian; calculateStatisticalMedian;
                      fun teamData => calculateWeightedMedian teamData None])
    (Hr : calc (TeamArray l) = inr r) :
  Permutation (map entry (teams r)) l
  /\ Stats.winners (stats r) + Stats.losers (stats r) + Stats.ties (stats r) = length l
  /\ median r = round2 (Stats.median (stats r))
  /\ Forall (fun t =>
               marginVsMedian t = (score_of t - Stats.median (stats r))%float
               /\ (result t = WIN <-> Js.gt (score_of t) (Stats.median (stats r)) = true)
               /\ (result t = LOSS <-> Js.lt (score_of t) (Stats.median (stats r)) = true))
       (teams r).
Proof.
  destruct (algorithm_result_shape calc Hcalc l r Hr) as (m & q & ->).
  cbn [teams stats median]. unfold calculateStats; cbn [Stats.winners Stats.losers
    Stats.ties Stats.median].
  pose proof (sort_perm by_score_desc (map (team_result m) l)) as Hperm.
  assert (Hentries : map entry (map (team_result m) l) = l).
  { rewrite map_map. simpl. apply map_id. }
  repeat split.
  - rewrite <- Hentries at 2. now apply Permutation_map.
  - rewrite agent_counts, sort_length. apply length_map.
  - apply Forall_forall. intros t Ht.
    apply (Permutation_in _ Hperm) in Ht. apply in_map_iff in Ht.
    destruct Ht as (t0 & <- & _).
    unfold team_result, score_of; cbn [entry result marginVsMedian].
    split; [reflexivity|].
    destruct (Js.gt (toNumber (score t0)) m) eqn:Hgt.
    + pose proof (ltb_asym _ _ Hgt) as Hlt. unfold Js.lt. rewrite Hlt.
      split; split; intros; congruence.
    + destruct (Js.lt (toNumber (score t0)) m); split; split; intros; congruence.
Qed.

Lemma agent_results_are_relative_to_the_unrounded_median_witness :
  exists r,
    calculateStatisticalMedian (TeamArray scenarioClose) = inr r
    /\ median r = round2 (Stats.median (stats r))
    /\ Stats.winners (stats r) + Stats.losers (stats r) + Stats.ties (stats r) = 12.
Proof.
  destruct (calculateStatisticalMedian (TeamArray scenarioClose)) as [e|r] eqn:Hr;
    [discriminate|].
  exists r. split; [reflexivity|].
  destruct (agent_results_are_relative_to_the_unrounded_median
              calculateStatisticalMedian scenarioClose r
              ltac:(right; left; reflexivity) Hr) as (_ & Hcount & Hmed & _).
  split; [exact Hmed|exact Hcount].
Defined.

(** X12. The standard algorithm returns for an array of twelve and throws
    'RFFL median requires exactly 12 teams' for every other array; the
    statistical and the weighted algorithm return for every array, the
    empty one included, with as many teams as they were given. Where the
    input is not an array each of the three throws the [TypeError] of its
    first [teamData.map]: 'Cannot read properties of null (reading 'map')'
    on [null], the same of [undefined] on [undefined], and 'teamData.map is
    not a function' on another value without [map]; called through
    [calculateWithAlgorithm] the error comes out as it is. *)
Theorem agent_algorithms_and_the_count (l : list Team) :
  (if (length l =? 12)%nat
   then exists r, calculateRFFLMedian (TeamArray l) = inr r
   else calculateRFFLMedian (TeamArray l)
        = inl (Error "RFFL median requires exactly 12 teams"))
  /\ (exists r, calculateStatisticalMedian (TeamArray l) = inr r
                /\ length (teams r) = length l)
  /\ (exists r, calculateWeightedMedian (TeamArray l) None = inr r
                /\ length (teams r) = length l)
  /\ (forall calc,
        In calc [calculateRFFLMedian; calculateStatisticalMedian;
                 fun teamData => calculateWeightedMedian teamData None] ->
        calc Null
        = inl (TypeError "Cannot read properties of null (reading 'map')")
        /\ calc Undefined
           = inl (TypeError "Cannot read properties of undefined (reading 'map')")
        /\ calc NotArray = inl (TypeError "teamData.map is not a function"))
  /\ (forall name teamData s,
        In name ["rffl_standard"; "statistical_median"; "weighted_median"] ->
        match teamData with
        | TeamArray _ => True
        | _ =>
            fst (calculateWithAlgorithm new name teamData s) = inl (no_map teamData)
            /\ invoked (events (snd (calculateWithAlgorithm new name teamData s)))
               = invoked (events s) ++ [name]
        end).
Proof.
  split; [|split; [|split; [|split]]].
  - unfold calculateRFFLMedian.
    rewrite length_map, sort_values_length, length_map.
    destruct (length l =? 12)%nat; cbn [negb]; eauto.
  - eexists. split; [reflexivity|]. cbn [teams].
    now rewrite sort_length, length_map.
  - eexists. split; [reflexivity|]. cbn [teams].
    now rewrite sort_length, length_map.
  - intros calc [<-|[<-|[<-|[]]]]; repeat split.
  - intros name teamData s [<-|[<-|[<-|[]]]];
      destruct teamData as [| | |l0]; try exact I;
      (split; [reflexivity|]);
      cbn; rewrite invoked_app; reflexivity.
Qed.

(** ** ScoringAgent: calling an algorithm by name *)

Lemma calculateWithAlgorithm_cases
    (this : Agent) (name : string) (teamData : candidate) (s : State) :
  match get name (scoringAlgorithms this) with
  | None =>
      calculateWithAlgorithm this name teamData s
      = (inl (Error ("Unknown algorithm: " ++ name)%string), s)
  | Some a =>
      match calculate_with a teamData with
      | inr q =>
          calculateWithAlgorithm this name teamData s
          = (inr {| strategy := q;
                    algorithm := name;
                    calculationTime :=
                      (performance_now s (S (perf_reads s))
                       - performance_now s (perf_reads s))%float;
                    confidence := accuracy a |},
             after_call name s)
      | inl e =>
          fst (calculateWithAlgorithm this name teamData s) = inl e
          /\ medianHistory (snd (calculateWithAlgorithm this name teamData s))
             = medianHistory s
      end
  end.
Proof.
  unfold calculateWithAlgorithm.
  destruct (get name (scoringAlgorithms this)) as [a|]; [|reflexivity].
  unfold bind, read_performance_now, emit, lift, ret.
  destruct (calculate_with a teamData) as [e|q]; cbn; auto.
Qed.

Lemma calculateWithAlgorithm_stamps_the_result_aux
    (this : Agent) (name : string) (teamData : candidate) (s : State) :
  match calculateWithAlgorithm this name teamData s with
  | (inr r, _) => algorithm r = name
  | (inl _, _) => True
  end.
Proof.
  pose proof (calculateWithAlgorithm_cases this name teamData s) as H.
  destruct (get name (scoringAlgorithms this)) as [a|].
  - destruct (calculate_with a teamData) as [e|q].
    + destruct (calculateWithAlgorithm this name teamData s) as [[e'|r] s'];
        [exact I|]. cbn [fst] in H. destruct H as [H _]. discriminate.
    + rewrite H. reflexivity.
  - rewrite H. exact I.
Qed.

(** A result that [calculateWithAlgorithm] returns names the
    algorithm that was asked for, carries that algorithm's registered
    accuracy as its confidence and the difference of two successive clock
    readings as its calculation time, and holds what the algorithm
    computed. A name that is not registered throws 'Unknown algorithm:
    name' without reading the clock or calling anything. *)
Lemma calculateWithAlgorithm_stamps_the_result
    (this : Agent) (name : string) (teamData : candidate) (s : State) :
  match calculateWithAlgorithm this name teamData s with
  | (inr r, s') =>
      algorithm r = name
      /\ (exists a,
            get name (scoringAlgorithms this) = Some a
            /\ calculate_with a teamData = inr (strategy r)
            /\ confidence r = accuracy a)
      /\ calculationTime r
         = (performance_now s (S (perf_reads s)) - performance_now s (perf_reads s))%float
      /\ s' = after_call name s
  | (inl e, s') =>
      (get name (scoringAlgorithms this) = None
       /\ e = Error ("Unknown algorithm: " ++ name)%string /\ s' = s)
      \/ (exists a,
            get name (scoringAlgorithms this) = Some a
            /\ calculate_with a teamData = inl e)
  end.
Proof.
  pose proof (calculateWithAlgorithm_cases this name teamData s) as H.
  destruct (get name (scoringAlgorithms this)) as [a|].
  - destruct (calculate_with a teamData) as [e|q] eqn:Hq.
    + destruct (calculateWithAlgorithm this name teamData s) as [[e'|r] s'];
        cbn [fst] in H; destruct H as [H _]; [|discriminate].
      injection H as ->. right. eauto.
    + rewrite H. cbn [algorithm confidence calculationTime strategy]. eauto 10.
  - rewrite H. left. auto.
Qed.

(** X13. Whatever the agent's algorithms and rules are,
    [calculateWithFallback] ends in one of two ways: it returns a result
    of the statistical or of the weighted algorithm that [validateResult]
    accepts, or it throws 'All calculation algorithms failed'. An error
    thrown by an algorithm never escapes it, and a rejected result is never
    returned. *)
Theorem calculateWithFallback_returns_only_accepted_results
    (this : Agent) (teamData : candidate) (s : State) :
  match fst (calculateWithFallback this teamData s) with
  | inr r =>
      isValid (validateResult (validationRules this) (VResult r)) = true
      /\ (algorithm r = "statistical_median" \/ algorithm r = "weighted_median")
  | inl e => e = Error "All calculation algorithms failed"
  end.
Proof.
  unfold calculateWithFallback, fallback_loop.
  unfold bind at 1. unfold try_catch at 1. unfold bind at 1.
  pose proof (calculateWithAlgorithm_stamps_the_result_aux this "statistical_median"
                teamData s) as H2.
  destruct (calculateWithAlgorithm this "statistical_median" teamData s)
    as [[e2|r2] s2].
  - unfold bind at 1, emit at 1, ret at 1. cbv iota beta.
    unfold bind at 1. unfold try_catch at 1. unfold bind at 1.
    match goal with
    | |- context [calculateWithAlgorithm this "weighted_median" teamData ?st] =>
        pose proof (calculateWithAlgorithm_stamps_the_result_aux this
                      "weighted_median" teamData st) as H3;
        destruct (calculateWithAlgorithm this "weighted_median" teamData st)
          as [[e3|r3] s3]
    end.
    + reflexivity.
    + destruct (isValid (validateResult (validationRules this) (VResult r3))) eqn:Hv3.
      * cbn. split; [exact Hv3|]. right. exact H3.
      * reflexivity.
  - destruct (isValid (validateResult (validationRules this) (VResult r2))) eqn:Hv2.
    + cbn. split; [exact Hv2|]. left. exact H2.
    + unfold ret at 1. cbv iota beta.
      unfold bind at 1. unfold try_catch at 1. unfold bind at 1.
      pose proof (calculateWithAlgorithm_stamps_the_result_aux this
                    "weighted_median" teamData s2) as H3.
      destruct (calculateWithAlgorithm this "weighted_median" teamData s2)
        as [[e3|r3] s3].
      * reflexivity.
      * destruct (isValid (validateResult (validationRules this) (VResult r3))) eqn:Hv3.
        -- cbn. split; [exact Hv3|]. right. exact H3.
        -- reflexivity.
Qed.

(** ** ScoringAgent: the loop over the detectors *)

Lemma run_detectors_spec (detectors : list (string * Detector)) (data : jsval) :
  forall (results : list DetectorResult) (s : State),
  exists s',
    run_detectors detectors data results s
    = (inr (results
            ++ flat_map
                 (fun entry : string * Detector =>
                    match detect (snd entry) (medianHistory s) data with
                    | inr found =>
                        [ {| detector := fst entry;
                             detection := found;
                             result_confidence := detector_confidence (snd entry) |} ]
                    | inl _ => []
                    end)
                 detectors),
       s')
    /\ medianHistory s' = medianHistory s
    /\ performance_now s' = performance_now s
    /\ perf_reads s' = perf_reads s
    /\ Date_now s' = Date_now s
    /\ date_reads s' = date_reads s
    /\ events s'
       = events s
         ++ flat_map
              (fun entry : string * Detector =>
                 match detect (snd entry) (medianHistory s) data with
                 | inr _ => []
                 | inl _ =>
                     [ConsoleWarn ("Anomaly detector " ++ fst entry ++ " failed:")%string]
                 end)
              detectors.
Proof.
  induction detectors as [|[name d] rest IH]; intros results s.
  - exists s. cbn [run_detectors flat_map]. rewrite !app_nil_r. unfold ret. tauto.
  - destruct (detect d (medianHistory s) data) as [error|found] eqn:Hd.
    + rewrite (run_detectors_threw name d rest data results s error Hd).
      destruct (IH results (warned ("Anomaly detector " ++ name ++ " failed:") s))
        as (s' & Hrun & Hh & Hp & Hpr & Hdn & Hdr & Hev).
      exists s'. cbn [flat_map fst snd]. rewrite Hd. cbn [app].
      unfold warned, emit in *; cbn [snd medianHistory performance_now perf_reads
                                      Date_now date_reads events] in *.
      rewrite Hrun, Hev, <- app_assoc. cbn [app]. tauto.
    + rewrite (run_detectors_returned name d rest data results s found Hd).
      destruct (IH (results ++ [ {| detector := name; detection := found;
                                    result_confidence := detector_confidence d |} ]) s)
        as (s' & Hrun & Hh & Hp & Hpr & Hdn & Hdr & Hev).
      exists s'. cbn [flat_map fst snd]. rewrite Hd. cbn [app].
      rewrite Hrun, <- app_assoc. cbn [app]. tauto.
Qed.

Lemma detectAnomalies_events (this : Agent) (data : jsval) (s : State) :
  exists v s',
    detectAnomalies this data s = (inr v, s')
    /\ medianHistory s' = medianHistory s
    /\ date_reads s' = date_reads s
    /\ Date_now s' = Date_now s
    /\ invoked (events s') = invoked (events s).
Proof.
  unfold detectAnomalies, bind.
  destruct (run_detectors_spec (anomalyDetectors this) data [] s)
    as (s' & Hrun & Hh & Hp & Hpr & Hdn & Hdr & Hev).
  match type of Hrun with _ = (inr ?l, _) => set (detected := l) in * end.
  rewrite Hrun. unfold ret. exists (aggregateAnomalyResults detected), s'.
  split; [reflexivity|].
  split; [exact Hh|]. split; [exact Hdr|]. split; [exact Hdn|].
  rewrite Hev, invoked_app.
  assert (Hnone : forall warnings : list (string * Detector),
             invoked
               (flat_map
                  (fun entry : string * Detector =>
                     match detect (snd entry) (medianHistory s) data with
                     | inr _ => []
                     | inl _ =>
                         [ConsoleWarn ("Anomaly detector " ++ fst entry ++ " failed:")%string]
                     end)
                  warnings) = []).
  { induction warnings as [|[name d] rest IH]; [reflexivity|].
    cbn [flat_map snd fst]. rewrite invoked_app, IH.
    destruct (detect d (medianHistory s) data); reflexivity. }
  rewrite Hnone. apply app_nil_r.
Qed.

(** X14. [detectAnomalies] never throws, whatever the registered
    detectors do with the data. A detector that throws is dropped with one
    console warning that names it; the verdict lists the detectors that
    returned, in the order of the registry, each with its registered
    confidence. Neither the history nor the clocks are touched. *)
Theorem detectAnomalies_survives_failing_detectors
    (this : Agent) (data : jsval) (s : State) :
  exists v s',
    detectAnomalies this data s = (inr v, s')
    /\ map (fun r => (detector r, result_confidence r)) (Verdict.detectorResults v)
       = map (fun entry => (fst entry, detector_confidence (snd entry)))
           (filter (returns_on (medianHistory s) data) (anomalyDetectors this))
    /\ events s'
       = events s
         ++ map (fun entry => ConsoleWarn ("Anomaly detector " ++ fst entry ++ " failed:")%string)
              (filter (fun entry => negb (returns_on (medianHistory s) data entry))
                 (anomalyDetectors this))
    /\ medianHistory s' = medianHistory s
    /\ perf_reads s' = perf_reads s
    /\ date_reads s' = date_reads s.
Proof.
  unfold detectAnomalies, bind.
  destruct (run_detectors_spec (anomalyDetectors this) data [] s)
    as (s' & Hrun & Hh & Hp & Hpr & Hdn & Hdr & Hev).
  rewrite Hrun. unfold ret. eexists; eexists. split; [reflexivity|].
  cbn [aggregateAnomalyResults Verdict.detectorResults app].
  split; [|split; [|tauto]].
  - clear. induction (anomalyDetectors this) as [|[name d] rest IH]; [reflexivity|].
    cbn [flat_map filter fst snd]. unfold returns_on at 1. cbn [snd].
    destruct (detect d (medianHistory s) data); cbn [app map fst snd detector
                                                     result_confidence];
      now rewrite IH.
  - rewrite Hev. f_equal. clear.
    induction (anomalyDetectors this) as [|[name d] rest IH]; [reflexivity|].
    cbn [flat_map filter fst snd]. unfold returns_on at 1. cbn [snd].
    destruct (detect d (medianHistory s) data); cbn [negb app map fst];
      now rewrite IH.
Qed.

(** ** ScoringAgent: what [calculate] returns when it returns *)

(** X15. Under any registries, a result that [calculate] returns is the
    standard algorithm's: the input passed pre-validation, the result
    passed [validateResult], no other algorithm was called, and exactly one
    record of it, stamped with the reading of [Date.now()], was pushed on
    the bounded history. *)
Theorem calculate_returns_only_the_validated_standard_result
    (this : Agent) (teamData : candidate) (s s' : State) (r : CalcResult)
    (Hrun : calculate this teamData s = (inr r, s')) :
  isValid (preValidateData teamData) = true
  /\ isValid (validateResult (validationRules this) (VResult r)) = true
  /\ fst (calculateWithAlgorithm this "rffl_standard" teamData s) = inr r
  /\ algorithm r = "rffl_standard"
  /\ invoked (events s') = invoked (events s) ++ ["rffl_standard"]
  /\ medianHistory s'
     = push_bounded (medianHistory s) (history_record (Date_now s (date_reads s)) r)
  /\ date_reads s' = S (date_reads s).
Proof.
  unfold calculate in Hrun.
  destruct (isValid (preValidateData teamData)); [|discriminate].
  cbn [negb] in Hrun. split; [reflexivity|].
  unfold bind at 1 in Hrun.
  pose proof (calculateWithAlgorithm_cases this "rffl_standard" teamData s) as Hcall.
  destruct (get "rffl_standard" (scoringAlgorithms this)) as [a|];
    [|rewrite Hcall in Hrun; discriminate].
  destruct (calculate_with a teamData) as [e|q].
  { destruct Hcall as [Hcall _].
    destruct (calculateWithAlgorithm this "rffl_standard" teamData s) as [[e'|r'] s1];
      [discriminate|discriminate]. }
  rewrite Hcall in Hrun |- *. cbn [fst].
  set (r1 := {| strategy := q; algorithm := "rffl_standard";
                calculationTime := _; confidence := accuracy a |}) in *.
  destruct (isValid (validateResult (validationRules this) (VResult r1))) eqn:Hv;
    [|discriminate].
  cbn [negb] in Hrun. unfold bind at 1 in Hrun. unfold performAnomalyDetection in Hrun.
  destruct (detectAnomalies_events this
              (VData (median r1) (teams r1) (map score_of (teams r1)))
              (after_call "rffl_standard" s))
    as (v & s2 & Hdet & Hh & Hdr & Hdn & Hinv).
  rewrite Hdet in Hrun.
  unfold after_call in Hh, Hdr, Hdn, Hinv;
    cbn [medianHistory date_reads Date_now events] in Hh, Hdr, Hdn, Hinv.
  rewrite invoked_app in Hinv. change (invoked [Invoke "rffl_standard"])
    with ["rffl_standard"] in Hinv.
  assert (Hstore : forall s3 : State,
             medianHistory s3 = medianHistory s ->
             date_reads s3 = date_reads s ->
             Date_now s3 = Date_now s ->
             invoked (events s3) = invoked (events s) ++ ["rffl_standard"] ->
             (storeCalculationHistory r1 ;;; ret r1) s3 = (inr r, s') ->
             r1 = r
             /\ invoked (events s') = invoked (events s) ++ ["rffl_standard"]
             /\ medianHistory s'
                = push_bounded (medianHistory s)
                    (history_record (Date_now s (date_reads s)) r1)
             /\ date_reads s' = S (date_reads s)).
  { intros s3 H3h H3d H3n H3i Hend.
    unfold storeCalculationHistory, bind, read_Date_now, read_history, write_history,
      ret in Hend.
    cbn in Hend. injection Hend as <- <-.
    cbn [medianHistory date_reads events]. rewrite H3h, H3d, H3n. tauto. }
  unfold bind at 1 in Hrun.
  destruct (Verdict.hasAnomalies v && Js.gt (Verdict.severity v) 0.8).
  - unfold bind at 1, emit at 1, flagForReview, emit in Hrun.
    match type of Hrun with
    | _ ?s3 = _ => destruct (Hstore s3) as (<- & Hi & Hm & Hd)
    end; cbn [medianHistory date_reads Date_now events]; auto.
    + rewrite !invoked_app, Hinv. cbn [invoked flat_map app].
      now rewrite !app_nil_r.
    + tauto.
  - unfold ret at 1 in Hrun.
    destruct (Hstore s2) as (<- & Hi & Hm & Hd); auto. tauto.
Qed.

Lemma calculate_returns_only_the_validated_standard_result_witness :
  exists r s',
    calculate lenient (TeamArray scenarioA) fresh = (inr r, s')
    /\ algorithm r = "rffl_standard"
    /\ length (medianHistory s') = 1.
Proof.
  destruct (calculate lenient (TeamArray scenarioA) fresh) as [[e|r] s'] eqn:Hrun;
    [vm_compute in Hrun; discriminate|].
  exists r, s'. split; [reflexivity|].
  destruct (calculate_returns_only_the_validated_standard_result
              lenient (TeamArray scenarioA) fresh s' r Hrun)
    as (_ & _ & _ & Halg & _ & Hh & _).
  split; [exact Halg|]. rewrite Hh. reflexivity.
Defined.

(** ** ScoringAgent: what the detectors can report *)

Lemma sub_nan_r (a : float) : (a - nan)%float = nan.
Proof.
  apply is_nan_Prim2SF. rewrite sub_spec. change (Prim2SF nan) with S754_nan.
  destruct (Prim2SF a); reflexivity.
Qed.


Lemma is_nan_eq (x : float) : is_nan x = true -> x = nan.
Proof. intros H. apply is_nan_Prim2SF. now apply Prim2SF_nan_inv. Qed.

(** The historical detector on something that is not a number. *)
Lemma detectHistoricalAnomalies_blind (h : list History.t) (median : jsval) :
  is_nan (toNumber_val median) = true ->
  detectHistoricalAnomalies h median = inr (report []).
Proof.
  intros Hnan. unfold detectHistoricalAnomalies.
  destruct (length (map History.median h) <? 5)%nat; [reflexivity|].
  rewrite (is_nan_eq _ Hnan), nan_sub, nan_div. reflexivity.
Qed.

Lemma Forall_concat_mapi_from {A B : Type} (P : B -> Prop) (f : A -> nat -> list B)
    (l : list A) :
  (forall x k, Forall P (f x k)) -> forall i, Forall P (concat (mapi_from i f l)).
Proof.
  intros Hf. induction l as [|x l IH]; intros i; simpl; [constructor|].
  apply Forall_app. split; [apply Hf|apply IH].
Qed.

Lemma report_at_most_one (anomalies : list Anomaly) :
  Forall (fun a => at_most_one (severity_of a)) anomalies ->
  Forall (fun a => at_most_one (severity_of a)) (Detection.anomalies (report anomalies))
  /\ at_most_one (Detection.severity (report anomalies)).
Proof.
  intros Hall. split; [exact Hall|].
  unfold report; cbn [Detection.severity].
  destruct (0 <? length anomalies)%nat; [|reflexivity].
  unfold Js.max. apply max_not_above; [|reflexivity].
  now apply Forall_map.
Qed.

Lemma min2_one_at_most_one (x : float) : at_most_one (Js.min2 x 1).
Proof. apply min2_not_above_r. Qed.

Lemma detectStatisticalAnomalies_at_most_one (scores : jsval) (d : Detection.t) :
  detectStatisticalAnomalies scores = inr d ->
  Forall (fun a => at_most_one (severity_of a)) (Detection.anomalies d)
  /\ at_most_one (Detection.severity d).
Proof.
  unfold detectStatisticalAnomalies.
  destruct scores as [|n|l|ts|r|m ts l]; try discriminate; intros [= <-];
    apply report_at_most_one; [|constructor].
  apply Forall_concat_mapi_from. intros score index.
  destruct (Js.gt _ _); repeat constructor. apply min2_one_at_most_one.
Qed.

Lemma detectHistoricalAnomalies_at_most_one
    (h : list History.t) (median : jsval) (d : Detection.t) :
  detectHistoricalAnomalies h median = inr d ->
  Forall (fun a => at_most_one (severity_of a)) (Detection.anomalies d)
  /\ at_most_one (Detection.severity d).
Proof.
  unfold detectHistoricalAnomalies.
  destruct (length (map History.median h) <? 5)%nat; intros [= <-].
  - split; [constructor|reflexivity].
  - apply report_at_most_one.
    destruct (Js.gt _ _); repeat constructor. apply min2_one_at_most_one.
Qed.

Lemma detectPatternAnomalies_at_most_one (data : jsval) (d : Detection.t) :
  detectPatternAnomalies data = inr d ->
  Forall (fun a => at_most_one (severity_of a)) (Detection.anomalies d)
  /\ at_most_one (Detection.severity d).
Proof.
  unfold detectPatternAnomalies.
  destruct (teams_of data) as [e|[ts|]]; try discriminate; intros [= <-].
  apply report_at_most_one.
  destruct (0 <? _)%nat; repeat constructor. apply min2_one_at_most_one.
Qed.

Lemma detectProjectionAnomalies_at_most_one (teams : jsval) (d : Detection.t) :
  detectProjectionAnomalies teams = inr d ->
  Forall (fun a => at_most_one (severity_of a)) (Detection.anomalies d)
  /\ at_most_one (Detection.severity d).
Proof.
  unfold detectProjectionAnomalies.
  destruct teams as [|n|l|ts|r|m ts l]; try discriminate; intros [= <-];
    apply report_at_most_one; [constructor|].
  apply Forall_concat_mapi_from. intros t index.
  destruct (Js.gt _ _); repeat constructor. apply min2_one_at_most_one.
Qed.

Lemma aggregateAnomalyResults_at_most_one (results : list DetectorResult) :
  Forall (fun r : DetectorResult =>
            Forall (fun a => at_most_one (severity_of a)) (Detection.anomalies r)
            /\ at_most_one (Detection.severity r)) results ->
  Forall (fun a => at_most_one (severity_of a))
    (Verdict.anomalies (aggregateAnomalyResults results))
  /\ at_most_one (Verdict.severity (aggregateAnomalyResults results)).
Proof.
  intros Hall. unfold aggregateAnomalyResults; cbn [Verdict.anomalies Verdict.severity].
  split.
  - apply Forall_flat_map. eapply Forall_impl; [|exact Hall]. now intros r [Hr _].
  - unfold Js.max. apply max_not_above; [|reflexivity].
    apply Forall_app. split; [|repeat constructor].
    apply Forall_map. eapply Forall_impl; [|exact Hall].
    intros r [_ Hr]. unfold Js.or_zero.
    destruct (Js.truthy _); [exact Hr|reflexivity].
Qed.

(** X16. Whatever data the detectors of a new agent are run on, no
    severity exceeds 1: not that of a finding, not that of a detector's
    report, not that of the verdict [detectAnomalies] returns. *)
Theorem no_severity_exceeds_one (data : jsval) (s : State) :
  exists v s',
    detectAnomalies new data s = (inr v, s')
    /\ at_most_one (Verdict.severity v)
    /\ Forall (fun a => at_most_one (severity_of a)) (Verdict.anomalies v)
    /\ Forall (fun r : DetectorResult => at_most_one (Detection.severity r))
         (Verdict.detectorResults v).
Proof.
  unfold detectAnomalies, bind.
  destruct (run_detectors_spec (anomalyDetectors new) data [] s)
    as (s' & Hrun & _).
  rewrite Hrun. unfold ret. eexists; eexists. split; [reflexivity|].
  cbn [app].
  match goal with
  | |- context [aggregateAnomalyResults ?l] => set (results := l)
  end.
  assert (Hall : Forall (fun r : DetectorResult =>
                           Forall (fun a => at_most_one (severity_of a))
                             (Detection.anomalies r)
                           /\ at_most_one (Detection.severity r)) results).
  { subst results. apply Forall_flat_map.
    change (anomalyDetectors new) with setupAnomalyDetectors.
    unfold setupAnomalyDetectors.
    repeat apply Forall_cons; [| | | |apply Forall_nil]; cbn [snd fst detect].
    - destruct (detectStatisticalAnomalies data) eqn:Hd; constructor; [|constructor].
      now apply detectStatisticalAnomalies_at_most_one with data.
    - destruct (detectHistoricalAnomalies (medianHistory s) data) eqn:Hd;
        constructor; [|constructor].
      now apply detectHistoricalAnomalies_at_most_one with (medianHistory s) data.
    - destruct (detectPatternAnomalies data) eqn:Hd; constructor; [|constructor].
      now apply detectPatternAnomalies_at_most_one with data.
    - destruct (detectProjectionAnomalies data) eqn:Hd; constructor; [|constructor].
      now apply detectProjectionAnomalies_at_most_one with data. }
  destruct (aggregateAnomalyResults_at_most_one results Hall) as [Ha Hs].
  split; [exact Hs|]. split; [exact Ha|].
  cbn [aggregateAnomalyResults Verdict.detectorResults].
  eapply Forall_impl; [|exact Hall]. now intros r [_ Hr].
Qed.

(** X17. In the pipeline of a new agent only the pattern detector can
    find anything. [performAnomalyDetection] hands every detector the
    object [{ median, teams, scores }]; the historical detector turns it
    into [NaN], so its z-score is [NaN] and its report is empty however
    long the history is. The verdict holds what the pattern detector found
    on the result's teams: nothing, or one [score_clustering] finding. *)
Theorem pipeline_reports_clustering_only (r : CalcResult) (s : State) :
  exists v s' found,
    performAnomalyDetection new r s = (inr v, s')
    /\ detectPatternAnomalies (VTeams (teams r)) = inl (undefined_has_no "map")
    /\ detectPatternAnomalies (VData (median r) (teams r) (map score_of (teams r)))
       = inr found
    /\ Verdict.detectorResults v
       = [ {| detector := "historical"; detection := report [];
              result_confidence := 0.85 |};
           {| detector := "pattern"; detection := found;
              result_confidence := 0.8 |} ]
    /\ Verdict.anomalies v = Detection.anomalies found
    /\ Verdict.hasAnomalies v = Detection.hasAnomalies found
    /\ (Verdict.anomalies v = []
        \/ exists severity,
             Verdict.anomalies v
             = [score_clustering "Unusual gaps between team scores" severity]).
Proof.
  unfold performAnomalyDetection, detectAnomalies.
  set (data := VData (median r) (teams r) (map score_of (teams r))).
  change (anomalyDetectors new) with setupAnomalyDetectors.
  set (s1 := warned "Anomaly detector statistical failed:" s).
  pose proof (detectHistoricalAnomalies_blind (medianHistory s1) data eq_refl) as Hh.
  assert (Hp : exists anomalies,
             detectPatternAnomalies data = inr (report anomalies)
             /\ (anomalies = []
                 \/ exists severity,
                      anomalies
                      = [score_clustering "Unusual gaps between team scores" severity])).
  { unfold detectPatternAnomalies, data; cbn [teams_of].
    eexists. split; [reflexivity|].
    destruct (0 <? _)%nat; eauto. }
  destruct Hp as (anomalies & Hp & Hkinds).
  unfold bind, setupAnomalyDetectors.
  rewrite (run_detectors_threw _ _ _ data [] s (not_an_array "scores.reduce"))
    by reflexivity.
  fold s1.
  rewrite (run_detectors_returned _ _ _ data [] s1 (report [])) by exact Hh.
  rewrite (run_detectors_returned _ _ _ data _ s1 (report anomalies)) by exact Hp.
  rewrite (run_detectors_threw _ _ _ data _ s1 (not_an_array "teams.forEach"))
    by reflexivity.
  cbn [run_detectors ret app].
  eexists; eexists; exists (report anomalies). split; [reflexivity|].
  split; [reflexivity|]. split; [exact Hp|]. split; [reflexivity|].
  unfold aggregateAnomalyResults;
    cbn [Verdict.anomalies Verdict.hasAnomalies flat_map detection app
         report Detection.anomalies Detection.hasAnomalies].
  rewrite app_nil_r. split; [reflexivity|]. split; [reflexivity|exact Hkinds].
Qed.

(** ** ScoringAgent: the findings of the statistical and of the projection
       detector *)

Lemma in_concat_mapi_from_inv {A B : Type} (f : A -> nat -> list B) (l : list A)
    (e : B) :
  forall i, In e (concat (mapi_from i f l)) ->
            exists k x, nth_error l k = Some x /\ In e (f x (i + k)).
Proof.
  induction l as [|y l IH]; intros i Hin; simpl in Hin; [contradiction|].
  apply in_app_or in Hin. destruct Hin as [Hin|Hin].
  - exists 0, y. rewrite Nat.add_0_r. now split.
  - destruct (IH (S i) Hin) as (k & x & Hat & Hx).
    exists (S k), x. rewrite <- Nat.add_succ_comm. now split.
Qed.

Lemma add_nan_l (a : float) : (nan + a)%float = nan.
Proof. apply is_nan_Prim2SF. rewrite add_spec. reflexivity. Qed.

Lemma add_nan_r (a : float) : (a + nan)%float = nan.
Proof.
  apply is_nan_Prim2SF. rewrite add_spec. change (Prim2SF nan) with S754_nan.
  destruct (Prim2SF a); reflexivity.
Qed.

Lemma sum_from_nan (l : list float) :
  fold_left (fun sum x => (sum + x)%float) l nan = nan.
Proof. induction l as [|x l IH]; simpl; [reflexivity|]. now rewrite add_nan_l. Qed.

Lemma sum_with_nan (l : list float) :
  In nan l -> Js.sum l = nan.
Proof.
  unfold Js.sum. generalize 0%float as init.
  induction l as [|x l IH]; intros init Hin; [contradiction|]. simpl.
  destruct Hin as [->|Hin]; [rewrite add_nan_r; apply sum_from_nan|now apply IH].
Qed.

(** X18. The findings of the statistical detector on an array of scores
    are exactly its entries whose z-score, the distance from the mean in
    standard deviations, is above 2.5, each with its index, its score, its
    z-score and the severity [min(z / 3, 1)]. *)
Theorem statistical_findings_are_the_outliers (l : list float) (a : Anomaly) :
  let mean := (Js.sum l / Js.of_nat (length l))%float in
  let stdDev := calculateStandardDeviation l in
  exists d,
    detectStatisticalAnomalies (VScores l) = inr d
    /\ Detection.hasAnomalies d = negb (length (Detection.anomalies d) =? 0)%nat
    /\ (In a (Detection.anomalies d) <->
        exists index score,
          nth_error l index = Some score
          /\ Js.gt (abs ((score - mean) / stdDev)) 2.5 = true
          /\ a = statistical_outlier index score (abs ((score - mean) / stdDev))
                   (Js.min2 (abs ((score - mean) / stdDev) / 3) 1)).
Proof.
  cbn zeta. unfold detectStatisticalAnomalies.
  eexists. split; [reflexivity|].
  cbn [report Detection.hasAnomalies Detection.anomalies].
  split; [now destruct (concat _)|].
  unfold mapi. split.
  - intros Hin. apply in_concat_mapi_from_inv in Hin.
    destruct Hin as (k & x & Hat & Hin). cbn [Nat.add] in Hin.
    destruct (Js.gt _ _) eqn:Hz; [|contradiction].
    destruct Hin as [<-|[]]. exists k, x. auto.
  - intros (index & score & Hat & Hz & ->).
    apply (in_concat_mapi_from _ l 0 index score); [exact Hat|].
    cbn [Nat.add]. rewrite Hz. now left.
Qed.

(** X19. One score that is not a number silences the statistical
    detector: the mean is [NaN], so is every z-score, and nothing is
    reported, whatever the other scores are. *)
Theorem one_nan_score_silences_the_statistical_detector
    (l : list float) (Hnan : In nan l) :
  detectStatisticalAnomalies (VScores l) = inr (report []).
Proof.
  unfold detectStatisticalAnomalies. do 2 f_equal. unfold mapi.
  apply concat_mapi_from_nil. apply Forall_forall. intros score _ index.
  rewrite (sum_with_nan l Hnan), nan_div, sub_nan_r, nan_div. reflexivity.
Qed.

Lemma one_nan_score_silences_the_statistical_detector_witness :
  detectStatisticalAnomalies (VScores [300; nan; 1; 1; 1; 1; 1; 1; 1; 1; 1; 1]%float)
  = inr (report [])
  /\ exists d,
       detectStatisticalAnomalies (VScores [300; 1; 1; 1; 1; 1; 1; 1; 1; 1; 1; 1]%float)
       = inr d
       /\ Detection.hasAnomalies d = true.
Proof.
  split.
  - apply one_nan_score_silences_the_statistical_detector. right; left; reflexivity.
  - eexists. split; [vm_compute; reflexivity|reflexivity].
Defined.


(** ** ScoringAgent: self-tuning *)

(** X21. [adaptSensitivity] changes one number. The algorithms, the
    rules, the names and the order of the detectors and every detector but
    the named one are left as they are, and so is the whole agent when no
    detector has the name. The named detector keeps its code and its
    confidence; its sensitivity is lowered by 0.05 when more than 0.2 of
    its findings were false, to 0.1 at least; otherwise it is raised by
    0.05 when more than 0.1 of the anomalies were missed, to 1 at most;
    otherwise it stays. So the statistical detector of a new agent goes
    from 0.8 to 0.75 in the first case, also when anomalies were missed
    as well, and to 0.8500000000000001 in the second. *)
Theorem adaptSensitivity_touches_one_sensitivity
    (this : Agent) (detectorName : string) (falsePositives missedAnomalies : float) :
  let tuned := adaptSensitivity this detectorName falsePositives missedAnomalies in
  scoringAlgorithms tuned = scoringAlgorithms this
  /\ validationRules tuned = validationRules this
  /\ map fst (anomalyDetectors tuned) = map fst (anomalyDetectors this)
  /\ (forall other,
        other <> detectorName ->
        get other (anomalyDetectors tuned) = get other (anomalyDetectors this))
  /\ match get detectorName (anomalyDetectors this) with
     | None => tuned = this
     | Some d =>
         exists d',
           get detectorName (anomalyDetectors tuned) = Some d'
           /\ detector_name d' = detector_name d
           /\ detect d' = detect d
           /\ detector_confidence d' = detector_confidence d
           /\ sensitivity d'
              = (if Js.gt falsePositives 0.2
                 then Js.max2 0.1 (sensitivity d - 0.05)
                 else if Js.gt missedAnomalies 0.1
                 then Js.min2 1.0 (sensitivity d + 0.05)
                 else sensitivity d)
           /\ if Js.gt falsePositives 0.2
              then Js.lt (sensitivity d') 0.1 = false
              else if Js.gt missedAnomalies 0.1
              then Js.gt (sensitivity d') 1 = false
              else sensitivity d' = sensitivity d
     end
  /\ map (fun performance : float * float =>
            option_map sensitivity
              (get "statistical"
                 (anomalyDetectors
                    (adaptSensitivity new "statistical"
                       (fst performance) (snd performance)))))
       [(0.3, 0); (0.3, 0.2); (0.1, 0.2); (0.1, 0.05)]%float
     = [Some 0.75; Some 0.75; Some 0.85000000000000009; Some 0.8]%float.
Proof.
  cbn zeta. unfold adaptSensitivity;
    cbn [scoringAlgorithms validationRules anomalyDetectors].
  split; [reflexivity|]. split; [reflexivity|].
  split; [apply adjust_keys|]. split; [|split; [|vm_compute; reflexivity]].
  - intros other Hother. rewrite get_adjust.
    destruct (String.eqb_spec other detectorName); [contradiction|reflexivity].
  - destruct (get detectorName (anomalyDetectors this)) as [d|] eqn:Hget.
    + eexists. rewrite get_adjust, String.eqb_refl, Hget. cbn [option_map].
      split; [reflexivity|].
      cbn [detector_name detect detector_confidence sensitivity].
      repeat (split; [reflexivity|]).
      destruct (Js.gt falsePositives 0.2); [apply max2_not_below_l|].
      destruct (Js.gt missedAnomalies 0.1); [apply min2_not_above_l|reflexivity].
    + rewrite (adjust_missing _ _ _ Hget). now destruct this.
Qed.

Lemma same_algorithms_refl (a : list (string * Algorithm)) : same_algorithms a a.
Proof. intros name. now destruct (get name a). Qed.

Lemma same_algorithms_trans (a b c : list (string * Algorithm)) :
  same_algorithms a b -> same_algorithms b c -> same_algorithms a c.
Proof.
  intros Hab Hbc name. specialize (Hab name). specialize (Hbc name).
  destruct (get name a), (get name b), (get name c); try tauto.
  destruct Hab as [-> ->]. exact Hbc.
Qed.

Lemma same_algorithms_adjust (key : string) (f : Algorithm -> Algorithm)
    (a : list (string * Algorithm)) :
  (forall x, calculate_with (f x) = calculate_with x /\ accuracy (f x) = accuracy x) ->
  same_algorithms a (adjust key f a).
Proof.
  intros Hf name. rewrite get_adjust.
  destruct (String.eqb name key), (get name a) as [x|]; cbn [option_map]; auto.
  destruct (Hf x) as [-> ->]. auto.
Qed.

Lemma same_algorithms_reweigh (performance : list (string * Performance)) :
  forall a, same_algorithms a (fold_left reweigh performance a).
Proof.
  induction performance as [|[name p] rest IH]; intros a; cbn [fold_left].
  - apply same_algorithms_refl.
  - eapply same_algorithms_trans; [|apply IH].
    unfold reweigh. apply same_algorithms_adjust. intros x. split; reflexivity.
Qed.

Lemma reweigh_keys (performance : list (string * Performance)) :
  forall a, map fst (fold_left reweigh performance a) = map fst a.
Proof.
  induction performance as [|[name p] rest IH]; intros a; cbn [fold_left];
    [reflexivity|].
  rewrite IH. unfold reweigh. apply adjust_keys.
Qed.

Lemma calculateWithAlgorithm_ext (this this' : Agent) (name : string)
    (teamData : candidate) (s : State) :
  same_algorithms (scoringAlgorithms this) (scoringAlgorithms this') ->
  calculateWithAlgorithm this' name teamData s
  = calculateWithAlgorithm this name teamData s.
Proof.
  intros Hsame. specialize (Hsame name). unfold calculateWithAlgorithm.
  destruct (get name (scoringAlgorithms this)) as [x|],
           (get name (scoringAlgorithms this')) as [y|]; try contradiction;
    [|reflexivity].
  destruct Hsame as [-> ->]. reflexivity.
Qed.

Lemma same_detector_refl (ds : list (string * Detector)) : Forall2 same_detector ds ds.
Proof. induction ds; constructor; [repeat split|assumption]. Qed.

Lemma same_detector_adjust (key : string) (f : Detector -> Detector)
    (ds : list (string * Detector)) :
  (forall d, detect (f d) = detect d
             /\ detector_confidence (f d) = detector_confidence d) ->
  Forall2 same_detector ds (adjust key f ds).
Proof.
  intros Hf. induction ds as [|[name d] ds IH]; cbn [adjust]; [constructor|].
  destruct (String.eqb key name).
  - constructor; [|apply same_detector_refl].
    destruct (Hf d) as [Hd Hc]. repeat split; cbn [fst snd]; auto.
  - constructor; [repeat split|exact IH].
Qed.

Lemma same_detector_updateAnomalyParameters
    (ds : list (string * Detector)) (patterns : option Patterns) :
  Forall2 same_detector ds (updateAnomalyParameters ds patterns).
Proof.
  unfold updateAnomalyParameters.
  induction ds as [|[name d] ds IH]; cbn [map]; constructor; [|exact IH].
  destruct (Js.gt _ _); repeat split.
Qed.

Lemma run_detectors_ext (ds ds' : list (string * Detector)) (data : jsval) :
  Forall2 same_detector ds ds' ->
  forall results s,
    run_detectors ds' data results s = run_detectors ds data results s.
Proof.
  induction 1 as [|[name d] [name' d'] ds ds' (Hn & Hd & Hc) _ IH];
    intros results s; [reflexivity|].
  cbn [fst snd] in Hn, Hd, Hc. subst name'.
  destruct (detect d (medianHistory s) data) as [error|found] eqn:Hrun.
  - rewrite (run_detectors_threw name d ds data results s error Hrun).
    rewrite (run_detectors_threw name d' ds' data results s error)
      by (now rewrite <- Hd).
    apply IH.
  - rewrite (run_detectors_returned name d ds data results s found Hrun).
    rewrite (run_detectors_returned name d' ds' data results s found)
      by (now rewrite <- Hd).
    rewrite Hc. apply IH.
Qed.

Lemma bind_ext {A B : Type} (m m' : M A) (f f' : A -> M B) (s : State) :
  m s = m' s -> (forall a s1, f a s1 = f' a s1) -> bind m f s = bind m' f' s.
Proof.
  intros Hm Hf. unfold bind. rewrite Hm.
  destruct (m' s) as [[e|a] s1]; [reflexivity|apply Hf].
Qed.

(** Agents that differ in priorities and sensitivities only calculate
    alike. *)
Lemma calculation_ext (this this' : Agent) (teamData : candidate) (s : State) :
  same_algorithms (scoringAlgorithms this) (scoringAlgorithms this') ->
  validationRules this' = validationRules this ->
  Forall2 same_detector (anomalyDetectors this) (anomalyDetectors this') ->
  (forall name,
     calculateWithAlgorithm this' name teamData s
     = calculateWithAlgorithm this name teamData s)
  /\ (forall data, detectAnomalies this' data s = detectAnomalies this data s)
  /\ calculateWithFallback this' teamData s = calculateWithFallback this teamData s
  /\ calculate this' teamData s = calculate this teamData s.
Proof.
  intros Halgs Hrules Hdets.
  assert (Hcall : forall name s0,
             calculateWithAlgorithm this' name teamData s0
             = calculateWithAlgorithm this name teamData s0)
    by (intros; now apply calculateWithAlgorithm_ext).
  assert (Hdetect : forall data s0,
             detectAnomalies this' data s0 = detectAnomalies this data s0).
  { intros data s0. unfold detectAnomalies, bind.
    now rewrite (run_detectors_ext _ _ data Hdets). }
  split; [intros; apply Hcall|]. split; [intros; apply Hdetect|]. split.
  - unfold calculateWithFallback.
    generalize ["statistical_median"; "weighted_median"] as algorithms. revert s.
    intros s algorithms. revert s.
    induction algorithms as [|name rest IH]; intros s; cbn [fallback_loop];
      [reflexivity|].
    unfold bind, try_catch. rewrite Hcall, Hrules.
    destruct (calculateWithAlgorithm this name teamData s) as [[e|r] s1].
    + unfold emit, ret. apply IH.
    + destruct (isValid _); unfold emit, ret; [reflexivity|apply IH].
  - unfold calculate. rewrite Hrules.
    destruct (negb _); [reflexivity|].
    apply bind_ext; [apply Hcall|]. intros r s1.
    destruct (negb _); [reflexivity|].
    apply bind_ext; [apply Hdetect|]. reflexivity.
Qed.

Lemma same_detector_keys (ds ds' : list (string * Detector)) :
  Forall2 same_detector ds ds' -> map fst ds' = map fst ds.
Proof.
  induction 1 as [|e e' ds ds' (Hn & _) _ IH]; [reflexivity|].
  cbn [map]. now rewrite Hn, IH.
Qed.

Lemma optimizeValidationThresholds_keeps (rules : list (string * Rule))
    (patterns : option Patterns) :
  optimizeValidationThresholds rules patterns = rules.
Proof.
  unfold optimizeValidationThresholds. destruct (Js.gt _ _); [apply map_id|reflexivity].
Qed.

Lemma registered_full_history : registered (medianHistory full_history).
Proof.
  unfold registered, full_history; cbn [medianHistory].
  apply Forall_forall. intros calc Hin. apply in_map_iff in Hin.
  destruct Hin as (k & <- & _). left. reflexivity.
Qed.

(** X22. Self-tuning never changes a calculation. [optimizeCalculation],
    run on a history written by the agent, rewrites priorities of
    algorithms and sensitivities of detectors and nothing else: the rules
    and the names in the three registries stay, and since no calculation
    path reads a priority or a sensitivity, [calculateWithAlgorithm],
    [detectAnomalies], [calculateWithFallback] and [calculate] give on the
    tuned agent what they give on the agent before. The same holds after
    [adaptSensitivity]. *)
Theorem tuning_never_changes_a_calculation
    (this : Agent) (history : list History.t) (teamData : candidate) (s : State)
    (Hnames : registered history) :
  let tuned := optimizeCalculation this history in
  validationRules tuned = validationRules this
  /\ map fst (scoringAlgorithms tuned) = map fst (scoringAlgorithms this)
  /\ map fst (anomalyDetectors tuned) = map fst (anomalyDetectors this)
  /\ (forall name,
        calculateWithAlgorithm tuned name teamData s
        = calculateWithAlgorithm this name teamData s)
  /\ (forall data, detectAnomalies tuned data s = detectAnomalies this data s)
  /\ calculateWithFallback tuned teamData s = calculateWithFallback this teamData s
  /\ calculate tuned teamData s = calculate this teamData s
  /\ (forall detectorName falsePositives missedAnomalies,
        let adapted :=
          adaptSensitivity this detectorName falsePositives missedAnomalies in
        (forall data, detectAnomalies adapted data s = detectAnomalies this data s)
        /\ calculate adapted teamData s = calculate this teamData s).
Proof.
  cbn zeta.
  assert (Halgs : same_algorithms (scoringAlgorithms this)
                    (scoringAlgorithms (optimizeCalculation this history)))
    by apply same_algorithms_reweigh.
  assert (Hrules : validationRules (optimizeCalculation this history)
                   = validationRules this)
    by apply optimizeValidationThresholds_keeps.
  assert (Hdets : Forall2 same_detector (anomalyDetectors this)
                    (anomalyDetectors (optimizeCalculation this history)))
    by apply same_detector_updateAnomalyParameters.
  destruct (calculation_ext this (optimizeCalculation this history) teamData s
              Halgs Hrules Hdets) as (Hcall & Hdetect & Hfb & Hcalc).
  split; [exact Hrules|]. split; [apply reweigh_keys|].
  split; [now apply same_detector_keys|].
  split; [exact Hcall|]. split; [exact Hdetect|]. split; [exact Hfb|].
  split; [exact Hcalc|].
  intros detectorName falsePositives missedAnomalies.
  destruct (calculation_ext this
              (adaptSensitivity this detectorName falsePositives missedAnomalies)
              teamData s)
    as (_ & Hdetect' & _ & Hcalc').
  - apply same_algorithms_refl.
  - reflexivity.
  - apply same_detector_adjust. intros d. split; reflexivity.
  - split; assumption.
Qed.

Lemma tuning_never_changes_a_calculation_witness :
  registered (medianHistory full_history)
  /\ map (fun entry : string * Algorithm => (fst entry, priority (snd entry)))
       (scoringAlgorithms (optimizeCalculation new (medianHistory full_history)))
     = [("rffl_standard", 0.99969999999999992%float);
        ("statistical_median", 0.8%float); ("weighted_median", 0.6%float)]
  /\ calculate (optimizeCalculation new (medianHistory full_history))
       (TeamArray scenarioA) fresh
     = calculate new (TeamArray scenarioA) fresh.
Proof.
  split; [exact registered_full_history|]. split; [vm_compute; reflexivity|].
  destruct (tuning_never_changes_a_calculation new (medianHistory full_history)
              (TeamArray scenarioA) fresh registered_full_history)
    as (_ & _ & _ & _ & _ & _ & Hcalc & _).
  exact Hcalc.
Defined.

Lemma last_n_short {A : Type} (n : nat) (l : list A) :
  length l <= n -> last_n n l = l.
Proof.
  intros Hle. unfold last_n.
  replace (length l - n) with 0 by lia. reflexivity.
Qed.

(** X23. [optimizeCalculation] does nothing until the history holds ten
    records: [analyzeCalculationPatterns] returns the empty object, which
    has no algorithm to reweigh and whose [averageAccuracy] is [undefined],
    above no threshold. *)
Theorem optimizeCalculation_waits_for_ten_records
    (this : Agent) (history : list History.t) (Hfew : length history < 10) :
  analyzeCalculationPatterns (last_n 20 history) = None
  /\ optimizeCalculation this history = this.
Proof.
  assert (Hnone : analyzeCalculationPatterns (last_n 20 history) = None).
  { rewrite last_n_short by lia. unfold analyzeCalculationPatterns.
    destruct (Nat.ltb_spec (length history) 10); [reflexivity|lia]. }
  split; [exact Hnone|].
  unfold optimizeCalculation. rewrite Hnone.
  rewrite optimizeValidationThresholds_keeps.
  cbn [adjustAlgorithmWeights fold_left].
  replace (updateAnomalyParameters (anomalyDetectors this) None)
    with (anomalyDetectors this); [now destruct this|].
  unfold updateAnomalyParameters. cbn [patterns_averageAccuracy].
  induction (anomalyDetectors this) as [|[name d] ds IH]; [reflexivity|].
  cbn [map]. rewrite <- IH. reflexivity.
Qed.

Lemma optimizeCalculation_waits_for_ten_records_witness :
  length (firstn 9 (medianHistory full_history)) < 10
  /\ optimizeCalculation new (firstn 9 (medianHistory full_history)) = new
  /\ optimizeCalculation new (firstn 10 (medianHistory full_history)) <> new.
Proof.
  assert (Hfew : length (firstn 9 (medianHistory full_history)) < 10)
    by (vm_compute; lia).
  split; [exact Hfew|]. split.
  - exact (proj2 (optimizeCalculation_waits_for_ten_records new _ Hfew)).
  - intros Heq.
    apply (f_equal (fun a => option_map priority (get "rffl_standard" (scoringAlgorithms a))))
      in Heq.
    vm_compute in Heq. discriminate.
Defined.

(** ** ScoringAgent: the tally of the history *)

Lemma get_app_one {V : Type} (name key : string) (v : V) (m : list (string * V)) :
  get name (m ++ [(key, v)])
  = match get name m with
    | Some x => Some x
    | None => if String.eqb name key then Some v else None
    end.
Proof.
  induction m as [|[k0 v0] m IH]; simpl; [reflexivity|].
  destruct (String.eqb name k0); [reflexivity|exact IH].
Qed.

Lemma records_of_app (name : string) (a b : list History.t) :
  records_of name (a ++ b) = records_of name a ++ records_of name b.
Proof. apply filter_app. Qed.

Lemma sum_snoc (xs : list float) (x : float) :
  Js.sum (xs ++ [x]) = (Js.sum xs + x)%float.
Proof. unfold Js.sum. now rewrite fold_left_app. Qed.

(** What the tally holds for one name after the records [seen]. *)
Lemma tally_invariant (name : string) (history : list History.t) :
  forall (seen : list History.t) (algorithms : list (string * Performance)),
    match get name algorithms with
    | None => records_of name seen = []
    | Some p =>
        records_of name seen <> []
        /\ count p = length (records_of name seen)
        /\ totalTime p = Js.sum (map History.calculationTime (records_of name seen))
        /\ accuracies p = map History.confidence (records_of name seen)
    end ->
    match get name (fold_left tally history algorithms) with
    | None => records_of name (seen ++ history) = []
    | Some p =>
        records_of name (seen ++ history) <> []
        /\ count p = length (records_of name (seen ++ history))
        /\ totalTime p
           = Js.sum (map History.calculationTime (records_of name (seen ++ history)))
        /\ accuracies p = map History.confidence (records_of name (seen ++ history))
    end.
Proof.
  induction history as [|calc rest IH]; intros seen algorithms Hinv.
  - cbn [fold_left]. now rewrite app_nil_r.
  - cbn [fold_left].
    replace (seen ++ calc :: rest) with ((seen ++ [calc]) ++ rest)
      by (now rewrite <- app_assoc).
    apply IH. clear IH. unfold tally. rewrite get_adjust, records_of_app.
    unfold records_of at 2 4 6 8 10. cbn [filter].
    rewrite (String.eqb_sym (History.algorithm calc) name).
    destruct (String.eqb_spec name (History.algorithm calc)) as [Heq|Hne].
    + subst name.
      destruct (get (History.algorithm calc) algorithms) as [p|] eqn:Hget.
      * rewrite Hget. cbn [option_map count totalTime accuracies].
        destruct Hinv as (_ & Hc & Ht & Ha).
        split; [now destruct (records_of _ seen)|].
        rewrite length_app, !map_app. cbn [length map].
        rewrite sum_snoc, Hc, Ht, Ha. auto.
      * rewrite get_app_one, Hget, String.eqb_refl.
        cbn [option_map count totalTime accuracies].
        rewrite Hinv. cbn [app length map]. split; [discriminate|].
        repeat split.
    + rewrite app_nil_r.
      destruct (get (History.algorithm calc) algorithms) as [q|];
        [exact Hinv|].
      rewrite get_app_one.
      destruct (get name algorithms) as [p|]; [exact Hinv|].
      destruct (String.eqb_spec name (History.algorithm calc)); [contradiction|].
      exact Hinv.
Qed.

(** X24. From ten records on, [analyzeCalculationPatterns] tallies the
    history by algorithm. An algorithm has an entry exactly when some
    record names it, and the entry holds the number of its records, the
    sum of their calculation times added up in the order of the history,
    and their confidences in that order. *)
Theorem analyzeCalculationPatterns_tallies_by_algorithm
    (history : list History.t) (name : string)
    (Hnames : registered history) (Hlen : 10 <= length history) :
  exists patterns,
    analyzeCalculationPatterns history = Some patterns
    /\ match get name (algorithmPerformance patterns) with
       | None => records_of name history = []
       | Some p =>
           records_of name history <> []
           /\ count p = length (records_of name history)
           /\ totalTime p
              = Js.sum (map History.calculationTime (records_of name history))
           /\ accuracies p = map History.confidence (records_of name history)
       end.
Proof.
  unfold analyzeCalculationPatterns.
  destruct (Nat.ltb_spec (length history) 10); [lia|].
  eexists. split; [reflexivity|]. cbn [algorithmPerformance].
  apply (tally_invariant name history [] []). reflexivity.
Qed.

Lemma analyzeCalculationPatterns_tallies_by_algorithm_witness :
  exists patterns p,
    analyzeCalculationPatterns (medianHistory full_history) = Some patterns
    /\ get "rffl_standard" (algorithmPerformance patterns) = Some p
    /\ count p = 100
    /\ get "weighted_median" (algorithmPerformance patterns) = None.
Proof.
  destruct (analyzeCalculationPatterns_tallies_by_algorithm
              (medianHistory full_history) "rffl_standard"
              registered_full_history ltac:(vm_compute; lia))
    as (patterns & Hp & Hstd).
  destruct (get "rffl_standard" (algorithmPerformance patterns)) as [p|] eqn:Hget;
    [|vm_compute in Hstd; discriminate].
  exists patterns, p. split; [exact Hp|]. split; [exact Hget|].
  destruct Hstd as (_ & Hc & _). split; [rewrite Hc; reflexivity|].
  vm_compute in Hp. injection Hp as <-. reflexivity.
Defined.

(** ** ScoringAgent: the weighted algorithm with its default weights *)

Lemma mapi_from_unit_weights (l : list Team) :
  forall before : list float,
    mapi_from (length before)
      (fun team index =>
         (toNumber (score team),
          Js.at_ (before ++ map (fun _ => 1%float) l) (Z.of_nat index)))
      l
    = map (fun team => (toNumber (score team), 1%float)) l.
Proof.
  induction l as [|t l IH]; intros before; [reflexivity|].
  cbn [mapi_from map]. f_equal.
  - f_equal. unfold Js.at_.
    destruct (Z.ltb_spec (Z.of_nat (length before)) 0) as [Hneg|_]; [lia|].
    rewrite Nat2Z.id. apply nth_middle.
  - specialize (IH (before ++ [1%float])).
    rewrite length_app, Nat.add_1_r, <- app_assoc in IH. exact IH.
Qed.

Lemma twelve_ones (l : list Team) :
  length l = 12 -> map (fun _ : Team => 1%float) l = repeat 1%float 12.
Proof.
  intros Hlen.
  do 12 (destruct l as [|? l]; [discriminate|]).
  destruct l; [reflexivity|discriminate].
Qed.

(** X25. On twelve teams that each have a score, the weighted
    algorithm, called as the registry calls it (without weights, so every
    weight is 1), computes what the statistical algorithm computes: the
    same median, the same team entries in the same order and the same
    statistics; the two results differ in their quality, 0.9 against 0.95,
    and in nothing else. A missing score parts them: the statistical
    algorithm sorts the scores themselves, and the sort puts an
    [undefined] last, while the weighted one sorts objects and compares
    the missing score as [NaN]. *)
Theorem weighted_is_statistical_on_twelve
    (l : list Team) (Hlen : length l = 12)
    (Hscores : Forall (fun t => is_undefined (score t) = false) l) :
  exists q,
    calculateStatisticalMedian (TeamArray l) = inr q
    /\ quality q = 0.95%float
    /\ calculateWeightedMedian (TeamArray l) None
       = inr {| median := median q; teams := teams q; stats := stats q;
                quality := 0.9 |}.
Proof.
  unfold calculateStatisticalMedian, calculateWeightedMedian.
  eexists. split; [reflexivity|]. split; [reflexivity|].
  cbn [median teams stats].
  unfold mapi.
  pose proof (mapi_from_unit_weights l []) as Hpairs.
  cbn [length app] in Hpairs. rewrite Hpairs. clear Hpairs.
  rewrite (sort_values_defined asc (map score l) (all_defined l Hscores)).
  rewrite <- (sort_map toNumber (fun a b => asc (toNumber a) (toNumber b)) asc)
    by reflexivity.
  rewrite map_map.
  rewrite <- (map_map (fun team => toNumber (score team)) (fun s => (s, 1%float))).
  rewrite (sort_map (fun s => (s, 1%float)) asc
             (fun a b : float * float => (fst a - fst b)%float)) by reflexivity.
  rewrite (twelve_ones l Hlen).
  pose proof (sort_length asc (map (fun team => toNumber (score team)) l)) as Hsorted.
  rewrite length_map, Hlen in Hsorted.
  destruct (Js.sort asc (map (fun team => toNumber (score team)) l))
    as [|s0 [|s1 [|s2 [|s3 [|s4 [|s5 [|s6 [|s7 [|s8 [|s9 [|s10 [|s11 [|s12 rest]]]]]]]]]]]]];
    try discriminate.
  change (weighted_loop
            (map (fun s => (s, 1%float)) [s0; s1; s2; s3; s4; s5; s6; s7; s8; s9; s10; s11])
            (Js.sum (repeat 1%float 12) / 2) 0)
    with ((s5 + s6) / 2)%float.
  reflexivity.
Qed.

Lemma weighted_is_statistical_on_twelve_witness :
  (exists q,
     calculateStatisticalMedian (TeamArray scenarioA) = inr q
     /\ median q = 95.85%float
     /\ option_map median
          (match calculateWeightedMedian (TeamArray scenarioA) None with
           | inr w => Some w
           | inl _ => None
           end)
        = Some 95.85%float)
  /\ (exists q w,
        calculateStatisticalMedian (TeamArray scenarioMissing) = inr q
        /\ calculateWeightedMedian (TeamArray scenarioMissing) None = inr w
        /\ median q = 99.45%float
        /\ median w = 95.85%float).
Proof.
  split.
  - assert (Hscores : Forall (fun t => is_undefined (score t) = false) scenarioA)
      by (repeat constructor).
    destruct (weighted_is_statistical_on_twelve scenarioA eq_refl Hscores)
      as (q & Hq & _ & Hw).
    exists q. split; [exact Hq|].
    assert (Hm : median q = 95.85%float)
      by (vm_compute in Hq; injection Hq as <-; reflexivity).
    split; [exact Hm|]. rewrite Hw. cbn [option_map median]. now rewrite Hm.
  - eexists; eexists. split; [vm_compute; reflexivity|].
    split; [vm_compute; reflexivity|]. split; reflexivity.
Defined.

(** ** ScoringAgent: feedback *)

(** X26. [incorporateFeedback] changes one accuracy. The rules, the
    detectors and the names of the algorithms stay; a feedback accuracy of
    0 or [NaN], or a calculation by an algorithm that is not registered,
    changes nothing at all. Otherwise every later result of the
    calculation's algorithm carries the blend [accuracy * 0.9 + feedback *
    0.1] as its confidence and is otherwise what it was, and the results of
    the other algorithms are what they were. *)
Theorem incorporateFeedback_blends_one_accuracy
    (this : Agent) (calculation : CalcResult) (feedback_accuracy : float)
    (name : string) (teamData : candidate) (s : State) :
  let taught := incorporateFeedback this calculation feedback_accuracy in
  validationRules taught = validationRules this
  /\ anomalyDetectors taught = anomalyDetectors this
  /\ map fst (scoringAlgorithms taught) = map fst (scoringAlgorithms this)
  /\ (if Js.truthy feedback_accuracy
      then match get (algorithm calculation) (scoringAlgorithms this) with
           | None => taught = this
           | Some a =>
               exists a',
                 get (algorithm calculation) (scoringAlgorithms taught) = Some a'
                 /\ calculate_with a' = calculate_with a
                 /\ priority a' = priority a
                 /\ accuracy a' = (accuracy a * 0.9 + feedback_accuracy * 0.1)%float
           end
      else taught = this)
  /\ match calculateWithAlgorithm this name teamData s with
     | (inr r, s') =>
         calculateWithAlgorithm taught name teamData s
         = (inr {| strategy := strategy r;
                   algorithm := algorithm r;
                   calculationTime := calculationTime r;
                   confidence :=
                     if Js.truthy feedback_accuracy
                        && String.eqb name (algorithm calculation)
                     then (confidence r * 0.9 + feedback_accuracy * 0.1)%float
                     else confidence r |},
            s')
     | (inl e, s') => calculateWithAlgorithm taught name teamData s = (inl e, s')
     end.
Proof.
  cbn zeta. unfold incorporateFeedback.
  destruct (Js.truthy feedback_accuracy) eqn:Hfb;
    cbn [validationRules anomalyDetectors scoringAlgorithms andb].
  - split; [reflexivity|]. split; [reflexivity|]. split; [apply adjust_keys|].
    split.
    + destruct (get (algorithm calculation) (scoringAlgorithms this)) as [a|] eqn:Hget.
      * eexists. rewrite get_adjust, String.eqb_refl, Hget. cbn [option_map].
        repeat split.
      * rewrite (adjust_missing _ _ _ Hget). now destruct this.
    + unfold calculateWithAlgorithm; cbn [scoringAlgorithms].
      rewrite get_adjust.
      destruct (String.eqb name (algorithm calculation)),
               (get name (scoringAlgorithms this)) as [a|]; cbn [option_map];
        try reflexivity;
        unfold bind, read_performance_now, emit, lift, ret;
        cbn [calculate_with accuracy];
        destruct (calculate_with a teamData); reflexivity.
  - repeat (split; [reflexivity|]).
    destruct (calculateWithAlgorithm this name teamData s) as [[e|r] s'];
      [reflexivity|]. now destruct r.
Qed.

(** ** ScoringAgent: actions *)


(** ** ScoringAgent: health *)

Lemma skipn_length_app {A : Type} (a b : list A) : skipn (length a) (a ++ b) = b.
Proof. induction a as [|x a IH]; [reflexivity|exact IH]. Qed.

(** X28. [monitorScoringHealth] looks at the last ten records only:
    whatever came before them changes nothing. It publishes at most two
    messages, the degraded quality before the slow performance, each with
    the average over those ten records, and the first one counts 10. *)
Theorem monitorScoringHealth_reads_the_last_ten
    (older recent : list History.t) (Hten : length recent = 10) :
  let averageQuality := (Js.sum (map History.quality recent) / 10)%float in
  let averageTime := (Js.sum (map History.calculationTime recent) / 10)%float in
  monitorScoringHealth (older ++ recent) = monitorScoringHealth recent
  /\ monitorScoringHealth recent
     = (if Js.lt averageQuality 0.8
        then [scoring_quality_degraded averageQuality 10] else [])
       ++ (if Js.gt averageTime 100
           then [scoring_performance_slow averageTime 100] else []).
Proof.
  cbn zeta.
  assert (Hlast : forall before, last_n 10 (before ++ recent) = recent).
  { intros before. unfold last_n. rewrite length_app, Hten.
    replace (length before + 10 - 10) with (length before) by lia.
    apply skipn_length_app. }
  pose proof (Hlast []) as Hrecent. cbn [app] in Hrecent.
  unfold monitorScoringHealth.
  rewrite (Hlast older), Hrecent, Hten. cbn [Nat.eqb].
  split; reflexivity.
Qed.

Lemma monitorScoringHealth_reads_the_last_ten_witness :
  monitorScoringHealth (medianHistory full_history)
  = monitorScoringHealth (skipn 90 (medianHistory full_history))
  /\ monitorScoringHealth (medianHistory full_history) = [].
Proof.
  assert (Hsplit : medianHistory full_history
                   = firstn 90 (medianHistory full_history)
                     ++ skipn 90 (medianHistory full_history))
    by (symmetry; apply firstn_skipn).
  destruct (monitorScoringHealth_reads_the_last_ten
              (firstn 90 (medianHistory full_history))
              (skipn 90 (medianHistory full_history)) eq_refl) as [Hsame _].
  rewrite <- Hsplit in Hsame. split; [exact Hsame|].
  rewrite Hsame. vm_compute. reflexivity.
Defined.

Lemma algorithm_quality (name : string) (a : Algorithm) (teamData : candidate)
    (q : StrategyResult) :
  get name setupScoringAlgorithms = Some a ->
  calculate_with a teamData = inr q ->
  quality q = (if String.eqb name "rffl_standard" then 1.0
               else if String.eqb name "statistical_median" then 0.95
               else 0.9)%float.
Proof.
  unfold setupScoringAlgorithms; cbn [get].
  destruct (String.eqb name "rffl_standard");
    [|destruct (String.eqb name "statistical_median");
      [|destruct (String.eqb name "weighted_median"); [|discriminate]]];
    intros [= <-]; cbn [calculate_with];
    destruct teamData as [| | |l]; try discriminate.
  - unfold calculateRFFLMedian. destruct (negb _); [discriminate|].
    now intros [= <-].
  - unfold calculateStatisticalMedian. now intros [= <-].
  - unfold calculateWeightedMedian. now intros [= <-].
Qed.

(** X29. No result can lower the health score. The branch of
    [updateScoringState] that lowers it needs a quality below 0.7, and the
    results of the three registered algorithms have the qualities 1.0, 0.95
    and 0.9: a standard or a statistical result raises the score by 0.01,
    to 1 at most, and a weighted one leaves it. Only [handleScoringError]
    lowers the score, and never below 0. *)
Theorem results_never_lower_the_health_score
    (name : string) (teamData : candidate) (s s' : State) (r : CalcResult)
    (now : Z) (state : Status) (error : exn)
    (Hrun : calculateWithAlgorithm new name teamData s = (inr r, s')) :
  Js.lt (quality r) 0.7 = false
  /\ healthScore (updateScoringState now r state)
     = (if String.eqb name "weighted_median" then healthScore state
        else Js.min2 1.0 (healthScore state + 0.01))
  /\ (name <> "weighted_median" ->
      Js.gt (healthScore (updateScoringState now r state)) 1 = false)
  /\ calculationAccuracy (updateScoringState now r state) = confidence r
  /\ Js.lt (healthScore (fst (handleScoringError error state))) 0 = false.
Proof.
  pose proof (calculateWithAlgorithm_cases new name teamData s) as Hcases.
  change (scoringAlgorithms new) with setupScoringAlgorithms in Hcases.
  destruct (get name setupScoringAlgorithms) as [a|] eqn:Hget;
    [|rewrite Hcases in Hrun; discriminate].
  destruct (calculate_with a teamData) as [e|q] eqn:Hq.
  { destruct Hcases as [Hcases _]. rewrite Hrun in Hcases. discriminate. }
  rewrite Hcases in Hrun. injection Hrun as <- <-.
  pose proof (algorithm_quality name a teamData q Hget Hq) as Hquality.
  unfold updateScoringState;
    cbn [healthScore calculationAccuracy strategy quality confidence].
  cbn [strategy] in *. rewrite Hquality.
  assert (Hname : String.eqb name "rffl_standard" = true
                  \/ String.eqb name "statistical_median" = true
                  \/ String.eqb name "weighted_median" = true).
  { revert Hget. unfold setupScoringAlgorithms; cbn [get].
    destruct (String.eqb name "rffl_standard"); [auto|].
    destruct (String.eqb name "statistical_median"); [auto|].
    destruct (String.eqb name "weighted_median"); [auto|discriminate]. }
  split; [|split; [|split; [|split]]].
  - destruct (String.eqb name "rffl_standard"); [reflexivity|].
    destruct (String.eqb name "statistical_median"); reflexivity.
  - destruct Hname as [H|[H|H]]; apply String.eqb_eq in H; subst name; reflexivity.
  - intros Hother.
    destruct Hname as [H|[H|H]]; apply String.eqb_eq in H; subst name;
      [| |contradiction]; cbn; apply min2_not_above_l.
  - reflexivity.
  - unfold handleScoringError; cbn [fst healthScore]. apply max2_not_below_l.
Qed.

Lemma results_never_lower_the_health_score_witness :
  exists r s',
    calculateWithAlgorithm new "rffl_standard" (TeamArray scenarioA) fresh = (inr r, s')
    /\ healthScore
         (updateScoringState 0 r
            {| isActive := true; lastActivity := 0; healthScore := 1.0;
               calculationAccuracy := 0; anomalyDetectionRate := 0 |})
       = 1.0%float.
Proof.
  destruct (calculateWithAlgorithm new "rffl_standard" (TeamArray scenarioA) fresh)
    as [[e|r] s'] eqn:Hrun; [vm_compute in Hrun; discriminate|].
  exists r, s'. split; [reflexivity|].
  destruct (results_never_lower_the_health_score "rffl_standard"
              (TeamArray scenarioA) fresh s' r 0
              {| isActive := true; lastActivity := 0; healthScore := 1.0;
                 calculationAccuracy := 0; anomalyDetectionRate := 0 |}
              (Error "") Hrun) as (_ & Hh & _).
  rewrite Hh. vm_compute. reflexivity.
Defined.

(** ** ScoringAgent: the analysis loop *)



(** ** Repeated calculations *)

(** A change of the agent leaves the code of every algorithm as it is,
    and its accuracy too unless it is a feedback on that algorithm. *)
Lemma change_keeps_code (this : Agent) (c : Change) (algorithmName : string) :
  match get algorithmName (scoringAlgorithms this),
        get algorithmName (scoringAlgorithms (change this c)) with
  | Some before, Some after =>
      calculate_with after = calculate_with before
      /\ (teaches algorithmName c = false -> accuracy after = accuracy before)
  | None, None => True
  | _, _ => False
  end.
Proof.
  destruct c as [history|detectorName falsePositives missedAnomalies
                 |calculation feedback_accuracy]; cbn [change teaches].
  - pose proof (same_algorithms_reweigh
                  (match analyzeCalculationPatterns (last_n 20 history) with
                   | Some p => algorithmPerformance p
                   | None => []
                   end)
                  (scoringAlgorithms this) algorithmName) as Hsame.
    unfold optimizeCalculation, adjustAlgorithmWeights; cbn [scoringAlgorithms].
    destruct (get algorithmName (scoringAlgorithms this)),
             (get algorithmName (fold_left reweigh _ (scoringAlgorithms this)));
      try exact Hsame.
    destruct Hsame as [-> ->]. auto.
  - cbn [adaptSensitivity scoringAlgorithms].
    destruct (get algorithmName (scoringAlgorithms this)); auto.
  - unfold incorporateFeedback.
    destruct (Js.truthy feedback_accuracy); cbn [scoringAlgorithms andb].
    + rewrite get_adjust. rewrite (String.eqb_sym (algorithm calculation)).
      destruct (String.eqb algorithmName (algorithm calculation)),
               (get algorithmName (scoringAlgorithms this));
        cbn [option_map calculate_with accuracy]; auto.
      split; [reflexivity|discriminate].
    + destruct (get algorithmName (scoringAlgorithms this)); auto.
Qed.

Lemma changes_keep_code (between : list Change) (algorithmName : string) :
  forall this,
    match get algorithmName (scoringAlgorithms this),
          get algorithmName (scoringAlgorithms (fold_left change between this)) with
    | Some before, Some after =>
        calculate_with after = calculate_with before
        /\ (existsb (teaches algorithmName) between = false ->
            accuracy after = accuracy before)
    | None, None => True
    | _, _ => False
    end.
Proof.
  induction between as [|c between IH]; intros this; cbn [fold_left existsb].
  - destruct (get algorithmName (scoringAlgorithms this)); auto.
  - pose proof (change_keeps_code this c algorithmName) as Hstep.
    specialize (IH (change this c)).
    destruct (get algorithmName (scoringAlgorithms this)) as [before|],
             (get algorithmName (scoringAlgorithms (change this c))) as [middle|],
             (get algorithmName
                (scoringAlgorithms (fold_left change between (change this c))))
               as [after|];
      try tauto.
    destruct Hstep as [Hcode Hacc], IH as [Hcode' Hacc'].
    split; [congruence|].
    intros Hnone. apply Bool.orb_false_iff in Hnone. destruct Hnone as [Hc Hrest].
    rewrite (Hacc' Hrest). now apply Hacc.
Qed.

(** C9, as the code has it. Take two calls of [calculateWithAlgorithm]
    with the same algorithm on the same input: the first on an agent in
    any state, the second after the agent has tuned itself, adapted
    sensitivities and taken feedback any number of times, again in any
    state of history and clocks. Either both throw the same error or both
    return, and then the two results hold the same median, teams, stats
    and quality under the same algorithm name. [calculationTime] is in
    each the difference of the two clock readings of its call, and
    [confidence] is the same unless a feedback on this very algorithm came
    between the calls. [MedianCalculator.calculateMedian] likewise agrees
    with itself in everything except [calculatedAt]. *)
Theorem repeated_calls_agree_up_to_annotations
    (this : Agent) (between : list Change)
    (algorithmName : string) (teamData : candidate) (s1 s2 : State) (now1 now2 : Z)
    (Hbetween : Forall written_by_the_agent between) :
  let later := fold_left change between this in
  match fst (calculateWithAlgorithm this algorithmName teamData s1),
        fst (calculateWithAlgorithm later algorithmName teamData s2) with
  | inr r1, inr r2 =>
      strategy r1 = strategy r2
      /\ algorithm r1 = algorithm r2
      /\ (existsb (teaches algorithmName) between = false ->
          confidence r1 = confidence r2)
      /\ calculationTime r1
         = (performance_now s1 (S (perf_reads s1)) - performance_now s1 (perf_reads s1))%float
      /\ calculationTime r2
         = (performance_now s2 (S (perf_reads s2)) - performance_now s2 (perf_reads s2))%float
  | inl e1, inl e2 => e1 = e2
  | _, _ => False
  end
  /\ match MedianCalculator.calculateMedian now1 teamData,
           MedianCalculator.calculateMedian now2 teamData with
     | inr r1, inr r2 =>
         MedianCalculator.median r1 = MedianCalculator.median r2
         /\ MedianCalculator.sixthPlaceScore r1 = MedianCalculator.sixthPlaceScore r2
         /\ MedianCalculator.seventhPlaceScore r1 = MedianCalculator.seventhPlaceScore r2
         /\ MedianCalculator.teams r1 = MedianCalculator.teams r2
         /\ MedianCalculator.stats r1 = MedianCalculator.stats r2
         /\ MedianCalculator.calculatedAt r1 = now1
         /\ MedianCalculator.calculatedAt r2 = now2
     | inl e1, inl e2 => e1 = e2
     | _, _ => False
     end.
Proof.
  cbn zeta. split.
  - pose proof (changes_keep_code between algorithmName this) as Hcode.
    unfold calculateWithAlgorithm.
    destruct (get algorithmName (scoringAlgorithms this)) as [before|],
             (get algorithmName (scoringAlgorithms (fold_left change between this)))
               as [after|];
      try contradiction; [|reflexivity].
    destruct Hcode as [Hcode Hacc].
    unfold bind, read_performance_now, emit, lift, ret. rewrite Hcode.
    destruct (calculate_with before teamData) as [e|r]; cbn; [reflexivity|].
    repeat split. intros Hnone. symmetry. now apply Hacc.
  - unfold MedianCalculator.calculateMedian.
    destruct teamData as [| | |l]; try reflexivity.
    destruct (negb _); [reflexivity|].
    destruct (nth_error _ _); [|reflexivity].
    destruct (nth_error _ _); [|reflexivity].
    cbn. auto 10.
Qed.

Lemma repeated_calls_agree_up_to_annotations_witness :
  Forall written_by_the_agent
    [Optimized (medianHistory full_history); Adapted "statistical" 0.3 0;
     Taught sample_result 0.5]
  /\ exists r1 r2,
       fst (calculateWithAlgorithm new "rffl_standard" (TeamArray scenarioA) fresh)
       = inr r1
       /\ fst (calculateWithAlgorithm
                 (fold_left change
                    [Optimized (medianHistory full_history);
                     Adapted "statistical" 0.3 0; Taught sample_result 0.5] new)
                 "rffl_standard" (TeamArray scenarioA) uneven_clock)
          = inr r2
       /\ strategy r1 = strategy r2.
Proof.
  assert (Hbetween : Forall written_by_the_agent
                       [Optimized (medianHistory full_history);
                        Adapted "statistical" 0.3 0; Taught sample_result 0.5]).
  { constructor; [exact registered_full_history|]. repeat constructor. }
  split; [exact Hbetween|].
  pose proof (repeated_calls_agree_up_to_annotations new _ "rffl_standard"
                (TeamArray scenarioA) fresh uneven_clock 0 0 Hbetween) as [Hcalls _].
  cbn zeta in Hcalls.
  destruct (fst (calculateWithAlgorithm new "rffl_standard" (TeamArray scenarioA) fresh))
    as [e1|r1] eqn:Hfirst; [vm_compute in Hfirst; discriminate|].
  destruct (fst (calculateWithAlgorithm _ "rffl_standard" (TeamArray scenarioA)
                   uneven_clock)) as [e2|r2] eqn:Hsecond;
    [vm_compute in Hsecond; discriminate|].
  exists r1, r2. split; [reflexivity|]. split; [reflexivity|]. apply Hcalls.
Defined.

(** C9 as stated fails. With a clock whose readings are 0, 1, 4, 9 the
    first call of the standard algorithm on the sample week reports a
    calculation time of 1, the second, right after it, one of 5: the two
    results differ. After a feedback of 0.5 on the first result the second
    call reports a confidence of 0.95 where the first reported 1. Two
    calls of [MedianCalculator.calculateMedian] at different instants
    differ in [calculatedAt]. *)
Lemma repeated_calls_differ_in_annotations :
  (exists r1 s1 r2 s2,
     calculateWithAlgorithm new "rffl_standard" (TeamArray scenarioA) uneven_clock
     = (inr r1, s1)
     /\ calculateWithAlgorithm new "rffl_standard" (TeamArray scenarioA) s1 = (inr r2, s2)
     /\ calculationTime r1 = 1%float
     /\ calculationTime r2 = 5%float
     /\ r1 <> r2)
  /\ (exists r1 s1 r2 s2,
        calculateWithAlgorithm new "rffl_standard" (TeamArray scenarioA) fresh
        = (inr r1, s1)
        /\ calculateWithAlgorithm (incorporateFeedback new r1 0.5) "rffl_standard"
             (TeamArray scenarioA) fresh
           = (inr r2, s2)
        /\ confidence r1 = 1%float
        /\ confidence r2 = 0.95000000000000007%float
        /\ calculationTime r1 = calculationTime r2
        /\ r1 <> r2)
  /\ MedianCalculator.calculateMedian 0 (TeamArray scenarioA)
     <> MedianCalculator.calculateMedian 1 (TeamArray scenarioA).
Proof.
  split; [|split].
  - eexists; eexists; eexists; eexists.
    split; [vm_compute; reflexivity|].
    split; [vm_compute; reflexivity|].
    split; [reflexivity|]. split; [vm_compute; reflexivity|].
    intros Heq. apply (f_equal (fun r => (calculationTime r =? 1)%float)) in Heq.
    vm_compute in Heq. discriminate.
  - eexists; eexists; eexists; eexists.
    split; [vm_compute; reflexivity|].
    split; [vm_compute; reflexivity|].
    split; [reflexivity|]. split; [reflexivity|]. split; [reflexivity|].
    intros Heq. apply (f_equal (fun r => (confidence r =? 1)%float)) in Heq.
    vm_compute in Heq. discriminate.
  - intros Heq.
    apply (f_equal (fun o => match o with
                             | inr r => MedianCalculator.calculatedAt r
                             | inl _ => 0%Z
                             end)) in Heq.
    vm_compute in Heq. discriminate.
Qed.
